(** * BotBuilder: the build / debug / run lifecycle

    Sources:
    - [App] (second document of src/components/Tooltip.tsx): the session
      state and every handler;
    - [buildBot] (src/services/backendService.ts): the build client;
    - [BotRunner], [CodeViewer], [PromptForm], [ConfigurationForm]
      (src/components/ProgressTracker.tsx, PromptForm.tsx,
      ConfigurationForm.tsx): which commands the interface offers;
    - the types of src/unnamed/part_000.

    [App] keeps the session in [useState] cells and [useRef] boxes and
    reacts to user commands, WebSocket events, timer callbacks and settled
    promises, one at a time.  The embedding keeps one record, [World], for
    those cells and boxes and for the resources around them (sockets,
    timers, streams, promises not yet settled, calls made), and one
    function per handler of the source.  An [async] handler is split at
    its [await]: what runs after the [await] is a first-order continuation
    ([Cont]) that waits in the world until the promise settles, so other
    events can come in between, as they can in the browser.

    A closure created during one render keeps the values of that render.
    State setters called with an updater, and refs, act on the current
    world.  Where a handler reads a state variable directly, the value it
    reads is the one of the render that created the handler: for a handler
    attached to a button this is the world of the click; for [stopBot] and
    [startBot] called from a timer, a stream or a continuation it is an
    explicit argument ([sees]), and so are the [logs] and [generatedFiles]
    that [handleRebuild] uses after its [await]. *)

From Stdlib Require Import ZArith NArith Ascii String Decimal Permutation.
From stdpp Require Import base tactics option list.

Set Primitive Projections.
Set Default Proof Using "Type".

Local Open Scope N_scope.

(* ------------------------------------------------------------------ *)
(** ** JavaScript strings and the string methods the handlers call *)
(* ------------------------------------------------------------------ *)

Module JS.

(** A JavaScript string is its sequence of UTF-16 code units. *)
Definition jsstring : Type := list N.

(** [lit s] is the string literal [s] (ASCII source text). *)
Definition lit (s : String.string) : jsstring :=
  List.map N_of_ascii (list_ascii_of_string s).

Definition nl : jsstring := [10].

(** [truthy s]: a string is falsy exactly when it is empty. *)
Definition truthy (s : jsstring) : bool :=
  match s with [] => false | _ :: _ => true end.

Fixpoint startsWith (s p : jsstring) : bool :=
  match p, s with
  | [], _ => true
  | _ :: _, [] => false
  | a :: p', b :: s' => (a =? b) && startsWith s' p'
  end.

(** [s.includes(x)] *)
Fixpoint includes (s x : jsstring) : bool :=
  startsWith s x ||
  match s with
  | [] => false
  | _ :: s' => includes s' x
  end.

(** White space and line terminators removed by [String.prototype.trim]:
    TAB, LF, VT, FF, CR, SP, NBSP, U+1680, U+2000..U+200A, U+2028,
    U+2029, U+202F, U+205F, U+3000, U+FEFF. *)
Definition isWhiteSpace (c : N) : bool :=
  ((9 <=? c) && (c <=? 13)) || (c =? 32) || (c =? 160) || (c =? 5760)
  || ((8192 <=? c) && (c <=? 8202)) || (c =? 8232) || (c =? 8233)
  || (c =? 8239) || (c =? 8287) || (c =? 12288) || (c =? 65279).

Fixpoint trimStart (s : jsstring) : jsstring :=
  match s with
  | [] => []
  | c :: s' => if isWhiteSpace c then trimStart s' else s
  end.

Definition trimEnd (s : jsstring) : jsstring := rev (trimStart (rev s)).

Definition trim (s : jsstring) : jsstring := trimEnd (trimStart s).

(** [s.split(sep)] for a separator of one code unit; the result is never
    empty: [''.split(sep)] is [['']]. *)
Fixpoint split (sep : N) (s : jsstring) : list jsstring :=
  match s with
  | [] => [[]]
  | c :: s' =>
      if c =? sep then [] :: split sep s'
      else match split sep s' with
           | h :: r => (c :: h) :: r
           | [] => [[c]]
           end
  end.

(** [xs.join(sep)] *)
Fixpoint join (sep : jsstring) (xs : list jsstring) : jsstring :=
  match xs with
  | [] => []
  | x :: r =>
      match r with
      | [] => x
      | _ :: _ => x ++ sep ++ join sep r
      end
  end.

(** ASCII letters to lower case.  [toLowerCase] is used by the source only
    in front of [includes('error')]; no code unit outside [A-Z] lowers to
    one of the letters of that word, so this is what the test sees. *)
Definition lowerUnit (c : N) : N :=
  if (65 <=? c) && (c <=? 90) then c + 32 else c.

Definition toLowerCase (s : jsstring) : jsstring := List.map lowerUnit s.

(** Decimal text of a number, as a template literal prints it. *)
Fixpoint digits (d : Decimal.uint) : jsstring :=
  match d with
  | Decimal.Nil => []
  | Decimal.D0 d => 48 :: digits d
  | Decimal.D1 d => 49 :: digits d
  | Decimal.D2 d => 50 :: digits d
  | Decimal.D3 d => 51 :: digits d
  | Decimal.D4 d => 52 :: digits d
  | Decimal.D5 d => 53 :: digits d
  | Decimal.D6 d => 54 :: digits d
  | Decimal.D7 d => 55 :: digits d
  | Decimal.D8 d => 56 :: digits d
  | Decimal.D9 d => 57 :: digits d
  end.

Definition showNat (n : nat) : jsstring := digits (Nat.to_uint n).

(** A [Set] of strings: insertion order, no entry twice. *)
Definition mem (x : jsstring) (s : list jsstring) : bool :=
  bool_decide (x ∈ s).

Definition setAdd (s : list jsstring) (x : jsstring) : list jsstring :=
  if mem x s then s else s ++ [x].

(** [new Set(xs)] and [xs.forEach(x => s.add(x))] *)
Definition setAddAll (s : list jsstring) (xs : list jsstring) : list jsstring :=
  fold_left setAdd xs s.

Definition newSet (xs : list jsstring) : list jsstring := setAddAll [] xs.

End JS.

Import JS.

#[global] Arguments lit : simpl never.
#[global] Arguments showNat : simpl never.

(* ------------------------------------------------------------------ *)
(** ** Data model ([types.ts]) *)
(* ------------------------------------------------------------------ *)

Inductive BuildState :=
| IDLE | VALIDATING | GATHERING_CONFIG | PLANNING | CODING
| BUILDING | RUNNING | DEBUGGING | SUCCESS | ERROR.

Module Bot.
(** [BotRuntimeState] *)
Inductive RuntimeState := STOPPED | RUNNING.
End Bot.

Module LogType.
Inductive t := log | error | user | bot | raw.
End LogType.

Record GeneratedFile := mkFile { name : jsstring; code : jsstring }.

(** [FixedFile extends GeneratedFile] *)
Record FixedFile := mkFixed {
  fixed_name : jsstring;
  fixed_code : jsstring;
  changes_summary : jsstring
}.

(** [LogEntry]; the [timestamp] field holds the wall-clock time of the
    call and is read by the views only, it is left out. *)
Record LogEntry := mkLog { message : jsstring; type : LogType.t }.

Record BotMetadata := mkMeta { username : jsstring; id : N }.

Record RequiredSecret := mkSecret { key : jsstring; description : jsstring }.

(** One entry of [BotStructure.files] *)
Record PlannedFile := mkPlanned {
  planned_name : jsstring;
  purpose : jsstring;
  is_required : bool
}.

(** [BotStructure]; [structure_json] is [JSON.stringify(structure)], which
    the generation calls pass on to the compiler. *)
Record BotStructure := mkStructure {
  files : list PlannedFile;
  structure_json : jsstring
}.

(** [DebugResponse] of [geminiService.debugCode].  The response is parsed
    JSON, so either list may be missing.  [confidence_percent] is the text
    of [Math.round(fixData.confidence * 100)]. *)
Record DebugResponse := mkDebug {
  fixed_files : option (list FixedFile);
  updated_requirements : option (list jsstring);
  confidence_percent : jsstring
}.

Record FileCodeResponse := mkFileCode { file_name : jsstring; fc_code : jsstring }.

Record SetupFilesResponse := mkSetup {
  requirements_txt : jsstring;
  dockerfile : jsstring;
  docker_compose_yml : jsstring;
  readme_md : jsstring
}.

#[global] Instance BuildState_eq_dec : EqDecision BuildState.
Proof. solve_decision. Defined.
#[global] Instance RuntimeState_eq_dec : EqDecision Bot.RuntimeState.
Proof. solve_decision. Defined.
#[global] Instance LogType_eq_dec : EqDecision LogType.t.
Proof. solve_decision. Defined.

(* ------------------------------------------------------------------ *)
(** ** The build connection of [backendService.buildBot] *)
(* ------------------------------------------------------------------ *)

Inductive ReadyState := CONNECTING | OPEN | CLOSING | CLOSED.

#[global] Instance ReadyState_eq_dec : EqDecision ReadyState.
Proof. solve_decision. Defined.

(** One call of [buildBot]: the socket [ws] and the variables its handlers
    close over.  [timeoutId] is [true] while the [setTimeout] watchdog is
    pending (neither fired nor cleared). *)
Record BuildConnection := mkConn {
  readyState : ReadyState;
  conn_files : list GeneratedFile;
  conn_token : jsstring;
  accumulatedErrorLogs : jsstring;
  completed : bool;
  timeoutId : bool
}.

(** [JSON.parse(event.data)] as the [switch] of [ws.onmessage] sees it. *)
Inductive WsData :=
| BUILD_LOG (line : option jsstring)      (* [None]: [data.line] is no string *)
| BUILD_DONE
| BUILD_ERROR (msg : option jsstring)     (* [None]: no [data.message] *)
| OtherMessage                            (* parses, [type] matches no case *)
| Unparseable (raw : jsstring).           (* the handler body throws *)

(** A connection is live while its socket is connecting or open. *)
Definition live (c : BuildConnection) : bool :=
  match readyState c with
  | CONNECTING | OPEN => true
  | CLOSING | CLOSED => false
  end.

(* ------------------------------------------------------------------ *)
(** ** Pending work: what runs when an awaited promise settles *)
(* ------------------------------------------------------------------ *)

(** What the caller of [stopBot()] does once [stopBot] has returned. *)
Inductive AfterStop :=
| StopOnly
    (* [onStop], the countdown callback, the stream's error handler *)
| ThenReset
    (* [handleReset]: [resetBuild(); resetRuntime()] *)
| ThenRebuild (logsAtRender : list LogEntry) (filesAtRender : list GeneratedFile)
    (* [handleRebuild]: the rest of the handler, with the [logs] and
       [generatedFiles] of the render that created it *)
| ThenRestart (rs : Bot.RuntimeState).
    (* [restartBot]: [setTimeout(() => startBot(), 1000)] *)

Inductive Cont :=
| AwaitStopBot (k : AfterStop)            (* [await backend.stopBot()] in [stopBot] *)
| AwaitRunBot (rs : Bot.RuntimeState)     (* [await backend.runBot()] in [startBot] *)
| RestartDelay (rs : Bot.RuntimeState)    (* the 1000 ms timer of [restartBot] *)
| AwaitDebugCode                          (* [await geminiService.debugCode(..)] *)
| AwaitGetBotMetadata
| AwaitExtractRequiredSecrets
| AwaitGenerateStructure (userSecrets : list (jsstring * jsstring))
| AwaitGenerateFileCode (userSecrets : list (jsstring * jsstring))
    (structure : BotStructure) (rest : list PlannedFile)
    (filesToBuild : list GeneratedFile)
| AwaitGenerateSetupFiles (filesToBuild : list GeneratedFile).

(** The value a promise resolves to. *)
Inductive Value :=
| VUnit
| VDebug (r : DebugResponse)
| VMeta (m : BotMetadata)
| VSecrets (secrets : option (list RequiredSecret))
| VStructure (s : BotStructure)
| VFileCode (r : FileCodeResponse)
| VSetup (r : SetupFilesResponse).

Inductive Outcome :=
| Resolved (v : Value)
| Rejected (e_message : jsstring).

(** Calls the client makes on its collaborators, in the order made. *)
Inductive Call :=
| NewWebSocket (conn : nat)
| WsSend (conn : nat) (fs : list GeneratedFile) (tok : jsstring)
| WsCloseCall (conn : nat) (close_code : nat)
| ClearTimeout (conn : nat)
| DebugCode (userPrompt : jsstring) (currentFiles : list GeneratedFile)
    (errorLog : jsstring) (lib : jsstring)
| RunBot
| StopBot
| StreamRuntimeLogs (stream : nat)
| CloseStream (stream : nat)
| SetInterval (timer : nat)
| ClearInterval (timer : nat)
| SetTimeout1000
| GetBotMetadata (tok : jsstring)
| ExtractRequiredSecrets (userPrompt : jsstring)
| GenerateStructure (userPrompt : jsstring) (lib : jsstring)
| GenerateFileCode (userPrompt : jsstring) (f : PlannedFile)
| GenerateSetupFiles (userPrompt : jsstring).

(** A countdown timer armed by [startBot]: [stopSees] is the [runtimeState]
    that the [stopBot] closure called from the callback was created with. *)
Record Interval := mkInterval { active : bool; stopSees : Bot.RuntimeState }.

(** The [EventSource] returned by [streamRuntimeLogs], with the same
    captured [stopBot]. *)
Record LogStream := mkStream { stream_open : bool; stream_stopSees : Bot.RuntimeState }.

(* ------------------------------------------------------------------ *)
(** ** The world: the state cells and refs of [App], and its environment *)
(* ------------------------------------------------------------------ *)

Record World := mkWorld {
  (* form state *)
  prompt : jsstring;
  token : jsstring;
  tokenError : option jsstring;
  library : jsstring;
  requiredSecrets : list RequiredSecret;
  (* build state *)
  buildState : BuildState;
  logs : list LogEntry;
  generatedFiles : list GeneratedFile;
  hasUnrebuiltChanges : bool;
  (* refs of the build/debug loop *)
  buildLoopAttempt : nat;
  currentBuildFiles : list GeneratedFile;
  lastBuildError : jsstring;
  (* runtime state *)
  runtimeState : Bot.RuntimeState;
  runtimeLogs : list LogEntry;
  countdown : Z;
  botMetadata : option BotMetadata;
  countdownIntervalRef : option nat;
  runtimeLogStreamRef : option nat;
  (* environment *)
  connections : list BuildConnection;
  intervals : list Interval;
  streams : list LogStream;
  pending : list (option Cont);
  calls : list Call
}.

Definition RUNTIME_DURATION_SECONDS : Z := 600.
Definition MAX_FIX_ATTEMPTS : nat := 3.
Definition BUILD_TIMEOUT_MS : N := 120000.

(** Assignment to one cell; every other cell keeps its value. *)

Definition setPrompt (v : jsstring) (w : World) : World :=
  mkWorld v (token w) (tokenError w) (library w) (requiredSecrets w)
    (buildState w) (logs w) (generatedFiles w) (hasUnrebuiltChanges w)
    (buildLoopAttempt w) (currentBuildFiles w) (lastBuildError w)
    (runtimeState w) (runtimeLogs w) (countdown w) (botMetadata w)
    (countdownIntervalRef w) (runtimeLogStreamRef w) (connections w)
    (intervals w) (streams w) (pending w) (calls w).

Definition setToken (v : jsstring) (w : World) : World :=
  mkWorld (prompt w) v (tokenError w) (library w) (requiredSecrets w)
    (buildState w) (logs w) (generatedFiles w) (hasUnrebuiltChanges w)
    (buildLoopAttempt w) (currentBuildFiles w) (lastBuildError w)
    (runtimeState w) (runtimeLogs w) (countdown w) (botMetadata w)
    (countdownIntervalRef w) (runtimeLogStreamRef w) (connections w)
    (intervals w) (streams w) (pending w) (calls w).

Definition setTokenError (v : option jsstring) (w : World) : World :=
  mkWorld (prompt w) (token w) v (library w) (requiredSecrets w)
    (buildState w) (logs w) (generatedFiles w) (hasUnrebuiltChanges w)
    (buildLoopAttempt w) (currentBuildFiles w) (lastBuildError w)
    (runtimeState w) (runtimeLogs w) (countdown w) (botMetadata w)
    (countdownIntervalRef w) (runtimeLogStreamRef w) (connections w)
    (intervals w) (streams w) (pending w) (calls w).

Definition setLibrary (v : jsstring) (w : World) : World :=
  mkWorld (prompt w) (token w) (tokenError w) v (requiredSecrets w)
    (buildState w) (logs w) (generatedFiles w) (hasUnrebuiltChanges w)
    (buildLoopAttempt w) (currentBuildFiles w) (lastBuildError w)
    (runtimeState w) (runtimeLogs w) (countdown w) (botMetadata w)
    (countdownIntervalRef w) (runtimeLogStreamRef w) (connections w)
    (intervals w) (streams w) (pending w) (calls w).

Definition setRequiredSecrets (v : list RequiredSecret) (w : World) : World :=
  mkWorld (prompt w) (token w) (tokenError w) (library w) v (buildState w)
    (logs w) (generatedFiles w) (hasUnrebuiltChanges w) (buildLoopAttempt w)
    (currentBuildFiles w) (lastBuildError w) (runtimeState w)
    (runtimeLogs w) (countdown w) (botMetadata w) (countdownIntervalRef w)
    (runtimeLogStreamRef w) (connections w) (intervals w) (streams w)
    (pending w) (calls w).

Definition setBuildState (v : BuildState) (w : World) : World :=
  mkWorld (prompt w) (token w) (tokenError w) (library w)
    (requiredSecrets w) v (logs w) (generatedFiles w)
    (hasUnrebuiltChanges w) (buildLoopAttempt w) (currentBuildFiles w)
    (lastBuildError w) (runtimeState w) (runtimeLogs w) (countdown w)
    (botMetadata w) (countdownIntervalRef w) (runtimeLogStreamRef w)
    (connections w) (intervals w) (streams w) (pending w) (calls w).

Definition setLogs (v : list LogEntry) (w : World) : World :=
  mkWorld (prompt w) (token w) (tokenError w) (library w)
    (requiredSecrets w) (buildState w) v (generatedFiles w)
    (hasUnrebuiltChanges w) (buildLoopAttempt w) (currentBuildFiles w)
    (lastBuildError w) (runtimeState w) (runtimeLogs w) (countdown w)
    (botMetadata w) (countdownIntervalRef w) (runtimeLogStreamRef w)
    (connections w) (intervals w) (streams w) (pending w) (calls w).

Definition setGeneratedFiles (v : list GeneratedFile) (w : World) : World :=
  mkWorld (prompt w) (token w) (tokenError w) (library w)
    (requiredSecrets w) (buildState w) (logs w) v (hasUnrebuiltChanges w)
    (buildLoopAttempt w) (currentBuildFiles w) (lastBuildError w)
    (runtimeState w) (runtimeLogs w) (countdown w) (botMetadata w)
    (countdownIntervalRef w) (runtimeLogStreamRef w) (connections w)
    (intervals w) (streams w) (pending w) (calls w).

Definition setHasUnrebuiltChanges (v : bool) (w : World) : World :=
  mkWorld (prompt w) (token w) (tokenError w) (library w)
    (requiredSecrets w) (buildState w) (logs w) (generatedFiles w) v
    (buildLoopAttempt w) (currentBuildFiles w) (lastBuildError w)
    (runtimeState w) (runtimeLogs w) (countdown w) (botMetadata w)
    (countdownIntervalRef w) (runtimeLogStreamRef w) (connections w)
    (intervals w) (streams w) (pending w) (calls w).

Definition setBuildLoopAttempt (v : nat) (w : World) : World :=
  mkWorld (prompt w) (token w) (tokenError w) (library w)
    (requiredSecrets w) (buildState w) (logs w) (generatedFiles w)
    (hasUnrebuiltChanges w) v (currentBuildFiles w) (lastBuildError w)
    (runtimeState w) (runtimeLogs w) (countdown w) (botMetadata w)
    (countdownIntervalRef w) (runtimeLogStreamRef w) (connections w)
    (intervals w) (streams w) (pending w) (calls w).

Definition setCurrentBuildFiles (v : list GeneratedFile) (w : World) : World :=
  mkWorld (prompt w) (token w) (tokenError w) (library w)
    (requiredSecrets w) (buildState w) (logs w) (generatedFiles w)
    (hasUnrebuiltChanges w) (buildLoopAttempt w) v (lastBuildError w)
    (runtimeState w) (runtimeLogs w) (countdown w) (botMetadata w)
    (countdownIntervalRef w) (runtimeLogStreamRef w) (connections w)
    (intervals w) (streams w) (pending w) (calls w).

Definition setLastBuildError (v : jsstring) (w : World) : World :=
  mkWorld (prompt w) (token w) (tokenError w) (library w)
    (requiredSecrets w) (buildState w) (logs w) (generatedFiles w)
    (hasUnrebuiltChanges w) (buildLoopAttempt w) (currentBuildFiles w) v
    (runtimeState w) (runtimeLogs w) (countdown w) (botMetadata w)
    (countdownIntervalRef w) (runtimeLogStreamRef w) (connections w)
    (intervals w) (streams w) (pending w) (calls w).

Definition setRuntimeState (v : Bot.RuntimeState) (w : World) : World :=
  mkWorld (prompt w) (token w) (tokenError w) (library w)
    (requiredSecrets w) (buildState w) (logs w) (generatedFiles w)
    (hasUnrebuiltChanges w) (buildLoopAttempt w) (currentBuildFiles w)
    (lastBuildError w) v (runtimeLogs w) (countdown w) (botMetadata w)
    (countdownIntervalRef w) (runtimeLogStreamRef w) (connections w)
    (intervals w) (streams w) (pending w) (calls w).

Definition setRuntimeLogs (v : list LogEntry) (w : World) : World :=
  mkWorld (prompt w) (token w) (tokenError w) (library w)
    (requiredSecrets w) (buildState w) (logs w) (generatedFiles w)
    (hasUnrebuiltChanges w) (buildLoopAttempt w) (currentBuildFiles w)
    (lastBuildError w) (runtimeState w) v (countdown w) (botMetadata w)
    (countdownIntervalRef w) (runtimeLogStreamRef w) (connections w)
    (intervals w) (streams w) (pending w) (calls w).

Definition setCountdown (v : Z) (w : World) : World :=
  mkWorld (prompt w) (token w) (tokenError w) (library w)
    (requiredSecrets w) (buildState w) (logs w) (generatedFiles w)
    (hasUnrebuiltChanges w) (buildLoopAttempt w) (currentBuildFiles w)
    (lastBuildError w) (runtimeState w) (runtimeLogs w) v (botMetadata w)
    (countdownIntervalRef w) (runtimeLogStreamRef w) (connections w)
    (intervals w) (streams w) (pending w) (calls w).

Definition setBotMetadata (v : option BotMetadata) (w : World) : World :=
  mkWorld (prompt w) (token w) (tokenError w) (library w)
    (requiredSecrets w) (buildState w) (logs w) (generatedFiles w)
    (hasUnrebuiltChanges w) (buildLoopAttempt w) (currentBuildFiles w)
    (lastBuildError w) (runtimeState w) (runtimeLogs w) (countdown w) v
    (countdownIntervalRef w) (runtimeLogStreamRef w) (connections w)
    (intervals w) (streams w) (pending w) (calls w).

Definition setCountdownIntervalRef (v : option nat) (w : World) : World :=
  mkWorld (prompt w) (token w) (tokenError w) (library w)
    (requiredSecrets w) (buildState w) (logs w) (generatedFiles w)
    (hasUnrebuiltChanges w) (buildLoopAttempt w) (currentBuildFiles w)
    (lastBuildError w) (runtimeState w) (runtimeLogs w) (countdown w)
    (botMetadata w) v (runtimeLogStreamRef w) (connections w) (intervals w)
    (streams w) (pending w) (calls w).

Definition setRuntimeLogStreamRef (v : option nat) (w : World) : World :=
  mkWorld (prompt w) (token w) (tokenError w) (library w)
    (requiredSecrets w) (buildState w) (logs w) (generatedFiles w)
    (hasUnrebuiltChanges w) (buildLoopAttempt w) (currentBuildFiles w)
    (lastBuildError w) (runtimeState w) (runtimeLogs w) (countdown w)
    (botMetadata w) (countdownIntervalRef w) v (connections w) (intervals w)
    (streams w) (pending w) (calls w).

Definition setConnections (v : list BuildConnection) (w : World) : World :=
  mkWorld (prompt w) (token w) (tokenError w) (library w)
    (requiredSecrets w) (buildState w) (logs w) (generatedFiles w)
    (hasUnrebuiltChanges w) (buildLoopAttempt w) (currentBuildFiles w)
    (lastBuildError w) (runtimeState w) (runtimeLogs w) (countdown w)
    (botMetadata w) (countdownIntervalRef w) (runtimeLogStreamRef w) v
    (intervals w) (streams w) (pending w) (calls w).

Definition setIntervals (v : list Interval) (w : World) : World :=
  mkWorld (prompt w) (token w) (tokenError w) (library w)
    (requiredSecrets w) (buildState w) (logs w) (generatedFiles w)
    (hasUnrebuiltChanges w) (buildLoopAttempt w) (currentBuildFiles w)
    (lastBuildError w) (runtimeState w) (runtimeLogs w) (countdown w)
    (botMetadata w) (countdownIntervalRef w) (runtimeLogStreamRef w)
    (connections w) v (streams w) (pending w) (calls w).

Definition setStreams (v : list LogStream) (w : World) : World :=
  mkWorld (prompt w) (token w) (tokenError w) (library w)
    (requiredSecrets w) (buildState w) (logs w) (generatedFiles w)
    (hasUnrebuiltChanges w) (buildLoopAttempt w) (currentBuildFiles w)
    (lastBuildError w) (runtimeState w) (runtimeLogs w) (countdown w)
    (botMetadata w) (countdownIntervalRef w) (runtimeLogStreamRef w)
    (connections w) (intervals w) v (pending w) (calls w).

Definition setPending (v : list (option Cont)) (w : World) : World :=
  mkWorld (prompt w) (token w) (tokenError w) (library w)
    (requiredSecrets w) (buildState w) (logs w) (generatedFiles w)
    (hasUnrebuiltChanges w) (buildLoopAttempt w) (currentBuildFiles w)
    (lastBuildError w) (runtimeState w) (runtimeLogs w) (countdown w)
    (botMetadata w) (countdownIntervalRef w) (runtimeLogStreamRef w)
    (connections w) (intervals w) (streams w) v (calls w).

Definition setCalls (v : list Call) (w : World) : World :=
  mkWorld (prompt w) (token w) (tokenError w) (library w)
    (requiredSecrets w) (buildState w) (logs w) (generatedFiles w)
    (hasUnrebuiltChanges w) (buildLoopAttempt w) (currentBuildFiles w)
    (lastBuildError w) (runtimeState w) (runtimeLogs w) (countdown w)
    (botMetadata w) (countdownIntervalRef w) (runtimeLogStreamRef w)
    (connections w) (intervals w) (streams w) (pending w) v.

(** [w ▹ f ▹ g]: the statements [f], then [g], run on [w]. *)
Notation "w ▹ f" := (f w) (at level 45, left associativity, only parsing).

Definition addLog (m : jsstring) (t : LogType.t) (w : World) : World :=
  setLogs (logs w ++ [mkLog m t]) w.

Definition addRuntimeLog (m : jsstring) (t : LogType.t) (w : World) : World :=
  setRuntimeLogs (runtimeLogs w ++ [mkLog m t]) w.

(** A call on a collaborator is appended to the record of calls. *)
Definition call (c : Call) (w : World) : World :=
  setCalls (calls w ++ [c]) w.

(** [await]: the continuation waits in [pending]; its position is the
    promise that will wake it. *)
Definition await (k : Cont) (w : World) : World :=
  setPending (pending w ++ [Some k]) w.

(** [xs.findIndex(p)]; [None] stands for [-1]. *)
Fixpoint findIndex {A} (p : A -> bool) (xs : list A) : option nat :=
  match xs with
  | [] => None
  | x :: r => if p x then Some 0%nat else S <$> findIndex p r
  end.

(** [a === b] on strings *)
Definition streq (a b : jsstring) : bool := bool_decide (a = b).

(* ------------------------------------------------------------------ *)
(** ** [runDebugStep]: merging the repair result *)
(* ------------------------------------------------------------------ *)

(** The body of [fixData.fixed_files.forEach(..)]: one patched file against
    [updatedFiles], with the line it logs. *)
Definition applyFixedFile (st : list GeneratedFile * list LogEntry)
    (fixedFile : FixedFile) : list GeneratedFile * list LogEntry :=
  let (updatedFiles, out) := st in
  match findIndex (fun f => streq (name f) (fixed_name fixedFile)) updatedFiles with
  | Some fileIndex =>
      (<[fileIndex := mkFile (fixed_name fixedFile) (fixed_code fixedFile)]> updatedFiles,
       out ++ [mkLog (lit "- Applying fix to " ++ fixed_name fixedFile ++ lit ": "
                        ++ changes_summary fixedFile) LogType.log])
  | None =>
      (updatedFiles ++ [mkFile (fixed_name fixedFile) (fixed_code fixedFile)],
       out ++ [mkLog (lit "- AI added new file " ++ fixed_name fixedFile ++ lit ": "
                        ++ changes_summary fixedFile) LogType.log])
  end.

Definition applyFixedFiles (currentFiles : list GeneratedFile)
    (fixes : list FixedFile) : list GeneratedFile * list LogEntry :=
  fold_left applyFixedFile fixes (currentFiles, []).


(** [reqsFile.code.split('\n').map(r => r.trim()).filter(Boolean)] *)
Definition manifestLines (code : jsstring) : list jsstring :=
  List.filter truthy (List.map trim (split 10 code)).

(** The entries of [existingReqs] once the new requirements are added. *)
Definition unionRequirements (code : jsstring) (reqs : list jsstring)
  : list jsstring :=
  setAddAll (newSet (manifestLines code)) reqs.

Definition mergedManifest (code : jsstring) (reqs : list jsstring) : jsstring :=
  join nl (unionRequirements code reqs).

(** The [if (fixData.updated_requirements && ...length > 0)] block.  The
    source assigns [reqsFile.code] on the object that [find] returned, the
    first file named [requirements.txt]; here that entry of [updatedFiles]
    is replaced.  (An older array that still holds the same object would
    see the new content too; no handler reads such an array afterwards
    except the [onopen] of a connection that is still connecting.) *)
Definition updateRequirements (updatedFiles : list GeneratedFile)
    (reqs : option (list jsstring)) : list GeneratedFile * list LogEntry :=
  match reqs with
  | Some (r :: rs) =>
      let reqs := r :: rs in
      match findIndex (fun f => streq (name f) (lit "requirements.txt")) updatedFiles with
      | Some i =>
          match updatedFiles !! i with
          | Some reqsFile =>
              (<[i := mkFile (name reqsFile) (mergedManifest (code reqsFile) reqs)]> updatedFiles,
               [mkLog (lit "- Updating requirements.txt with: " ++ join (lit ", ") reqs)
                  LogType.log])
          | None => (updatedFiles, [])
          end
      | None => (updatedFiles, [])
      end
  | _ => (updatedFiles, [])
  end.

(* ------------------------------------------------------------------ *)
(** ** [backendService.buildBot] *)
(* ------------------------------------------------------------------ *)

Definition alterConn (i : nat) (f : BuildConnection -> BuildConnection)
    (w : World) : World :=
  setConnections (alter f i (connections w)) w.

Definition withReadyState (r : ReadyState) (c : BuildConnection) : BuildConnection :=
  mkConn r (conn_files c) (conn_token c) (accumulatedErrorLogs c) (completed c) (timeoutId c).

Definition withAccumulated (a : jsstring) (c : BuildConnection) : BuildConnection :=
  mkConn (readyState c) (conn_files c) (conn_token c) a (completed c) (timeoutId c).

Definition withCompleted (b : bool) (c : BuildConnection) : BuildConnection :=
  mkConn (readyState c) (conn_files c) (conn_token c) (accumulatedErrorLogs c) b (timeoutId c).

Definition withTimeoutId (b : bool) (c : BuildConnection) : BuildConnection :=
  mkConn (readyState c) (conn_files c) (conn_token c) (accumulatedErrorLogs c) (completed c) b.

(** [const cleanup = () => { clearTimeout(timeoutId); }] *)
Definition cleanup (i : nat) (w : World) : World :=
  w ▹ alterConn i (withTimeoutId false) ▹ call (ClearTimeout i).

(** [ws.close(code, reason)]: nothing happens on a socket that is closing
    or closed; otherwise the socket starts closing. *)
Definition wsClose (i : nat) (close_code : nat) (w : World) : World :=
  match connections w !! i with
  | Some c =>
      if live c
      then w ▹ alterConn i (withReadyState CLOSING) ▹ call (WsCloseCall i close_code)
      else w
  | None => w
  end.

(** The callbacks that [runBuildStep] hands to [buildBot]. *)
Record Callbacks := mkCallbacks {
  onProgress : jsstring -> World -> World;
  onComplete : World -> World;
  onError : jsstring -> World -> World
}.

(** [if (!completed) { completed = true; k }] *)
Definition onceCompleted (i : nat) (k : World -> World) (w : World) : World :=
  match connections w !! i with
  | Some c =>
      if completed c then w
      else w ▹ alterConn i (withCompleted true) ▹ k
  | None => w
  end.

Section BuildBot.

Variable cb : Callbacks.

(** The synchronous body of [buildBot]: announce, create the socket, arm
    the watchdog.  The new connection takes the next free position. *)
Definition buildBot (fs : list GeneratedFile) (tok : jsstring) (w : World) : World :=
  let w := onProgress cb (lit "Connecting to build server...") w in
  let i := length (connections w) in
  w ▹ setConnections (connections w ++ [mkConn CONNECTING fs tok [] false true])
    ▹ call (NewWebSocket i).

(** [ws.onopen] *)
Definition ws_onopen (i : nat) (w : World) : World :=
  match connections w !! i with
  | Some c => call (WsSend i (conn_files c) (conn_token c)) w
  | None => w
  end.

(** [ws.onmessage] *)
Definition ws_onmessage (i : nat) (data : WsData) (w : World) : World :=
  match data with
  | BUILD_LOG (Some line) =>
      let w := onProgress cb line w in
      if includes (toLowerCase line) (lit "error")
      then alterConn i (fun c => withAccumulated (accumulatedErrorLogs c ++ line ++ nl) c) w
      else w
  | BUILD_LOG None => w
  | BUILD_DONE =>
      w ▹ cleanup i
        ▹ onceCompleted i (fun w =>
            w ▹ onProgress cb ([9989] ++ lit " Build complete") ▹ onComplete cb)
        ▹ wsClose i 1000
  | BUILD_ERROR m =>
      let w := cleanup i w in
      let acc := from_option accumulatedErrorLogs [] (connections w !! i) in
      let text :=
        match m with
        | Some (c :: s) => c :: s
        | _ => if truthy acc then acc else lit "Unknown build error."
        end in
      w ▹ onceCompleted i (onError cb text) ▹ wsClose i 4001
  | OtherMessage => w
  | Unparseable raw =>
      onProgress cb (lit "Error processing message from server: " ++ raw) w
  end.

(** [ws.onerror] *)
Definition ws_onerror (i : nat) (w : World) : World :=
  w ▹ cleanup i
    ▹ onceCompleted i
        (onError cb (lit "WebSocket connection failed. Could not connect to the build server.")).

(** [ws.onclose] *)
Definition ws_onclose (i : nat) (close_code : nat) (reason : jsstring)
    (w : World) : World :=
  let w := cleanup i w in
  if Nat.eqb close_code 1000 then w
  else onceCompleted i
         (onError cb (lit "Build connection closed unexpectedly. Code: "
                        ++ showNat close_code ++ lit ". Reason: "
                        ++ (if truthy reason then reason else lit "Check server logs.")))
         w.

(** The [setTimeout] callback of the watchdog. *)
Definition ws_ontimeout (i : nat) (w : World) : World :=
  match connections w !! i with
  | Some c =>
      if live c
      then w ▹ wsClose i 4008
             ▹ onceCompleted i
                 (onError cb (lit "Build request timed out after "
                                ++ showNat (N.to_nat (BUILD_TIMEOUT_MS / 1000))
                                ++ lit " seconds."))
      else w
  | None => w
  end.

End BuildBot.

(* ------------------------------------------------------------------ *)
(** ** [App]: reset, runtime session *)
(* ------------------------------------------------------------------ *)

Definition resetBuild (w : World) : World :=
  w ▹ setBuildState IDLE
    ▹ setLogs []
    ▹ setGeneratedFiles []
    ▹ setTokenError None
    ▹ setBuildLoopAttempt 0%nat
    ▹ setCurrentBuildFiles []
    ▹ setLastBuildError []
    ▹ setRequiredSecrets []
    ▹ setHasUnrebuiltChanges false.

(** [if (countdownIntervalRef.current) clearInterval(..)]: timer ids are
    positive numbers in the browser, so a ref that was set is truthy; the
    ref itself keeps its value. *)
Definition clearCountdownInterval (w : World) : World :=
  match countdownIntervalRef w with
  | Some t =>
      w ▹ setIntervals (alter (fun iv => mkInterval false (stopSees iv)) t (intervals w))
        ▹ call (ClearInterval t)
  | None => w
  end.

(** [if (runtimeLogStreamRef.current) { ...close(); ...current = null; }] *)
Definition closeRuntimeLogStream (w : World) : World :=
  match runtimeLogStreamRef w with
  | Some s =>
      w ▹ setStreams (alter (fun st => mkStream false (stream_stopSees st)) s (streams w))
        ▹ call (CloseStream s)
        ▹ setRuntimeLogStreamRef None
  | None => w
  end.

Definition resetRuntime (w : World) : World :=
  w ▹ clearCountdownInterval
    ▹ closeRuntimeLogStream
    ▹ setRuntimeState Bot.STOPPED
    ▹ setRuntimeLogs []
    ▹ setCountdown RUNTIME_DURATION_SECONDS
    ▹ setBotMetadata None.

(** [startBot], up to [await backend.runBot()].  [sees] is the
    [runtimeState] of the render that created this [startBot]; the
    [stopBot] it closes over was created in a render with the same
    [runtimeState], because both callbacks are re-created exactly when
    [runtimeState] changes. *)
Definition startBot (sees : Bot.RuntimeState) (w : World) : World :=
  match sees with
  | Bot.RUNNING => w
  | Bot.STOPPED =>
      w ▹ setRuntimeState Bot.RUNNING
        ▹ setRuntimeLogs []
        ▹ addRuntimeLog (lit "Starting bot session...") LogType.log
        ▹ call RunBot
        ▹ await (AwaitRunBot sees)
  end.

(** [stopBot], up to [await backend.stopBot()].  A [stopBot] that sees
    [STOPPED] returns at once and its caller goes on; otherwise the caller
    waits in [pending] behind the stop request. *)
Definition stopBot (sees : Bot.RuntimeState) (afterStop : AfterStop -> World -> World)
    (k : AfterStop) (w : World) : World :=
  match sees with
  | Bot.STOPPED => afterStop k w
  | Bot.RUNNING =>
      w ▹ addRuntimeLog (lit "Stopping bot...") LogType.log
        ▹ closeRuntimeLogStream
        ▹ clearCountdownInterval
        ▹ call StopBot
        ▹ await (AwaitStopBot k)
  end.

(** The callback given to [setInterval]:
    [setCountdown(c => { if (c <= 1) { stopBot(); return 0; } return c - 1; })]
    with the [stopBot] captured by the [startBot] that armed the timer. *)
Definition countdownTick (t : nat) (w : World) : World :=
  match intervals w !! t with
  | Some iv =>
      if (countdown w <=? 1)%Z
      then w ▹ stopBot (stopSees iv) (fun _ w => w) StopOnly ▹ setCountdown 0%Z
      else setCountdown (countdown w - 1)%Z w
  | None => w
  end.

(** [startBot] after [await backend.runBot()]. *)
Definition startBot_resume (sees : Bot.RuntimeState) (o : Outcome) (w : World) : World :=
  match o with
  | Resolved _ =>
      let w := addRuntimeLog (lit "Bot container started successfully.") LogType.log w in
      let s := length (streams w) in
      let w := w ▹ setStreams (streams w ++ [mkStream true sees])
                 ▹ call (StreamRuntimeLogs s)
                 ▹ setRuntimeLogStreamRef (Some s)
                 ▹ setCountdown RUNTIME_DURATION_SECONDS in
      let t := length (intervals w) in
      w ▹ setIntervals (intervals w ++ [mkInterval true sees])
        ▹ call (SetInterval t)
        ▹ setCountdownIntervalRef (Some t)
  | Rejected e =>
      w ▹ addRuntimeLog (lit "Failed to start bot: " ++ e) LogType.error
        ▹ setRuntimeState Bot.STOPPED
  end.

(** The handlers of [streamRuntimeLogs]: [onmessage] (an entry that does
    not parse is only reported on the console) and [onerror]. *)
Definition stream_onmessage (entry : option LogEntry) (w : World) : World :=
  match entry with
  | Some l => addRuntimeLog (message l) (type l) w
  | None => w
  end.

Definition stream_onerror (s : nat) (w : World) : World :=
  match streams w !! s with
  | Some st =>
      w ▹ addRuntimeLog (lit "Log stream disconnected.") LogType.error
        ▹ stopBot (stream_stopSees st) (fun _ w => w) StopOnly
        ▹ (fun w =>
             setStreams
               (alter (fun st => mkStream false (stream_stopSees st)) s (streams w)) w)
        ▹ call (CloseStream s)
  | None => w
  end.

(* ------------------------------------------------------------------ *)
(** ** [App]: the build / debug loop *)
(* ------------------------------------------------------------------ *)

(** [runDebugStep], up to [await geminiService.debugCode(..)].  [prompt]
    and [library] (and [token] in [runBuildStep]) are read from the world:
    the form that changes them is rendered in IDLE only, so during a build
    they have the values the handlers were created with. *)
Definition runDebugStep (w : World) : World :=
  w ▹ setBuildState DEBUGGING
    ▹ addLog (lit "AI Debugger (Attempt " ++ showNat (buildLoopAttempt w) ++ lit "/"
                ++ showNat (MAX_FIX_ATTEMPTS - 1)
                ++ lit "): Analyzing build error...") LogType.log
    ▹ call (DebugCode (prompt w) (currentBuildFiles w) (lastBuildError w) (library w))
    ▹ await AwaitDebugCode.

Definition handleBuildError (errorLog : jsstring) (w : World) : World :=
  let w := w ▹ addLog (lit "Build failed (Attempt " ++ showNat (buildLoopAttempt w + 1)
                         ++ lit ").") LogType.error
             ▹ addLog errorLog LogType.raw
             ▹ setLastBuildError errorLog
             ▹ setBuildLoopAttempt (buildLoopAttempt w + 1) in
  if (MAX_FIX_ATTEMPTS <=? buildLoopAttempt w)%nat
  then w ▹ addLog (lit "Unable to fix the build after " ++ showNat (MAX_FIX_ATTEMPTS - 1)
                     ++ lit " attempts.") LogType.error
         ▹ addLog (lit "Final build error details:") LogType.error
         ▹ addLog (lastBuildError w) LogType.raw
         ▹ setBuildState ERROR
  else runDebugStep w.

Definition appCallbacks : Callbacks :=
  {| onProgress := fun l => addLog l LogType.log;
     onComplete := fun w => w ▹ setBuildState SUCCESS ▹ setHasUnrebuiltChanges false;
     onError := handleBuildError |}.

Definition runBuildStep (filesToBuild : list GeneratedFile) (w : World) : World :=
  w ▹ setBuildState BUILDING
    ▹ setCurrentBuildFiles filesToBuild
    ▹ buildBot appCallbacks filesToBuild (token w).

(** The [catch] of [runDebugStep]. *)
Definition debugFailed (e_message : jsstring) (w : World) : World :=
  w ▹ addLog (lit "AI Debugger failed: " ++ e_message) LogType.error
    ▹ setBuildState ERROR.

(** [runDebugStep] after the [await]. *)
Definition runDebugStep_resume (o : Outcome) (w : World) : World :=
  match o with
  | Rejected e => debugFailed e w
  | Resolved (VDebug fixData) =>
      match fixed_files fixData with
      | Some (f :: fs) =>
          let w := addLog (lit "AI has proposed fixes with " ++ confidence_percent fixData
                             ++ lit "% confidence. Applying changes...") LogType.log w in
          let (updatedFiles, fixLogs) := applyFixedFiles (currentBuildFiles w) (f :: fs) in
          let (updatedFiles, reqLogs) :=
            updateRequirements updatedFiles (updated_requirements fixData) in
          w ▹ setLogs (logs w ++ fixLogs ++ reqLogs)
            ▹ setGeneratedFiles updatedFiles
            ▹ addLog (lit "Fixes applied. Retrying build...") LogType.log
            ▹ runBuildStep updatedFiles
      | _ =>
          debugFailed
            (lit "AI could not determine a fix. Please review the build logs above for details.")
            w
      end
  | Resolved _ => w
  end.

(* ------------------------------------------------------------------ *)
(** ** [App]: validation and code generation *)
(* ------------------------------------------------------------------ *)

(** The [catch] of [startCodeGeneration]. *)
Definition generationFailed (e_message : jsstring) (w : World) : World :=
  w ▹ addLog (lit "Failed during code generation: " ++ e_message) LogType.error
    ▹ setBuildState ERROR.

(** [startCodeGeneration], up to [await generateStructure(..)]. *)
Definition startCodeGeneration (userSecrets : list (jsstring * jsstring))
    (w : World) : World :=
  w ▹ setBuildState PLANNING
    ▹ setBuildLoopAttempt 0%nat
    ▹ setLastBuildError []
    ▹ addLog (lit "Analyzing requirements and planning bot structure...") LogType.log
    ▹ call (GenerateStructure (prompt w) (library w))
    ▹ await (AwaitGenerateStructure userSecrets).

(** One turn of [for (const file of structure.files)], or, past the last
    file, the request for the setup files. *)
Definition generateNext (userSecrets : list (jsstring * jsstring))
    (structure : BotStructure) (rest : list PlannedFile)
    (filesToBuild : list GeneratedFile) (w : World) : World :=
  match rest with
  | file :: rest =>
      w ▹ call (GenerateFileCode (prompt w) file)
        ▹ await (AwaitGenerateFileCode userSecrets structure rest filesToBuild)
  | [] =>
      w ▹ addLog (lit "Generating setup files...") LogType.log
        ▹ call (GenerateSetupFiles (prompt w))
        ▹ await (AwaitGenerateSetupFiles filesToBuild)
  end.

Definition generateStructure_resume (userSecrets : list (jsstring * jsstring))
    (o : Outcome) (w : World) : World :=
  match o with
  | Resolved (VStructure structure) =>
      w ▹ addLog (lit "Bot structure planned successfully.") LogType.log
        ▹ setBuildState CODING
        ▹ addLog (lit "Found " ++ showNat (length (files structure))
                    ++ lit " files to generate.") LogType.log
        ▹ generateNext userSecrets structure (files structure) []
  | Resolved _ => w
  | Rejected e => generationFailed e w
  end.

Definition generateFileCode_resume (userSecrets : list (jsstring * jsstring))
    (structure : BotStructure) (rest : list PlannedFile)
    (filesToBuild : list GeneratedFile) (o : Outcome) (w : World) : World :=
  match o with
  | Resolved (VFileCode fileCode) =>
      let newFile := mkFile (file_name fileCode) (fc_code fileCode) in
      w ▹ setGeneratedFiles (generatedFiles w ++ [newFile])
        ▹ addLog (lit "- Generating code for " ++ name newFile) LogType.log
        ▹ generateNext userSecrets structure rest (filesToBuild ++ [newFile])
  | Resolved _ => w
  | Rejected e => generationFailed e w
  end.

Definition generateSetupFiles_resume (filesToBuild : list GeneratedFile)
    (o : Outcome) (w : World) : World :=
  match o with
  | Resolved (VSetup setupFiles) =>
      let setupFilesData :=
        [ mkFile (lit "requirements.txt") (requirements_txt setupFiles);
          mkFile (lit "Dockerfile") (dockerfile setupFiles);
          mkFile (lit "docker-compose.yml") (docker_compose_yml setupFiles);
          mkFile (lit "README.md") (readme_md setupFiles) ] in
      w ▹ setGeneratedFiles (generatedFiles w ++ setupFilesData)
        ▹ addLog (lit "All files generated.") LogType.log
        ▹ runBuildStep (filesToBuild ++ setupFilesData)
  | Resolved _ => w
  | Rejected e => generationFailed e w
  end.

(** [handleStartConfiguration], up to [await backend.getBotMetadata(token)]. *)
Definition handleStartConfiguration (w : World) : World :=
  if negb (truthy (prompt w)) || negb (truthy (token w))
  then addLog (lit "Prompt and token are required.") LogType.error w
  else
    w ▹ resetBuild
      ▹ resetRuntime
      ▹ addLog (lit "Starting build process...") LogType.log
      ▹ setBuildState VALIDATING
      ▹ addLog (lit "Validating Telegram token...") LogType.log
      ▹ call (GetBotMetadata (token w))
      ▹ await AwaitGetBotMetadata.

Definition getBotMetadata_resume (o : Outcome) (w : World) : World :=
  match o with
  | Resolved (VMeta meta) =>
      w ▹ setBotMetadata (Some meta)
        ▹ addLog (lit "Token validated successfully.") LogType.log
        ▹ addLog (lit "Analyzing prompt for additional configuration...") LogType.log
        ▹ call (ExtractRequiredSecrets (prompt w))
        ▹ await AwaitExtractRequiredSecrets
  | Resolved _ => w
  | Rejected e =>
      let errorMessage :=
        if truthy e then e
        else lit "An unknown error occurred during token validation." in
      w ▹ addLog (lit "Token validation failed: " ++ errorMessage) LogType.error
        ▹ setTokenError (Some errorMessage)
        ▹ setBuildState IDLE
  end.

Definition extractRequiredSecrets_resume (o : Outcome) (w : World) : World :=
  match o with
  | Resolved (VSecrets (Some (s :: ss))) =>
      w ▹ addLog (lit "Found " ++ showNat (length (s :: ss))
                    ++ lit " additional configuration(s) required.") LogType.log
        ▹ setRequiredSecrets (s :: ss)
        ▹ setBuildState GATHERING_CONFIG
  | Resolved (VSecrets _) =>
      w ▹ addLog (lit "No additional configuration required. Starting code generation...")
            LogType.log
        ▹ startCodeGeneration []
  | Resolved _ => w
  | Rejected e =>
      w ▹ addLog (lit "Failed during configuration analysis: " ++ e) LogType.error
        ▹ setBuildState ERROR
  end.

Definition handleSecretsSubmitted (secrets : list (jsstring * jsstring))
    (w : World) : World :=
  w ▹ addLog (lit "Configuration received. Starting code generation...") LogType.log
    ▹ startCodeGeneration secrets.

(* ------------------------------------------------------------------ *)
(** ** [App]: edit, rebuild, clear, reset, restart *)
(* ------------------------------------------------------------------ *)

Definition handleFileUpdate (fileName newCode : jsstring) (w : World) : World :=
  w ▹ setGeneratedFiles
        (List.map (fun f => if streq (name f) fileName then mkFile (name f) newCode else f)
           (generatedFiles w))
    ▹ setHasUnrebuiltChanges true
    ▹ addLog (lit "Saved changes to " ++ fileName ++ lit ". Click 'Rebuild' to apply them.")
        LogType.log.

(** The sentinel that decides where the build log starts. *)
Definition isBuildLogStart (l : LogEntry) : bool :=
  includes (message l) (lit "Connecting to build server").

(** [handleRebuild] from [resetRuntime()] on.  [logsAtRender] and
    [filesAtRender] are the [logs] and [generatedFiles] of the render whose
    button was clicked; [setLogs] is given an updater, so the slice is taken
    from the current log. *)
Definition handleRebuild_rest (logsAtRender : list LogEntry)
    (filesAtRender : list GeneratedFile) (w : World) : World :=
  let w := resetRuntime w in
  let firstBuildLogIndex := findIndex isBuildLogStart logsAtRender in
  w ▹ setLogs (match firstBuildLogIndex with
               | Some i => take i (logs w)
               | None => take (length (logs w)) (logs w)
               end)
    ▹ setBuildLoopAttempt 0%nat
    ▹ setLastBuildError []
    ▹ runBuildStep filesAtRender.

(** What the caller of an awaited [stopBot()] does next. *)
Definition afterStop (k : AfterStop) (w : World) : World :=
  match k with
  | StopOnly => w
  | ThenReset => w ▹ resetBuild ▹ resetRuntime
  | ThenRebuild logsAtRender filesAtRender =>
      handleRebuild_rest logsAtRender filesAtRender w
  | ThenRestart sees => w ▹ call SetTimeout1000 ▹ await (RestartDelay sees)
  end.

(** [stopBot] after [await backend.stopBot()].  A rejected request makes
    [stopBot] reject, and with it the handler that awaits it: nothing more
    of either runs. *)
Definition stopBot_resume (k : AfterStop) (o : Outcome) (w : World) : World :=
  match o with
  | Resolved _ =>
      w ▹ setRuntimeState Bot.STOPPED
        ▹ addRuntimeLog (lit "Bot stopped successfully.") LogType.log
        ▹ afterStop k
  | Rejected _ => w
  end.

(** The handlers below are created anew by every render, so they see the
    values of the world in which the click happens. *)
Definition handleRebuild (w : World) : World :=
  let w' := addLog (lit "Rebuilding bot with your changes...") LogType.log w in
  match runtimeState w with
  | Bot.STOPPED => handleRebuild_rest (logs w) (generatedFiles w) w'
  | Bot.RUNNING =>
      stopBot (runtimeState w) afterStop (ThenRebuild (logs w) (generatedFiles w)) w'
  end.

Definition handleReset (w : World) : World :=
  stopBot (runtimeState w) afterStop ThenReset w.

Definition restartBot (w : World) : World :=
  let w' := addRuntimeLog (lit "Restarting bot...") LogType.log w in
  match runtimeState w with
  | Bot.RUNNING => stopBot (runtimeState w) afterStop (ThenRestart (runtimeState w)) w'
  | Bot.STOPPED => afterStop (ThenRestart (runtimeState w)) w'
  end.

(** [onClearLogs] of the [BotRunner] element. *)
Definition onClearLogs (w : World) : World :=
  match buildState w with
  | ERROR =>
      match findIndex isBuildLogStart (logs w) with
      | Some firstBuildLogIndex => setLogs (take firstBuildLogIndex (logs w)) w
      | None => setLogs [] w
      end
  | _ => setRuntimeLogs [] w
  end.

(* ------------------------------------------------------------------ *)
(** ** Events and the event loop *)
(* ------------------------------------------------------------------ *)

Inductive Event :=
(* the user *)
| SetPrompt (s : jsstring)
| SetToken (s : jsstring)
| SetLibrary (s : jsstring)
| ClickBuild
| SubmitSecrets (formState : list (jsstring * jsstring))
| ClickStart
| ClickStop
| ClickRestart
| ClickRebuild
| ClickReset
| ClickClear
| SaveFile (fileName newCode : jsstring)
(* the build socket [conn] *)
| WsOpen (conn : nat)
| WsMessage (conn : nat) (data : WsData)
| WsClosed (conn : nat) (failed : bool) (close_code : nat) (reason : jsstring)
| WsTimeout (conn : nat)
(* the runtime session *)
| Tick (timer : nat)
| StreamMessage (stream : nat) (entry : option LogEntry)
| StreamError (stream : nat)
| AutoStart
(* the promise [p] settles, or the timer behind it fires *)
| Settle (p : nat) (o : Outcome).

Definition isBuilding (w : World) : bool :=
  match buildState w with
  | VALIDATING | PLANNING | CODING | BUILDING | DEBUGGING | GATHERING_CONFIG => true
  | _ => false
  end.

(** The [BotRunner] element is rendered. *)
Definition botRunnerShown (w : World) : bool :=
  match buildState w with
  | SUCCESS | ERROR => true
  | _ => false
  end.

Definition isErrorState (w : World) : bool :=
  match buildState w with ERROR => true | _ => false end.

Definition isRunning (w : World) : bool :=
  match runtimeState w with Bot.RUNNING => true | Bot.STOPPED => false end.

Definition isIdle (w : World) : bool :=
  match buildState w with IDLE => true | _ => false end.

Definition isConnecting (c : BuildConnection) : bool :=
  match readyState c with CONNECTING => true | _ => false end.

Definition isOpen (c : BuildConnection) : bool :=
  match readyState c with OPEN => true | _ => false end.

Definition isClosed (c : BuildConnection) : bool :=
  match readyState c with CLOSED => true | _ => false end.

(** Whether the interface offers the command, or the environment can
    deliver the event, in world [w]:
    - the prompt form is rendered in [IDLE], its submit button is
      [disabled={isBuilding || !prompt || !token}];
    - the configuration form is rendered in [GATHERING_CONFIG], its button is
      [disabled={isBuilding || !allFieldsFilled}];
    - [BotRunner] is rendered in [SUCCESS] and [ERROR]; both of its Rebuild
      buttons are [disabled={!hasUnrebuiltChanges}]; Start/Stop and Restart
      belong to the view that is not the error view; a file can be saved
      when it is among [files];
    - a socket receives [open] while connecting, messages while open, and
      its close (after the error event, if it failed) once;
    - a timer fires while armed, a stream delivers while open;
    - the effect that starts the bot runs when [buildState] is [SUCCESS]
      and [runtimeState] is not [RUNNING]. *)
Definition enabled (e : Event) (w : World) : bool :=
  match e with
  | SetPrompt _ | SetToken _ | SetLibrary _ => isIdle w && negb (isBuilding w)
  | ClickBuild =>
      isIdle w
      && negb (isBuilding w || negb (truthy (prompt w)) || negb (truthy (token w)))
  | SubmitSecrets formState =>
      match buildState w with GATHERING_CONFIG => true | _ => false end
      && negb (isBuilding w
               || negb (forallb (fun s =>
                          match List.find (fun kv => streq (fst kv) (key s)) formState with
                          | Some kv => truthy (trim (snd kv))
                          | None => true
                          end) (requiredSecrets w)))
  | ClickStart =>
      botRunnerShown w && negb (isErrorState w) && negb (isRunning w)
      && negb (countdown w =? 0)%Z
  | ClickStop => botRunnerShown w && negb (isErrorState w) && isRunning w
  | ClickRestart => botRunnerShown w && negb (isErrorState w)
  | ClickRebuild => botRunnerShown w && hasUnrebuiltChanges w
  | ClickReset | ClickClear => botRunnerShown w
  | SaveFile fileName _ =>
      botRunnerShown w && existsb (fun f => streq (name f) fileName) (generatedFiles w)
  | WsOpen i => from_option isConnecting false (connections w !! i)
  | WsMessage i _ => from_option isOpen false (connections w !! i)
  | WsClosed i _ _ _ =>
      from_option (fun c => negb (isClosed c)) false (connections w !! i)
  | WsTimeout i => from_option timeoutId false (connections w !! i)
  | Tick t => from_option active false (intervals w !! t)
  | StreamMessage s _ | StreamError s => from_option stream_open false (streams w !! s)
  | AutoStart =>
      match buildState w with SUCCESS => true | _ => false end && negb (isRunning w)
  | Settle p _ =>
      match pending w !! p with
      | Some (Some _) => true
      | _ => false
      end
  end.

(** The continuation [k] runs with the outcome [o]. *)
Definition resume (k : Cont) (o : Outcome) (w : World) : World :=
  match k with
  | AwaitStopBot a => stopBot_resume a o w
  | AwaitRunBot sees => startBot_resume sees o w
  | RestartDelay sees => startBot sees w
  | AwaitDebugCode => runDebugStep_resume o w
  | AwaitGetBotMetadata => getBotMetadata_resume o w
  | AwaitExtractRequiredSecrets => extractRequiredSecrets_resume o w
  | AwaitGenerateStructure s => generateStructure_resume s o w
  | AwaitGenerateFileCode s st rest fs => generateFileCode_resume s st rest fs o w
  | AwaitGenerateSetupFiles fs => generateSetupFiles_resume fs o w
  end.

(** What the event does when it happens. *)
Definition handle (e : Event) (w : World) : World :=
  match e with
  | SetPrompt s => setPrompt s w
  | SetToken s => setToken s w
  | SetLibrary s => setLibrary s w
  | ClickBuild => handleStartConfiguration w
  | SubmitSecrets formState => handleSecretsSubmitted formState w
  | ClickStart => startBot (runtimeState w) w
  | ClickStop => stopBot (runtimeState w) afterStop StopOnly w
  | ClickRestart => restartBot w
  | ClickRebuild => handleRebuild w
  | ClickReset => handleReset w
  | ClickClear => onClearLogs w
  | SaveFile fileName newCode => handleFileUpdate fileName newCode w
  | WsOpen i => w ▹ alterConn i (withReadyState OPEN) ▹ ws_onopen i
  | WsMessage i data => ws_onmessage appCallbacks i data w
  | WsClosed i failed close_code reason =>
      let w := alterConn i (withReadyState CLOSED) w in
      let w := if failed then ws_onerror appCallbacks i w else w in
      ws_onclose appCallbacks i close_code reason w
  | WsTimeout i => w ▹ alterConn i (withTimeoutId false) ▹ ws_ontimeout appCallbacks i
  | Tick t => countdownTick t w
  | StreamMessage _ entry => stream_onmessage entry w
  | StreamError s => stream_onerror s w
  | AutoStart => startBot (runtimeState w) w
  | Settle p o =>
      match pending w !! p with
      | Some (Some k) => w ▹ setPending (<[p := None]> (pending w)) ▹ resume k o
      | _ => w
      end
  end.

(** One turn of the event loop: an event that cannot happen changes
    nothing. *)
Definition step (w : World) (e : Event) : World :=
  if enabled e w then handle e w else w.

Definition run (w : World) (es : list Event) : World := fold_left step es w.

(** The worlds passed through, the starting one first. *)
Fixpoint history (w : World) (es : list Event) : list World :=
  match es with
  | [] => [w]
  | e :: es => w :: history (step w e) es
  end.

(** The page as loaded: every cell at the initial value given to its
    [useState] or [useRef]. *)
Definition initial : World :=
  {| prompt := []; token := []; tokenError := None;
     library := lit "python-telegram-bot"; requiredSecrets := [];
     buildState := IDLE; logs := []; generatedFiles := [];
     hasUnrebuiltChanges := false;
     buildLoopAttempt := 0%nat; currentBuildFiles := []; lastBuildError := [];
     runtimeState := Bot.STOPPED; runtimeLogs := [];
     countdown := RUNTIME_DURATION_SECONDS; botMetadata := None;
     countdownIntervalRef := None; runtimeLogStreamRef := None;
     connections := []; intervals := []; streams := []; pending := []; calls := [] |}.


Definition isNewWebSocket (c : Call) : bool :=
  match c with NewWebSocket _ => true | _ => false end.

Definition isDebugCode (c : Call) : bool :=
  match c with DebugCode _ _ _ _ => true | _ => false end.

(** Build attempts made and repair calls made so far. *)
Definition buildAttempts (w : World) : nat :=
  length (List.filter isNewWebSocket (calls w)).

Definition debugInvocations (w : World) : nat :=
  length (List.filter isDebugCode (calls w)).

(** How often the runtime went from [RUNNING] to [STOPPED] along a
    sequence of worlds. *)
Fixpoint stopTransitions (ws : list World) : nat :=
  match ws with
  | w1 :: ((w2 :: _) as rest) =>
      (match runtimeState w1, runtimeState w2 with
       | Bot.RUNNING, Bot.STOPPED => 1
       | _, _ => 0
       end + stopTransitions rest)%nat
  | _ => 0%nat
  end.

(* ------------------------------------------------------------------ *)
(** ** Vocabulary of the statements *)
(* ------------------------------------------------------------------ *)



(** The repair call fails: it throws, or its answer has no patched file. *)
Definition repairFails (o : Outcome) : Prop :=
  match o with
  | Rejected _ => True
  | Resolved (VDebug fixData) =>
      fixed_files fixData = None \/ fixed_files fixData = Some []
  | Resolved _ => False
  end.

(** The repair call answers with at least one patched file. *)
Definition repairSucceeds (fixData : DebugResponse) : Prop :=
  exists f fs, fixed_files fixData = Some (f :: fs).

(** What a repair call can come back with: an exception or an answer. *)
Definition isRepairOutcome (o : Outcome) : Prop :=
  match o with
  | Rejected _ | Resolved (VDebug _) => True
  | Resolved _ => False
  end.

Definition repairSucceedsWith (o : Outcome) : Prop :=
  exists fixData, o = Resolved (VDebug fixData) /\ repairSucceeds fixData.

(** The ways a build attempt on a connection ends in failure: the executor
    sends [BUILD_ERROR]; the connection fails (error event, then close);
    the connection closes without a terminal message and with a code
    other than 1000; the client's watchdog fires. *)
Inductive Failure :=
| ReportsError (msg : option jsstring)
| ConnectionFails (close_code : nat) (reason : jsstring)
| ClosesUnexpectedly (close_code : nat) (reason : jsstring)
| TimesOut.

Definition failureEvent (i : nat) (f : Failure) : Event :=
  match f with
  | ReportsError msg => WsMessage i (BUILD_ERROR msg)
  | ConnectionFails close_code reason => WsClosed i true close_code reason
  | ClosesUnexpectedly close_code reason => WsClosed i false close_code reason
  | TimesOut => WsTimeout i
  end.

(** The terminal messages of the build protocol. *)
Definition isTerminal (d : WsData) : bool :=
  match d with
  | BUILD_DONE | BUILD_ERROR _ => true
  | _ => false
  end.

(** What a connection carries before it fails: it never opens, or it opens
    and delivers messages. *)
Inductive Traffic :=
| NeverOpens
| Opens (msgs : list WsData).

Definition messageEvents (i : nat) (msgs : list WsData) : list Event :=
  List.map (WsMessage i) msgs.

(** A build attempt on connection [i] that fails: the traffic [t], then the
    failure [f]. *)
Definition failingAttempt (i : nat) (t : Traffic) (f : Failure) : list Event :=
  match t with
  | NeverOpens => [failureEvent i f]
  | Opens msgs => WsOpen i :: messageEvents i msgs ++ [failureEvent i f]
  end.

(** The attempt is a failure and nothing else: no terminal message comes
    before the failure, a [BUILD_ERROR] needs an open socket, and a plain
    close counts as failure when its code is not 1000. *)
Definition isFailingAttempt (t : Traffic) (f : Failure) : Prop :=
  match t with
  | NeverOpens => True
  | Opens msgs => Forall (fun d => isTerminal d = false) msgs
  end /\
  match f with
  | ReportsError _ => t <> NeverOpens
  | ClosesUnexpectedly close_code _ => close_code <> 1000%nat
  | ConnectionFails _ _ | TimesOut => True
  end.

(** [w'] agrees with [w] on what the build/debug loop goes by. *)
Definition sameLoop (w w' : World) : Prop :=
  buildState w' = buildState w /\
  buildLoopAttempt w' = buildLoopAttempt w /\
  pending w' = pending w /\
  buildAttempts w' = buildAttempts w /\
  debugInvocations w' = debugInvocations w /\
  length (connections w') = length (connections w).

(** The build connection an event belongs to. *)
Definition eventConnection (e : Event) : option nat :=
  match e with
  | WsOpen i | WsMessage i _ | WsClosed i _ _ _ | WsTimeout i => Some i
  | _ => None
  end.

(** A connection that is closed and whose watchdog is no longer pending. *)
Definition dead (c : BuildConnection) : bool := isClosed c && negb (timeoutId c).

(** Outside the handlers of a socket, the list of connections only grows
    at its end. *)
Definition grows (w w' : World) : Prop :=
  exists more, connections w' = connections w ++ more.


(** Every event of [es] can happen at the point where it is scheduled. *)
Fixpoint allEnabled (w : World) (es : list Event) : bool :=
  match es with
  | [] => true
  | e :: es => enabled e w && allEnabled (step w e) es
  end.

(** *** A session used in the examples *)

Definition demoStructure : BotStructure :=
  mkStructure [mkPlanned (lit "main.py") (lit "entry point") true] (lit "{}").

(** From the loaded page to the first build attempt: prompt and token are
    typed, the token is accepted, no secret is required, one source file
    and the four setup files are generated. *)
Definition generationEvents : list Event :=
  [ SetPrompt (lit "echo bot"); SetToken (lit "123:abc"); ClickBuild;
    Settle 0 (Resolved (VMeta (mkMeta (lit "echo_bot") 7)));
    Settle 1 (Resolved (VSecrets (Some [])));
    Settle 2 (Resolved (VStructure demoStructure));
    Settle 3 (Resolved (VFileCode (mkFileCode (lit "main.py") (lit "print(1)"))));
    Settle 4 (Resolved (VSetup (mkSetup (lit "aiogram==3.1" ++ nl ++ lit "requests")
                                  (lit "FROM python:3.12-slim") (lit "version: '3.8'")
                                  (lit "# echo bot")))) ].

(** The first build succeeds and the bot is started. *)
Definition successEvents : list Event :=
  [ WsOpen 0; WsMessage 0 BUILD_DONE; AutoStart; Settle 5 (Resolved VUnit) ].




(** Three failing build attempts with two repairs in between. *)
Definition demoFix : DebugResponse :=
  mkDebug (Some [mkFixed (lit "main.py") (lit "print(3)") (lit "fixed the call")])
    (Some [lit "requests"; lit "aiohttp"]) (lit "90").

Definition threeFailuresEvents : list Event :=
  failingAttempt 0 (Opens [BUILD_LOG (Some (lit "Step 1/7 : FROM python:3.12-slim"))])
    (ReportsError (Some (lit "pip install failed")))
  ++ [Settle 5 (Resolved (VDebug demoFix))]
  ++ failingAttempt 1 (Opens [BUILD_LOG (Some (lit "ERROR: no matching distribution"))])
       (ReportsError None)
  ++ [Settle 6 (Resolved (VDebug demoFix))]
  ++ failingAttempt 2 NeverOpens TimesOut.

Definition buildFailed : World :=
  run initial (generationEvents ++ threeFailuresEvents).

(** The compiler fails while planning: no build is ever attempted. *)
Definition planningFailureEvents : list Event :=
  [ SetPrompt (lit "echo bot"); SetToken (lit "123:abc"); ClickBuild;
    Settle 0 (Resolved (VMeta (mkMeta (lit "echo_bot") 7)));
    Settle 1 (Resolved (VSecrets (Some [])));
    Settle 2 (Rejected (lit "Failed to get a valid response from AI.")) ].

Definition planningFailed : World := run initial planningFailureEvents.

(** The compiler names a generated file after the sentinel; the build
    fails and so does the repair call. *)
Definition markerNamedFileEvents : list Event :=
  [ SetPrompt (lit "echo bot"); SetToken (lit "123:abc"); ClickBuild;
    Settle 0 (Resolved (VMeta (mkMeta (lit "echo_bot") 7)));
    Settle 1 (Resolved (VSecrets (Some [])));
    Settle 2 (Resolved (VStructure demoStructure));
    Settle 3 (Resolved (VFileCode (mkFileCode (lit "Connecting to build server.py")
                                     (lit "print(1)"))));
    Settle 4 (Resolved (VSetup (mkSetup (lit "aiogram==3.1")
                                  (lit "FROM python:3.12-slim") (lit "version: '3.8'")
                                  (lit "# echo bot"))));
    WsOpen 0; WsMessage 0 (BUILD_ERROR (Some (lit "pip install failed")));
    Settle 5 (Rejected (lit "Failed to get a valid response from AI.")) ].

Definition markerNamedFile : World := run initial markerNamedFileEvents.

(** The countdown after [n] runs of the updater
    [c => c <= 1 ? 0 : c - 1]. *)
Definition countdownAfter (n : nat) (c : Z) : Z :=
  Nat.iter n (fun c => if (c <=? 1)%Z then 0%Z else (c - 1)%Z) c.

(** What [resetBuild] and [resetRuntime] leave behind. *)
Definition isReset (w : World) : Prop :=
  buildState w = IDLE /\
  generatedFiles w = [] /\
  logs w = [] /\
  runtimeLogs w = [] /\
  buildLoopAttempt w = 0%nat /\
  runtimeState w = Bot.STOPPED /\
  countdown w = RUNTIME_DURATION_SECONDS.

(** The first build has succeeded; the bot has not been started yet. *)
Definition builtAndStopped : World :=
  run initial (generationEvents ++ [WsOpen 0; WsMessage 0 BUILD_DONE]).

(** The first build has succeeded and the bot is running. *)
Definition botRunning : World := run initial (generationEvents ++ successEvents).

(** Every [stopBot] captured by a timer, by a stream, or by a [startBot]
    that still waits for its start request, was created while
    [runtimeState] was STOPPED. *)
Definition capturedStopsSeeStopped (w : World) : Prop :=
  Forall (fun iv => stopSees iv = Bot.STOPPED) (intervals w) /\
  Forall (fun st => stream_stopSees st = Bot.STOPPED) (streams w) /\
  Forall (fun k => forall sees, k = Some (AwaitRunBot sees) -> sees = Bot.STOPPED)
    (pending w).

(** *** Vocabulary and examples for the repair step *)







(* ------------------------------------------------------------------ *)
(** ** Further vocabulary: what the views of [App] go by *)
(* ------------------------------------------------------------------ *)

(** [isBuildInProgress] of [App]: the progress tracker is rendered. *)
Definition isBuildInProgress (w : World) : bool :=
  match buildState w with
  | IDLE | SUCCESS | ERROR => false
  | _ => true
  end.

(** The countdown is a number of seconds of the session that is left. *)
Definition countdownInRange (w : World) : Prop :=
  (0 <= countdown w <= RUNTIME_DURATION_SECONDS)%Z.

(** Start requests made so far. *)
Definition isRunBot (c : Call) : bool :=
  match c with RunBot => true | _ => false end.

Definition startRequests (w : World) : nat :=
  length (List.filter isRunBot (calls w)).

(** [n] rounds of the effect that starts the bot, each start request
    being rejected with [e_message]; [p] is the promise of the first. *)
Fixpoint failedStarts (p n : nat) (e_message : jsstring) : list Event :=
  match n with
  | O => []
  | S n => AutoStart :: Settle p (Rejected e_message) :: failedStarts (S p) n e_message
  end.

(** A progress line that [ws.onmessage] adds to [accumulatedErrorLogs]. *)
Definition mentionsError (line : jsstring) : bool :=
  includes (toLowerCase line) (lit "error").

(** [accumulatedErrorLogs] after the progress lines [lines]. *)
Definition accumulated (acc : jsstring) (lines : list jsstring) : jsstring :=
  acc ++ concat (List.map (fun l => l ++ nl) (List.filter mentionsError lines)).

Definition progressEvents (i : nat) (lines : list jsstring) : list Event :=
  messageEvents i (List.map (fun l => BUILD_LOG (Some l)) lines).

(** Connection [i] has reported its outcome: its [completed] flag is set. *)
Definition decided (i : nat) (w : World) : Prop :=
  exists c, connections w !! i = Some c /\ completed c = true.

(** [w'] agrees with [w] on the outcome of the build: on everything that
    [onComplete] and [onError] change, the build log apart. *)
Definition outcomeFrame (w w' : World) : Prop :=
  buildState w' = buildState w /\
  buildLoopAttempt w' = buildLoopAttempt w /\
  lastBuildError w' = lastBuildError w /\
  hasUnrebuiltChanges w' = hasUnrebuiltChanges w /\
  generatedFiles w' = generatedFiles w /\
  pending w' = pending w /\
  debugInvocations w' = debugInvocations w /\
  buildAttempts w' = buildAttempts w.

(** The file that [startCodeGeneration] makes of an answer of
    [generateFileCode]: the name is the one in the answer. *)
Definition toFile (fileCode : FileCodeResponse) : GeneratedFile :=
  mkFile (file_name fileCode) (fc_code fileCode).

(** [setupFilesData] of [startCodeGeneration]. *)
Definition setupFilesData (setupFiles : SetupFilesResponse) : list GeneratedFile :=
  [ mkFile (lit "requirements.txt") (requirements_txt setupFiles);
    mkFile (lit "Dockerfile") (dockerfile setupFiles);
    mkFile (lit "docker-compose.yml") (docker_compose_yml setupFiles);
    mkFile (lit "README.md") (readme_md setupFiles) ].

(** The requests for file code are answered with [responses], one after
    the other; [p] is the promise of the first. *)
Fixpoint fileSettles (p : nat) (responses : list FileCodeResponse) : list Event :=
  match responses with
  | [] => []
  | r :: rs => Settle p (Resolved (VFileCode r)) :: fileSettles (S p) rs
  end.

(** A generation in which every request is answered: the plan, the code
    of each file, the setup files. *)
Definition generationSettles (p : nat) (structure : BotStructure)
    (responses : list FileCodeResponse) (setupFiles : SetupFilesResponse) : list Event :=
  Settle p (Resolved (VStructure structure))
  :: fileSettles (S p) responses
  ++ [Settle (S p + length responses) (Resolved (VSetup setupFiles))].

(** A generation in which the plan and the first requests for file code
    are answered with [responses] and the next request is rejected. *)
Definition generationBreaks (p : nat) (structure : BotStructure)
    (responses : list FileCodeResponse) (e_message : jsstring) : list Event :=
  Settle p (Resolved (VStructure structure))
  :: fileSettles (S p) responses
  ++ [Settle (S p + length responses) (Rejected e_message)].

(* ------------------------------------------------------------------ *)
(** ** [backendService]: the HTTP requests *)
(* ------------------------------------------------------------------ *)

Module backend.

(** What reading the body of a response gives ([response.text()],
    [response.json()]): the content, or a rejection. *)
Inductive Body (A : Type) :=
| BodyValue (a : A)
| BodyFails (e_message : jsstring).

(** What [fetch] gives: a rejection (no response at all), or a response
    with its [ok] flag, its status and its body. *)
Inductive Fetched (A : Type) :=
| FetchFails (e_message : jsstring)
| Response (ok : bool) (status : nat) (body : Body A).

Arguments BodyValue {A} a.
Arguments BodyFails {A} e_message.
Arguments FetchFails {A} e_message.
Arguments Response {A} ok status body.

(** [runBot]: the promise it returns, given what [fetch] gave. *)
Definition runBot (f : Fetched jsstring) : Outcome :=
  match f with
  | FetchFails e => Rejected e
  | Response true _ _ => Resolved VUnit
  | Response false _ (BodyValue text) =>
      Rejected (lit "Failed to start bot on server: " ++ text)
  | Response false _ (BodyFails e) => Rejected e
  end.

(** [stopBot]: a response that is not [ok] is only reported on the
    console. *)
Definition stopBot (f : Fetched jsstring) : Outcome :=
  match f with
  | FetchFails e => Rejected e
  | Response true _ _ => Resolved VUnit
  | Response false _ (BodyValue text) => Resolved VUnit
  | Response false _ (BodyFails e) => Rejected e
  end.

(** [restartBot] *)
Definition restartBot (f : Fetched jsstring) : Outcome :=
  match f with
  | FetchFails e => Rejected e
  | Response true _ _ => Resolved VUnit
  | Response false _ (BodyValue text) =>
      Rejected (lit "Failed to restart bot on server: " ++ text)
  | Response false _ (BodyFails e) => Rejected e
  end.

(** The JSON object that Telegram's [getMe] answers with: [ok],
    [description] (empty when the field is absent: both are falsy) and
    [result] (absent in an error answer). *)
Record GetMe := mkGetMe {
  data_ok : bool;
  data_description : jsstring;
  data_result : option BotMetadata
}.

(** [getBotMetadata].  [typeError] is the message of the [TypeError] that
    the engine throws when [data.result] is destructured and is not
    there. *)
Definition getBotMetadata (typeError : jsstring) (f : Fetched GetMe) : Outcome :=
  match f with
  | FetchFails e => Rejected e
  | Response _ _ (BodyFails e) => Rejected e
  | Response ok status (BodyValue data) =>
      if negb ok || negb (data_ok data)
      then
        let errorMessage :=
          if truthy (data_description data) then data_description data
          else lit "Request failed with status " ++ showNat status in
        Rejected errorMessage
      else
        match data_result data with
        | Some meta => Resolved (VMeta meta)
        | None => Rejected typeError
        end
  end.

End backend.

(** No timer, stream, socket or promise can deliver anything. *)
Definition quiet (w : World) : Prop :=
  Forall (fun c => dead c = true) (connections w) /\
  Forall (fun iv => active iv = false) (intervals w) /\
  Forall (fun st => stream_open st = false) (streams w) /\
  Forall (fun k => k = None) (pending w).

(** The build form is submitted, the token is accepted, and the analysis
    of the prompt asks for [secrets]. *)
Definition secretsRequested (p : nat) (meta : BotMetadata)
    (secrets : list RequiredSecret) : list Event :=
  [ ClickBuild;
    Settle p (Resolved (VMeta meta));
    Settle (S p) (Resolved (VSecrets (Some secrets))) ].

(** [files.find(f => f.name === fileName)]: the file that the views show
    under that name. *)
Definition findFile (fileName : jsstring) (fs : list GeneratedFile) : option GeneratedFile :=
  List.find (fun f => streq (name f) fileName) fs.

(** A requirement as the repair service is asked to give it: not empty, no
    white space around it, on one line. *)
Definition isRequirementLine (r : jsstring) : Prop :=
  r <> [] /\ trim r = r /\ 10 ∉ r.

(* ------------------------------------------------------------------ *)
(** ** [BotRunner]: the clock *)
(* ------------------------------------------------------------------ *)

(** [n.toString()] of an integer. *)
Definition showZ (z : Z) : jsstring :=
  if (z <? 0)%Z then 45 :: showNat (Z.to_nat (- z)) else showNat (Z.to_nat z).

(** [s.padStart(n, fill)] for a filler of one code unit. *)
Definition padStart (n : nat) (fill : N) (s : jsstring) : jsstring :=
  replicate (n - length s) fill ++ s.

(** [formatTime]: [Math.floor(seconds / 60)] is the quotient rounded down,
    [seconds % 60] the remainder with the sign of [seconds]. *)
Definition formatTime (seconds : Z) : jsstring :=
  let mins := (seconds / 60)%Z in
  let secs := Z.rem seconds 60 in
  padStart 2 48 (showZ mins) ++ lit ":" ++ padStart 2 48 (showZ secs).

(** The code unit of a decimal digit. *)
Definition digit (d : Z) : N := Z.to_N (48 + d).

(** The five code units of a clock reading: minutes, colon, seconds. *)
Definition clockText (seconds : Z) : jsstring :=
  [digit (seconds / 600); digit ((seconds / 60) mod 10); 58;
   digit ((seconds mod 60) / 10); digit (seconds mod 10)].

Definition clockOk (n : nat) : bool :=
  bool_decide (formatTime (Z.of_nat n) = clockText (Z.of_nat n)).

(* ------------------------------------------------------------------ *)
(** ** [ProgressTracker] and [WorkflowGuide]: the steps shown *)
(* ------------------------------------------------------------------ *)

Module ProgressTracker.

(** The [id]s of [steps], in order. *)
Definition steps : list BuildState :=
  [GATHERING_CONFIG; PLANNING; CODING; BUILDING; RUNNING; DEBUGGING].

Definition stateToIndex (state : BuildState) : Z :=
  match state with
  | VALIDATING => 0
  | GATHERING_CONFIG => 0
  | PLANNING => 1
  | CODING => 2
  | BUILDING => 3
  | RUNNING => 4
  | DEBUGGING => 5
  | SUCCESS => 6
  | ERROR => -1
  | IDLE => -1
  end.

Definition wasConfigSkipped (logs : list LogEntry) : bool :=
  negb (existsb (fun log => includes (message log) (lit "configuration(s) required")) logs).

Definition visibleSteps (state : BuildState) (logs : list LogEntry) : list BuildState :=
  let currentIndex := stateToIndex state in
  List.filter
    (fun step =>
       if bool_decide (state = DEBUGGING) then negb (bool_decide (step = GATHERING_CONFIG))
       else if bool_decide (step = DEBUGGING) then false
       else if bool_decide (step = GATHERING_CONFIG) && (0 <? currentIndex)%Z
               && wasConfigSkipped logs
            then false
            else true)
    steps.

(** [isActive] and [isCompleted] of a rendered step. *)
Definition isActive (state step : BuildState) : bool :=
  (stateToIndex state =? stateToIndex step)%Z.

Definition isCompleted (state step : BuildState) : bool :=
  (stateToIndex step <? stateToIndex state)%Z.

End ProgressTracker.

Module WorkflowGuide.

(** The steps, called by their [name]; their [id]s are PLANNING, CODING,
    BUILDING, DEBUGGING, RUNNING and DOWNLOAD. *)
Inductive Step := Plan | Code | Build | Debug | Run | Download.

#[global] Instance Step_eq_dec : EqDecision Step.
Proof. solve_decision. Defined.

Definition steps : list Step := [Plan; Code; Build; Debug; Run; Download].

Definition stateToStepIndex (buildState : BuildState)
    (runtimeState : Bot.RuntimeState) : Z :=
  match buildState, runtimeState with
  | SUCCESS, Bot.RUNNING => 4
  | SUCCESS, Bot.STOPPED => 5
  | DEBUGGING, _ => 3
  | BUILDING, _ => 2
  | CODING, _ => 1
  | PLANNING, _ => 0
  | _, _ => -1
  end.

(** The two tests that make [steps.map] return [null] for a step. *)
Definition hidden (buildState : BuildState) (step : Step) : bool :=
  (negb (bool_decide (buildState = DEBUGGING)) && bool_decide (step = Debug))
  || (bool_decide (buildState = DEBUGGING) && bool_decide (step = Build)).

(** [isActive] and [isCompleted] of the step at position [index] of
    [steps]; the index is an integer, so [Math.floor] changes nothing. *)
Definition isActive (buildState : BuildState) (runtimeState : Bot.RuntimeState)
    (index : nat) : bool :=
  (stateToStepIndex buildState runtimeState =? Z.of_nat index)%Z.

Definition isCompleted (buildState : BuildState) (runtimeState : Bot.RuntimeState)
    (index : nat) : bool :=
  (Z.of_nat index <? stateToStepIndex buildState runtimeState)%Z.

Definition isAvailable (buildState : BuildState) (runtimeState : Bot.RuntimeState)
    (step : Step) : bool :=
  bool_decide (buildState = SUCCESS) && bool_decide (runtimeState = Bot.STOPPED)
  && bool_decide (step = Download).

(** The steps that are rendered, each with its position in [steps]. *)
Definition rendered (buildState : BuildState) : list (nat * Step) :=
  List.filter (fun p => negb (hidden buildState (snd p)))
    (List.combine (seq 0 (length steps)) steps).

End WorkflowGuide.

(* ------------------------------------------------------------------ *)
(** ** [ConfigurationForm]: the form state *)
(* ------------------------------------------------------------------ *)

Module ConfigurationForm.

(** [Record<string, string>]: the properties of the object in the order
    in which they were created.  (An object lists keys that are array
    indices first; no statement below depends on the order.) *)
Definition FormState : Type := list (jsstring * jsstring).

(** [formState[key]]; [None] stands for [undefined]. *)
Definition get (formState : FormState) (k : jsstring) : option jsstring :=
  snd <$> List.find (fun kv => streq (fst kv) k) formState.

(** [{ ...formState, [key]: value }]: an existing property keeps its
    place, a new one comes last. *)
Fixpoint set (formState : FormState) (k v : jsstring) : FormState :=
  match formState with
  | [] => [(k, v)]
  | kv :: rest =>
      if streq (fst kv) k then (k, v) :: rest else kv :: set rest k v
  end.

(** The initial value of [formState]:
    [secrets.reduce((acc, secret) => ({ ...acc, [secret.key]: '' }), {})]. *)
Definition initialFormState (secrets : list RequiredSecret) : FormState :=
  fold_left (fun acc secret => set acc (key secret) []) secrets [].

Definition handleChange (k value : jsstring) (formState : FormState) : FormState :=
  set formState k value.

(** [secrets.every(secret => formState[secret.key]?.trim() !== '')] *)
Definition allFieldsFilled (secrets : list RequiredSecret) (formState : FormState) : bool :=
  forallb (fun secret =>
             match get formState (key secret) with
             | Some value => negb (streq (trim value) [])
             | None => true
             end) secrets.

(** The [disabled] attribute of the submit button. *)
Definition submitDisabled (isBuilding : bool) (secrets : list RequiredSecret)
    (formState : FormState) : bool :=
  isBuilding || negb (allFieldsFilled secrets formState).

(** The form state after the changes [changes], each a key and the value
    typed into its field. *)
Definition typed (changes : list (jsstring * jsstring)) (formState : FormState) : FormState :=
  fold_left (fun acc kv => handleChange (fst kv) (snd kv) acc) changes formState.

End ConfigurationForm.

(** A value with a code unit that is not white space. *)
Definition hasText (value : jsstring) : Prop :=
  Exists (fun c => isWhiteSpace c = false) value.

(* ------------------------------------------------------------------ *)
(** ** [CodeViewer]: escaping, and the edit controls *)
(* ------------------------------------------------------------------ *)

Module CodeViewer.

(** [s.replace(/c/g, replacement)] for a pattern of one code unit and a
    replacement without [$]. *)
Definition replaceAll (c : N) (replacement : jsstring) (s : jsstring) : jsstring :=
  flat_map (fun x => if x =? c then replacement else [x]) s.

(** [escapedLine] of [highlightPythonCode]: the line with [&], [<] and
    [>] replaced, in this order of passes. *)
Definition escapedLine (line : jsstring) : jsstring :=
  replaceAll 62 (lit "&gt;") (replaceAll 60 (lit "&lt;") (replaceAll 38 (lit "&amp;") line)).

(** The state of the component. *)
Record State := mkState { isEditing : bool; editedCode : jsstring }.

(** What the user can do with the viewer. *)
Inductive Event :=
| ClickEdit
| Change (value : jsstring)
| ClickSave
| ClickCancel.

(** The state on mount, for the prop [code]. *)
Definition initialState (code : jsstring) : State := mkState false code.

(** The controls are rendered only if an [onSave] handler is given
    ([onSave = true]); Edit while not editing, Save and Cancel while
    editing; the text area is rendered while editing. *)
Definition enabled (onSave : bool) (e : Event) (st : State) : bool :=
  match e with
  | ClickEdit => onSave && negb (isEditing st)
  | Change _ => isEditing st
  | ClickSave | ClickCancel => onSave && isEditing st
  end.

(** The handlers; the second component is the text handed to [onSave],
    if it is called. *)
Definition handle (code : jsstring) (onSave : bool) (e : Event) (st : State)
  : State * option jsstring :=
  match e with
  | ClickEdit => (mkState true (editedCode st), None)
  | Change value => (mkState (isEditing st) value, None)
  | ClickSave =>
      (mkState false (editedCode st), if onSave then Some (editedCode st) else None)
  | ClickCancel => (mkState false code, None)
  end.

(** One event, on the state and the texts saved so far. *)
Definition step (code : jsstring) (onSave : bool) (acc : State * list jsstring)
    (e : Event) : State * list jsstring :=
  if enabled onSave e (fst acc)
  then let (st, saved) := handle code onSave e (fst acc) in
       (st, snd acc ++ match saved with Some t => [t] | None => [] end)
  else acc.

Definition run (code : jsstring) (onSave : bool) (es : list Event)
  : State * list jsstring :=
  fold_left (step code onSave) es (initialState code, []).

End CodeViewer.

(** One code unit, escaped for HTML text. *)
Definition escapeUnit (c : N) : jsstring :=
  if c =? 38 then lit "&amp;"
  else if c =? 60 then lit "&lt;"
  else if c =? 62 then lit "&gt;"
  else [c].

(* ------------------------------------------------------------------ *)
(** ** [geminiService]: reading the answer of the model *)
(* ------------------------------------------------------------------ *)

Module geminiService.

(** The delimiters of a fenced block: the text of the pattern before and
    after its first group. *)
Definition fenceOpen : jsstring := lit "```json" ++ nl.
Definition fenceClose : jsstring := nl ++ lit "```".

(** The lazy group of the first alternative, [([\s\S]*?)] in front of the
    closing fence: the shortest text of [s] that the closing fence
    follows. *)
Fixpoint lazyUntilFenceClose (s : jsstring) : option jsstring :=
  if startsWith s fenceClose then Some []
  else match s with
       | [] => None
       | c :: r => cons c <$> lazyUntilFenceClose r
       end.

(** The greedy [[\s\S]*] in front of a closing bracket: the text of [s]
    up to and with its last [closer]. *)
Fixpoint greedyThrough (closer : N) (s : jsstring) : option jsstring :=
  match s with
  | [] => None
  | c :: r =>
      match greedyThrough closer r with
      | Some t => Some (c :: t)
      | None => if c =? closer then Some [c] else None
      end
  end.

(** The capture groups of a match: [jsonMatch[1]], [[2]], [[3]]. *)
Record Groups := mkGroups {
  group1 : option jsstring;
  group2 : option jsstring;
  group3 : option jsstring
}.

(** The three alternatives of the pattern, matched at the start of [s]. *)
Definition fenced (s : jsstring) : option Groups :=
  if startsWith s fenceOpen
  then (fun body => mkGroups (Some body) None None)
         <$> lazyUntilFenceClose (drop (length fenceOpen) s)
  else None.

Definition braced (s : jsstring) : option Groups :=
  match s with
  | 123 :: r => (fun t => mkGroups None (Some (123 :: t)) None) <$> greedyThrough 125 r
  | _ => None
  end.

Definition bracketed (s : jsstring) : option Groups :=
  match s with
  | 91 :: r => (fun t => mkGroups None None (Some (91 :: t))) <$> greedyThrough 93 r
  | _ => None
  end.

Definition matchHere (s : jsstring) : option Groups :=
  match fenced s with
  | Some g => Some g
  | None => match braced s with
            | Some g => Some g
            | None => bracketed s
            end
  end.

(** [text.match(pattern)]: the match that starts leftmost. *)
Fixpoint jsonMatch (text : jsstring) : option Groups :=
  match matchHere text with
  | Some g => Some g
  | None => match text with
            | [] => None
            | _ :: r => jsonMatch r
            end
  end.

(** [a || b] on values that are strings or [undefined] ([None]). *)
Definition orElse (a b : option jsstring) : option jsstring :=
  match a with
  | Some (c :: s) => Some (c :: s)
  | _ => b
  end.

(** What the call of the model gives: the text of the response, or an
    exception (also when the response has no text). *)
Inductive ApiResult :=
| ApiText (text : jsstring)
| ApiThrows.

Definition failedResponse : jsstring :=
  lit "Failed to get a valid response from AI. Please check your API key and prompt.".

(** [callGemini]: the message of the rejection, or the value resolved
    with, which is [undefined] ([None]) when the groups are all falsy. *)
Definition callGemini (r : ApiResult) : jsstring + option jsstring :=
  match r with
  | ApiThrows => inl failedResponse
  | ApiText raw =>
      let text := trim raw in
      match jsonMatch text with
      | Some g => inr (orElse (orElse (group1 g) (group2 g)) (group3 g))
      | None => inr (Some text)
      end
  end.

(** The lookahead [(?=\s*[}\]])]: after any white space comes a closing
    brace or bracket. *)
Definition beforeCloser (rest : jsstring) : bool :=
  match trimStart rest with
  | c :: _ => (c =? 125) || (c =? 93)
  | [] => false
  end.

(** [text.replace(/,(?=\s*[}\]])/g, '')] *)
Fixpoint sanitizedText (text : jsstring) : jsstring :=
  match text with
  | [] => []
  | c :: rest =>
      if (c =? 44) && beforeCloser rest then sanitizedText rest
      else c :: sanitizedText rest
  end.

(** What a run of [callGeminiForJson] comes to: the outcome (the message
    of the rejection, or the value), the calls of the model made and the
    waits of 500 ms made. *)
Record Run (T : Type) := mkRun {
  outcome : jsstring + T;
  modelCalls : nat;
  waits : nat
}.

Arguments mkRun {T} outcome modelCalls waits.
Arguments outcome {T} r.
Arguments modelCalls {T} r.
Arguments waits {T} r.

Section Json.

Context {T : Type}.

(** [JSON.parse]: the message of the [SyntaxError], or the value. *)
Variable JSON_parse : jsstring -> jsstring + T.

(** The message of the [TypeError] thrown by [text.replace] when [text]
    is [undefined]. *)
Variable typeError : jsstring.

(** What the call number [i] of the model gives. *)
Variable responses : nat -> ApiResult.

(** The body of the [try] in turn [i] of the loop. *)
Definition attempt (i : nat) : jsstring + T :=
  match callGemini (responses i) with
  | inl e_message => inl e_message
  | inr None => inl typeError
  | inr (Some text) => JSON_parse (sanitizedText text)
  end.

(** The loop from turn [i] on, with [remaining] turns to go;
    [lastError] is the message of the last error caught. *)
Fixpoint turns (retries i remaining waited : nat) (lastError : jsstring) : Run T :=
  match remaining with
  | O =>
      mkRun (inl (lit "Failed to get a valid JSON response from the AI after "
                    ++ showNat (retries + 1) ++ lit " attempts. Last error: " ++ lastError))
        i waited
  | S remaining =>
      match attempt i with
      | inr value => mkRun (inr value) (S i) waited
      | inl e_message =>
          turns retries (S i) remaining
            (if (i <? retries)%nat then S waited else waited) e_message
      end
  end.

(** [callGeminiForJson(prompt, retries)]; the loop runs for
    [i = 0, ..., retries]. *)
Definition callGeminiForJson (retries : nat) : Run T :=
  turns retries 0 (S retries) 0 [].

End Json.

End geminiService.

(** A text with no backtick, no opening brace and no opening bracket:
    no alternative of the pattern can start in it. *)
Definition plain (s : jsstring) : Prop :=
  Forall (fun c => c <> 96 /\ c <> 123 /\ c <> 91) s.

(** The line that a message other than [BUILD_DONE] and [BUILD_ERROR]
    adds to the build log, if any. *)
Definition progressLog (d : WsData) : list LogEntry :=
  match d with
  | BUILD_LOG (Some line) => [mkLog line LogType.log]
  | Unparseable raw =>
      [mkLog (lit "Error processing message from server: " ++ raw) LogType.log]
  | _ => []
  end.

(* ------------------------------------------------------------------ *)
(** ** The string methods and the event loop on examples *)
(* ------------------------------------------------------------------ *)

Example split_example :
  split 10 (lit "ab" ++ nl ++ nl ++ lit "c") = [lit "ab"; []; lit "c"].
Proof. reflexivity. Qed.

Example trim_example : trim (lit "  requests " ++ [13%N]) = lit "requests".
Proof. reflexivity. Qed.

Example includes_example :
  includes (lit "Connecting to build server...") (lit "Connecting to build server") = true.
Proof. reflexivity. Qed.

Example showNat_example : showNat 120 = lit "120".
Proof. reflexivity. Qed.

Example generation_reaches_building :
  allEnabled initial generationEvents = true /\
  buildState (run initial generationEvents) = BUILDING /\
  List.map name (generatedFiles (run initial generationEvents))
    = [lit "main.py"; lit "requirements.txt"; lit "Dockerfile";
       lit "docker-compose.yml"; lit "README.md"] /\
  buildAttempts (run initial generationEvents) = 1%nat.
Proof. vm_compute. repeat split. Qed.

Example success_starts_the_bot :
  allEnabled initial (generationEvents ++ successEvents) = true /\
  buildState botRunning = SUCCESS /\
  runtimeState botRunning = Bot.RUNNING /\
  countdown botRunning = 600%Z.
Proof. vm_compute. repeat split. Qed.

(* ------------------------------------------------------------------ *)
(** ** Facts about [findIndex] and the string set *)
(* ------------------------------------------------------------------ *)

Local Open Scope nat_scope.

Section ListFacts.
Context {A : Type}.
Implicit Types (p : A -> bool) (xs : list A).


Lemma findIndex_None p xs :
  findIndex p xs = None <-> Forall (fun x => p x = false) xs.
Proof.
  induction xs as [|x xs IH]; simpl; [by split; [constructor|]|].
  destruct (p x) eqn:Hp.
  - split; [done|]. intros H. inversion H; congruence.
  - destruct (findIndex p xs); simpl.
    + split; [done|]. intros H. inversion H; subst. by apply IH in H3.
    + split; [|done]. intros _. constructor; [done|]. by apply IH.
Qed.

Lemma findIndex_first p xs i x :
  xs !! i = Some x -> p x = true ->
  (forall j y, j < i -> xs !! j = Some y -> p y = false) ->
  findIndex p xs = Some i.
Proof.
  revert i. induction xs as [|z xs IH]; intros [|i]; simpl; try done.
  - by intros [= ->] ->.
  - intros Hx Hp Hlt. rewrite (Hlt 0 z); [|lia|done].
    rewrite (IH i); [done..|]. intros j y Hj Hy. apply (Hlt (S j)); [lia|done].
Qed.
End ListFacts.

(* ------------------------------------------------------------------ *)
(** ** The patch merge of [runDebugStep] *)
(* ------------------------------------------------------------------ *)

Section PatchMerge.
Implicit Types (fs : list GeneratedFile) (fixes : list FixedFile).

Lemma streq_true a b : streq a b = true <-> a = b.
Proof. unfold streq. by rewrite bool_decide_eq_true. Qed.

Lemma streq_false a b : streq a b = false <-> a <> b.
Proof. unfold streq. by rewrite bool_decide_eq_false. Qed.










End PatchMerge.

Section RepairStep.
Implicit Types (w : World) (fs : list GeneratedFile) (reqs : option (list jsstring)).







End RepairStep.



(* ------------------------------------------------------------------ *)
(** ** Facts about the string methods *)
(* ------------------------------------------------------------------ *)

Section StringFacts.
Implicit Types (s x : jsstring) (c sep : N) (xs : list jsstring).

Lemma trimStart_idemp s : trimStart (trimStart s) = trimStart s.
Proof.
  induction s as [|c s IH]; [done|]. cbn.
  destruct (isWhiteSpace c) eqn:E; [done|]. cbn. by rewrite E.
Qed.

Lemma trimStart_snoc s c :
  isWhiteSpace c = false -> trimStart (s ++ [c]) = trimStart s ++ [c].
Proof.
  intros Hc. induction s as [|d s IH]; cbn; [by rewrite Hc|].
  by destruct (isWhiteSpace d).
Qed.

Lemma trimStart_head s :
  match trimStart s with
  | [] => True
  | c :: _ => isWhiteSpace c = false
  end.
Proof.
  induction s as [|c s IH]; [done|]. cbn.
  destruct (isWhiteSpace c) eqn:E; [done|]. done.
Qed.

Lemma trimStart_ws ws rest :
  Forall (fun c => isWhiteSpace c = true) ws -> trimStart (ws ++ rest) = trimStart rest.
Proof. induction 1 as [|c ws Hc _ IH]; [done|]. cbn. by rewrite Hc. Qed.

Lemma trim_idemp s : trim (trim s) = trim s.
Proof.
  unfold trim, trimEnd.
  pose proof (trimStart_head s) as Hh.
  destruct (trimStart s) as [|c t]; [done|].
  cbn [rev]. rewrite trimStart_snoc by done.
  rewrite rev_app_distr. cbn [rev app].
  cbn [trimStart]. rewrite Hh.
  cbn [rev]. rewrite rev_involutive, trimStart_snoc by done.
  rewrite trimStart_idemp. by rewrite rev_app_distr.
Qed.

Lemma elem_of_rev {A} (l : list A) (a : A) : a ∈ rev l <-> a ∈ l.
Proof. rewrite !list_elem_of_In. symmetry. apply in_rev. Qed.

Lemma trimStart_elem s c : c ∈ trimStart s -> c ∈ s.
Proof.
  induction s as [|d s IH]; [done|]. cbn. destruct (isWhiteSpace d); [|done].
  intros H. right. by apply IH.
Qed.

Lemma trim_elem s c : c ∈ trim s -> c ∈ s.
Proof.
  unfold trim, trimEnd. intros H. apply trimStart_elem.
  apply (proj1 (elem_of_rev _ _)) in H. apply trimStart_elem in H.
  by apply (proj1 (elem_of_rev _ _)) in H.
Qed.

Lemma split_not_nil sep s : split sep s <> [].
Proof.
  destruct s as [|c s]; [done|]. cbn. destruct (c =? sep)%N; [done|].
  by destruct (split sep s).
Qed.

Lemma split_no_sep sep s : Forall (fun x => sep ∉ x) (split sep s).
Proof.
  induction s as [|c s IH]; cbn.
  - constructor; [apply not_elem_of_nil|done].
  - destruct (c =? sep)%N eqn:E.
    + constructor; [apply not_elem_of_nil|done].
    + apply N.eqb_neq in E. destruct (split sep s) as [|h r].
      * constructor; [|done]. rewrite list_elem_of_singleton. congruence.
      * inversion IH as [|? ? Hh Hr]; subst. constructor; [|done].
        rewrite elem_of_cons. intros [?|?]; [congruence|done].
Qed.

Lemma split_one sep x : sep ∉ x -> split sep x = [x].
Proof.
  induction x as [|c x IH]; [done|]. intros H. cbn.
  apply not_elem_of_cons in H as [Hc Hx].
  destruct (c =? sep)%N eqn:E; [apply N.eqb_eq in E; congruence|].
  by rewrite IH.
Qed.

Lemma split_app_sep sep x rest :
  sep ∉ x -> split sep (x ++ sep :: rest) = x :: split sep rest.
Proof.
  induction x as [|c x IH]; intros H; cbn.
  - by rewrite N.eqb_refl.
  - apply not_elem_of_cons in H as [Hc Hx].
    destruct (c =? sep)%N eqn:E; [apply N.eqb_eq in E; congruence|].
    by rewrite IH.
Qed.

Lemma split_join xs :
  Forall (fun x => 10%N ∉ x) xs -> xs <> [] -> split 10 (join nl xs) = xs.
Proof.
  induction xs as [|x xs IH]; [done|]. intros H _.
  inversion H as [|? ? Hx Hxs]; subst. cbn [join].
  destruct xs as [|y ys]; [by apply split_one|].
  unfold nl at 1. cbn [app]. rewrite split_app_sep by done.
  by rewrite IH.
Qed.

Lemma setAddAll_members (s xs : list jsstring) :
  Forall (fun x => x ∈ s) xs -> setAddAll s xs = s.
Proof.
  unfold setAddAll. induction xs as [|x xs IH]; [done|]. intros H.
  inversion H as [|? ? Hx Hxs]; subst. cbn [fold_left].
  unfold setAdd at 2, mem. rewrite bool_decide_eq_true_2 by done. by apply IH.
Qed.

Lemma setAddAll_NoDup (s xs : list jsstring) :
  NoDup (s ++ xs) -> setAddAll s xs = s ++ xs.
Proof.
  unfold setAddAll. revert s. induction xs as [|x xs IH]; intros s H; cbn [fold_left].
  - by rewrite app_nil_r.
  - assert (x ∉ s) as Hx.
    { apply NoDup_app in H as (_ & H & _). intros Hs. apply (H x Hs). by left. }
    unfold setAdd at 2, mem. rewrite bool_decide_eq_false_2 by done.
    rewrite IH; rewrite <- app_assoc; done.
Qed.

Lemma newSet_NoDup (xs : list jsstring) : NoDup xs -> newSet xs = xs.
Proof. intros H. unfold newSet. by rewrite setAddAll_NoDup. Qed.

End StringFacts.

Section TrimFacts.
Implicit Types (s x pre post : jsstring) (c : N).



Lemma trimStart_id s :
  (forall c, head s = Some c -> isWhiteSpace c = false) -> trimStart s = s.
Proof. destruct s as [|c s]; [done|]. intros H. cbn. by rewrite (H c). Qed.


Lemma head_rev s : head (rev s) = last s.
Proof.
  induction s as [|c s _] using rev_ind; [done|].
  by rewrite rev_app_distr, last_snoc.
Qed.




Lemma trimEnd_id s :
  (forall c, last s = Some c -> isWhiteSpace c = false) -> trimEnd s = s.
Proof.
  intros H. unfold trimEnd. rewrite trimStart_id; [apply rev_involutive|].
  intros c. rewrite head_rev. apply H.
Qed.


End TrimFacts.

(* ------------------------------------------------------------------ *)
(** ** The requirements union of [runDebugStep] *)
(* ------------------------------------------------------------------ *)

Section StringSet.
Implicit Types (s xs : list jsstring) (x y : jsstring).

Lemma elem_of_setAdd s x y : x ∈ setAdd s y <-> x ∈ s \/ x = y.
Proof.
  unfold setAdd, mem. case_bool_decide as H.
  - split; [by left|]. intros [?| ->]; done.
  - rewrite elem_of_app, list_elem_of_singleton. done.
Qed.

Lemma NoDup_setAdd s y : NoDup s -> NoDup (setAdd s y).
Proof.
  intros Hs. unfold setAdd, mem. case_bool_decide as H; [done|].
  apply NoDup_app. split; [done|]. split; [|apply NoDup_singleton].
  intros x Hx ->%list_elem_of_singleton. done.
Qed.

Lemma elem_of_setAddAll s xs x : x ∈ setAddAll s xs <-> x ∈ s \/ x ∈ xs.
Proof.
  unfold setAddAll. revert s. induction xs as [|y xs IH]; intros s; cbn [fold_left].
  - rewrite elem_of_nil. tauto.
  - rewrite IH, elem_of_setAdd, elem_of_cons. tauto.
Qed.

Lemma NoDup_setAddAll s xs : NoDup s -> NoDup (setAddAll s xs).
Proof.
  unfold setAddAll. revert s. induction xs as [|y xs IH]; intros s Hs; cbn [fold_left];
    [done|]. by apply IH, NoDup_setAdd.
Qed.

Lemma elem_of_unionRequirements code reqs x :
  x ∈ unionRequirements code reqs <-> x ∈ manifestLines code \/ x ∈ reqs.
Proof.
  unfold unionRequirements, newSet. rewrite !elem_of_setAddAll, elem_of_nil. tauto.
Qed.

Lemma NoDup_unionRequirements code reqs : NoDup (unionRequirements code reqs).
Proof. apply NoDup_setAddAll, NoDup_setAddAll, NoDup_nil_2. Qed.

Lemma elem_of_manifestLines code x :
  x ∈ manifestLines code <-> x <> [] /\ exists l, l ∈ split 10 code /\ trim l = x.
Proof.
  unfold manifestLines. rewrite list_elem_of_In, filter_In, in_map_iff.
  split.
  - intros [(l & <- & Hl) Ht]. split; [by destruct (trim l)|].
    exists l. by rewrite list_elem_of_In.
  - intros [Hne (l & Hl & <-)]. split; [exists l; by rewrite <- list_elem_of_In|].
    by destruct (trim l).
Qed.
End StringSet.

Section ManifestLines.
Implicit Types (code x pre post : jsstring).

End ManifestLines.




(* ------------------------------------------------------------------ *)
(** ** The build / debug loop *)
(* ------------------------------------------------------------------ *)

Section Loop.
Implicit Types (w : World) (i p : nat).

Lemma run_app w es1 es2 : run w (es1 ++ es2) = run (run w es1) es2.
Proof. apply fold_left_app. Qed.

Lemma run_cons w e es : run w (e :: es) = run (step w e) es.
Proof. done. Qed.

Lemma sameLoop_refl w : sameLoop w w.
Proof. by repeat split. Qed.

Lemma sameLoop_trans w1 w2 w3 : sameLoop w1 w2 -> sameLoop w2 w3 -> sameLoop w1 w3.
Proof.
  intros (?&?&?&?&?&?) (?&?&?&?&?&?). repeat split; congruence.
Qed.

(** Counting calls in a world computed from [w]. *)
Local Ltac count_calls :=
  unfold buildAttempts, debugInvocations; cbn;
  rewrite ?List.filter_app, ?length_app; cbn; try lia.

Local Ltac same_loop :=
  repeat split; cbn; rewrite ?length_alter, ?length_insert; try done; count_calls.

Lemma open_connection w i fs tok acc :
  connections w !! i = Some (mkConn CONNECTING fs tok acc false true) ->
  connections (step w (WsOpen i)) !! i = Some (mkConn OPEN fs tok acc false true) /\
  sameLoop w (step w (WsOpen i)).
Proof.
  intros Hc. unfold step. cbn. rewrite Hc. cbn.
  unfold ws_onopen. cbn. rewrite list_lookup_alter_eq, Hc. cbn.
  split; [by rewrite list_lookup_alter_eq, Hc|]. same_loop.
Qed.

(** Messages that are not terminal change the build log and the
    accumulated error text of their connection, nothing else. *)
Lemma messages_before_outcome w i msgs fs tok acc :
  connections w !! i = Some (mkConn OPEN fs tok acc false true) ->
  Forall (fun d => isTerminal d = false) msgs ->
  exists acc',
    connections (run w (messageEvents i msgs)) !! i
      = Some (mkConn OPEN fs tok acc' false true) /\
    sameLoop w (run w (messageEvents i msgs)).
Proof.
  intros Hc Hmsgs. revert w acc Hc.
  induction Hmsgs as [|d msgs Hd _ IH]; intros w acc Hc.
  - exists acc. split; [done|apply sameLoop_refl].
  - cbn [messageEvents List.map]. rewrite run_cons.
    assert (exists acc1,
      connections (step w (WsMessage i d)) !! i
        = Some (mkConn OPEN fs tok acc1 false true) /\
      sameLoop w (step w (WsMessage i d))) as (acc1 & Hc1 & Hs1).
    { unfold step. cbn. rewrite Hc. cbn.
      destruct d as [[l|]| | | |raw]; try done; cbn.
      - destruct (includes (toLowerCase l) (lit "error")).
        + eexists. split; [cbn; by rewrite list_lookup_alter_eq, Hc|]. same_loop.
        + eexists. split; [cbn; exact Hc|]. same_loop.
      - eexists. split; [exact Hc|apply sameLoop_refl].
      - eexists. split; [exact Hc|apply sameLoop_refl].
      - eexists. split; [exact Hc|]. same_loop. }
    destruct (IH _ _ Hc1) as (acc' & Hc' & Hs'). exists acc'.
    split; [done|]. by eapply sameLoop_trans.
Qed.

Lemma handleBuildError_spec w text :
  let w' := handleBuildError text w in
  buildLoopAttempt w' = S (buildLoopAttempt w) /\
  buildAttempts w' = buildAttempts w /\
  connections w' = connections w /\
  (if (MAX_FIX_ATTEMPTS <=? S (buildLoopAttempt w))%nat
   then (buildState w' = ERROR /\ pending w' = pending w /\
         debugInvocations w' = debugInvocations w)
   else (buildState w' = DEBUGGING /\ pending w' = pending w ++ [Some AwaitDebugCode] /\
         debugInvocations w' = S (debugInvocations w))).
Proof.
  unfold handleBuildError. cbn -[Nat.leb MAX_FIX_ATTEMPTS].
  rewrite Nat.add_1_r.
  destruct (MAX_FIX_ATTEMPTS <=? S (buildLoopAttempt w))%nat; cbn.
  - repeat split; count_calls.
  - repeat split; count_calls.
Qed.

Lemma onceCompleted_undecided w i k r fs tok acc t :
  connections w !! i = Some (mkConn r fs tok acc false t) ->
  onceCompleted i k w = k (alterConn i (withCompleted true) w).
Proof. intros Hc. unfold onceCompleted. by rewrite Hc. Qed.

Lemma onceCompleted_decided w i k r fs tok acc t :
  connections w !! i = Some (mkConn r fs tok acc true t) ->
  onceCompleted i k w = w.
Proof. intros Hc. unfold onceCompleted. by rewrite Hc. Qed.

Lemma connections_handleBuildError w text :
  connections (handleBuildError text w) = connections w.
Proof. by destruct (handleBuildError_spec w text) as (_ & _ & E & _). Qed.

Lemma wsClose_sameLoop w i code : sameLoop w (wsClose i code w).
Proof.
  unfold wsClose. destruct (connections w !! i) as [c|]; [|apply sameLoop_refl].
  destruct (live c); [|apply sameLoop_refl]. same_loop.
Qed.

Lemma wsClose_not_live w i code c :
  connections w !! i = Some c ->
  exists c', connections (wsClose i code w) !! i = Some c' /\
             live c' = false /\ completed c' = completed c.
Proof.
  intros Hc. unfold wsClose. rewrite Hc. destruct (live c) eqn:Hl.
  - eexists. cbn. rewrite list_lookup_alter_eq, Hc. by cbn.
  - by exists c.
Qed.

Lemma cleanup_sameLoop w i : sameLoop w (cleanup i w).
Proof. same_loop. Qed.

(** What a failure leaves behind: [handleBuildError] has run once on a
    world [w1] that agrees with [w] on the loop, and the connection is
    decided and no longer live. *)
Lemma failure_through_handleBuildError w i f r fs tok acc :
  connections w !! i = Some (mkConn r fs tok acc false true) ->
  r = CONNECTING \/ r = OPEN ->
  match f with
  | ReportsError _ => r = OPEN
  | ClosesUnexpectedly close_code _ => close_code <> 1000
  | ConnectionFails _ _ | TimesOut => True
  end ->
  exists w1 text,
    sameLoop w w1 /\
    sameLoop (handleBuildError text w1) (step w (failureEvent i f)) /\
    exists c, connections (step w (failureEvent i f)) !! i = Some c /\
              live c = false /\ completed c = true.
Proof.
  intros Hc Hr Hf.
  destruct f as [msg|code reason|code reason|]; cbn [failureEvent].
  - subst r. unfold step; cbn -[handleBuildError]; rewrite Hc; cbn -[handleBuildError].
    match goal with |- context [handleBuildError ?t] => set (text := t) end.
    erewrite onceCompleted_undecided;
      [|cbn; rewrite list_lookup_alter_eq, Hc; reflexivity].
    set (w1 := alterConn i (withCompleted true) (cleanup i w)).
    assert (connections (handleBuildError text w1) !! i
            = Some (mkConn OPEN fs tok acc true false)) as Hc1.
    { rewrite connections_handleBuildError. cbn.
      by rewrite !list_lookup_alter_eq, Hc. }
    exists w1, text. split; [same_loop|]. split; [apply wsClose_sameLoop|].
    destruct (wsClose_not_live _ i 4001 _ Hc1) as (c' & ? & ? & ?). by exists c'.
  - destruct Hr as [-> | ->].
    all: unfold step; cbn -[handleBuildError]; rewrite Hc; cbn -[handleBuildError].
    all: unfold ws_onerror, ws_onclose.
    all: change (onError appCallbacks) with handleBuildError.
    all: erewrite (onceCompleted_undecided (cleanup i _));
      [|cbn; rewrite !list_lookup_alter_eq, Hc; reflexivity].
    all: match goal with |- context [handleBuildError ?t ?w] =>
      set (text := t); set (w1 := w) end.
    all: assert (connections (handleBuildError text w1) !! i
            = Some (mkConn CLOSED fs tok acc true false)) as Hc1
      by (rewrite connections_handleBuildError; cbn;
          by rewrite !list_lookup_alter_eq, Hc).
    all: assert (connections (cleanup i (handleBuildError text w1)) !! i
            = Some (mkConn CLOSED fs tok acc true false)) as Hc2
      by (cbn -[handleBuildError]; by rewrite list_lookup_alter_eq, Hc1).
    all: exists w1, text; (split; [same_loop|]).
    all: destruct (code =? 1000)%nat;
      [ split; [apply cleanup_sameLoop|]; by eexists
      | erewrite onceCompleted_decided by exact Hc2;
        split; [apply cleanup_sameLoop|]; by eexists ].
  - apply Nat.eqb_neq in Hf. destruct Hr as [-> | ->].
    all: unfold step; cbn -[handleBuildError]; rewrite Hc; cbn -[handleBuildError].
    all: unfold ws_onclose; rewrite Hf.
    all: change (onError appCallbacks) with handleBuildError.
    all: erewrite onceCompleted_undecided;
      [|cbn; rewrite !list_lookup_alter_eq, Hc; reflexivity].
    all: match goal with |- context [handleBuildError ?t ?w] =>
      set (text := t); set (w1 := w) end.
    all: exists w1, text; (split; [same_loop|]); (split; [apply sameLoop_refl|]).
    all: eexists; rewrite connections_handleBuildError; cbn.
    all: rewrite !list_lookup_alter_eq, Hc; by cbn.
  - destruct Hr as [-> | ->].
    all: unfold step; cbn -[handleBuildError]; rewrite Hc; cbn -[handleBuildError].
    all: unfold ws_ontimeout; cbn -[handleBuildError].
    all: rewrite list_lookup_alter_eq, Hc; cbn -[handleBuildError].
    all: unfold wsClose; cbn -[handleBuildError].
    all: rewrite list_lookup_alter_eq, Hc; cbn -[handleBuildError].
    all: change (onError appCallbacks) with handleBuildError.
    all: erewrite onceCompleted_undecided;
      [|cbn; rewrite !list_lookup_alter_eq, Hc; reflexivity].
    all: match goal with |- context [handleBuildError ?t ?w] =>
      set (text := t); set (w1 := w) end.
    all: exists w1, text; (split; [same_loop|]); (split; [apply sameLoop_refl|]).
    all: eexists; rewrite connections_handleBuildError; cbn.
    all: rewrite !list_lookup_alter_eq, Hc; by cbn.
Qed.

Lemma failing_attempt_spec w i t f fs tok :
  connections w !! i = Some (mkConn CONNECTING fs tok [] false true) ->
  isFailingAttempt t f ->
  let w' := run w (failingAttempt i t f) in
  buildLoopAttempt w' = S (buildLoopAttempt w) /\
  buildAttempts w' = buildAttempts w /\
  length (connections w') = length (connections w) /\
  (exists c, connections w' !! i = Some c /\ live c = false /\ completed c = true) /\
  (if (MAX_FIX_ATTEMPTS <=? S (buildLoopAttempt w))%nat
   then (buildState w' = ERROR /\ pending w' = pending w /\
         debugInvocations w' = debugInvocations w)
   else (buildState w' = DEBUGGING /\ pending w' = pending w ++ [Some AwaitDebugCode] /\
         debugInvocations w' = S (debugInvocations w))).
Proof.
  intros Hc [Ht Hf].
  assert (exists w2 r acc,
    run w (failingAttempt i t f) = step w2 (failureEvent i f) /\
    sameLoop w w2 /\
    connections w2 !! i = Some (mkConn r fs tok acc false true) /\
    (r = CONNECTING \/ r = OPEN) /\
    match f with
    | ReportsError _ => r = OPEN
    | ClosesUnexpectedly close_code _ => close_code <> 1000
    | ConnectionFails _ _ | TimesOut => True
    end) as (w2 & r & acc & Erun & S2 & Hc2 & Hr & Hf2).
  { destruct t as [|msgs].
    - exists w, CONNECTING, []. split; [done|]. split; [apply sameLoop_refl|].
      split; [done|]. split; [by left|]. by destruct f.
    - destruct (open_connection _ _ _ _ _ Hc) as [Hc1 S1].
      destruct (messages_before_outcome _ _ msgs _ _ _ Hc1 Ht) as (acc & Hc2 & S2).
      exists (run (step w (WsOpen i)) (messageEvents i msgs)), OPEN, acc.
      split; [by cbn [failingAttempt]; rewrite run_cons, run_app|].
      split; [by eapply sameLoop_trans|]. split; [done|]. split; [by right|].
      by destruct f. }
  cbn zeta. rewrite Erun.
  destruct (failure_through_handleBuildError _ _ _ _ _ _ _ Hc2 Hr Hf2)
    as (w3 & text & S3 & S4 & Hdead).
  pose proof (sameLoop_trans _ _ _ S2 S3) as (E1 & E2 & E3 & E4 & E5 & E6).
  destruct S4 as (F1 & F2 & F3 & F4 & F5 & F6).
  destruct (handleBuildError_spec w3 text) as (G1 & G2 & G3 & G4).
  rewrite E2 in G1, G4. rewrite F2, F4, F6, F1, F3, F5.
  split; [done|]. split; [congruence|]. split; [congruence|]. split; [done|].
  destruct (MAX_FIX_ATTEMPTS <=? S (buildLoopAttempt w))%nat;
    destruct G4 as (?&?&?); repeat split; congruence.
Qed.

Lemma runBuildStep_spec w filesToBuild :
  let w' := runBuildStep filesToBuild w in
  buildState w' = BUILDING /\
  buildLoopAttempt w' = buildLoopAttempt w /\
  pending w' = pending w /\
  buildAttempts w' = S (buildAttempts w) /\
  debugInvocations w' = debugInvocations w /\
  connections w'
    = connections w ++ [mkConn CONNECTING filesToBuild (token w) [] false true].
Proof. repeat split; count_calls. Qed.

Lemma repair_step w p fixData :
  pending w !! p = Some (Some AwaitDebugCode) ->
  repairSucceeds fixData ->
  let w' := step w (Settle p (Resolved (VDebug fixData))) in
  buildState w' = BUILDING /\
  buildLoopAttempt w' = buildLoopAttempt w /\
  pending w' = <[p := None]> (pending w) /\
  buildAttempts w' = S (buildAttempts w) /\
  debugInvocations w' = debugInvocations w /\
  exists fs, connections w'
    = connections w ++ [mkConn CONNECTING fs (token w) [] false true].
Proof.
  intros Hp (f & fs & Hfix). unfold step. cbn -[runDebugStep_resume]. rewrite Hp.
  unfold runDebugStep_resume. cbn -[applyFixedFiles updateRequirements].
  rewrite Hfix. cbn -[applyFixedFiles updateRequirements].
  destruct (applyFixedFiles _ _) as [updatedFiles fixLogs].
  destruct (updateRequirements _ _) as [updatedFiles' reqLogs].
  repeat split; try (by eexists); count_calls.
Qed.

Lemma repair_failure_step w p o :
  pending w !! p = Some (Some AwaitDebugCode) ->
  repairFails o ->
  let w' := step w (Settle p o) in
  buildState w' = ERROR /\
  calls w' = calls w /\
  connections w' = connections w /\
  buildLoopAttempt w' = buildLoopAttempt w /\
  pending w' = <[p := None]> (pending w).
Proof.
  intros Hp Ho. unfold step. cbn. rewrite Hp. cbn.
  destruct o as [[]|]; cbn in Ho |- *; try done.
  destruct Ho as [Ho|Ho]; rewrite Ho; by cbn.
Qed.

Lemma repair_outcome_cases o :
  isRepairOutcome o -> repairFails o \/ repairSucceedsWith o.
Proof.
  destruct o as [[| fixData | | | | |]|]; try done; intros _; [|by left].
  destruct (fixed_files fixData) as [[|f fs]|] eqn:E.
  - left. by right.
  - right. exists fixData. split; [done|]. by exists f, fs.
  - left. by left.
Qed.

Lemma repair_fails_or_succeeds o : repairFails o -> repairSucceedsWith o -> False.
Proof.
  intros Hf (fixData & -> & f & fs & Hs). cbn in Hf. rewrite Hs in Hf.
  by destruct Hf.
Qed.

(** Events of a connection that does not exist, and the settling of a
    promise nobody waits for, change nothing. *)
Lemma attempt_on_missing_connection w i t f :
  connections w !! i = None -> run w (failingAttempt i t f) = w.
Proof.
  intros Hc.
  assert (forall e, eventConnection e = Some i -> step w e = w) as Hno.
  { intros e He. unfold step.
    destruct e; cbn in He; try done; injection He as ->; cbn; by rewrite Hc. }
  assert (forall es, Forall (fun e => eventConnection e = Some i) es -> run w es = w)
    as Hrun.
  { induction es as [|e es IH]; [done|]. intros [He Hes]%Forall_cons.
    rewrite run_cons, Hno by done. by apply IH. }
  apply Hrun. destruct t as [|msgs]; cbn [failingAttempt].
  - constructor; [by destruct f|constructor].
  - constructor; [done|]. apply Forall_app. split.
    + unfold messageEvents. apply Forall_forall. intros e He.
      apply list_elem_of_In, in_map_iff in He as (d & <- & _). done.
    + constructor; [by destruct f|constructor].
Qed.

Lemma settle_nobody_waiting w p o :
  pending w !! p = None -> step w (Settle p o) = w.
Proof. intros Hp. unfold step. cbn. by rewrite Hp. Qed.

End Loop.

(** C1.  A build is started with the attempt counter at 0 and every build
    attempt fails (by a BUILD_ERROR message, a failed connection, an
    unexpected close or the watchdog; before that the connection may stay
    unopened or carry any messages that are not terminal).  The first
    failure leads to the first repair call.  Whatever the two repair calls
    come back with, the session ends in ERROR after at most 3 build
    attempts and at most 2 repair calls.  When each repair call returns at
    least one patched file, the first and the second failure each lead to
    one repair call and one more build attempt, and the third failure sets
    the session to ERROR without a repair call: ERROR is reached after
    exactly 3 build attempts and exactly 2 repair calls. *)
Theorem always_failing_build_three_attempts
    (w : World) (filesToBuild : list GeneratedFile)
    (t1 t2 t3 : Traffic) (f1 f2 f3 : Failure) (o1 o2 : Outcome) :
  buildLoopAttempt w = 0 ->
  isFailingAttempt t1 f1 -> isFailingAttempt t2 f2 -> isFailingAttempt t3 f3 ->
  isRepairOutcome o1 -> isRepairOutcome o2 ->
  let c := length (connections w) in
  let p := length (pending w) in
  let w1 := run (runBuildStep filesToBuild w) (failingAttempt c t1 f1) in
  let w2 := step w1 (Settle p o1) in
  let w3 := run w2 (failingAttempt (c + 1) t2 f2) in
  let w4 := step w3 (Settle (p + 1) o2) in
  let w5 := run w4 (failingAttempt (c + 2) t3 f3) in
  (buildState w1 = DEBUGGING /\ buildAttempts w1 = buildAttempts w + 1 /\
   debugInvocations w1 = debugInvocations w + 1) /\
  (buildState w5 = ERROR /\ buildAttempts w5 <= buildAttempts w + 3 /\
   debugInvocations w5 <= debugInvocations w + 2) /\
  (repairSucceedsWith o1 -> repairSucceedsWith o2 ->
   (buildState w2 = BUILDING /\ buildAttempts w2 = buildAttempts w + 2 /\
    debugInvocations w2 = debugInvocations w + 1) /\
   (buildState w3 = DEBUGGING /\ buildAttempts w3 = buildAttempts w + 2 /\
    debugInvocations w3 = debugInvocations w + 2) /\
   (buildState w4 = BUILDING /\ buildAttempts w4 = buildAttempts w + 3 /\
    debugInvocations w4 = debugInvocations w + 2) /\
   (buildState w5 = ERROR /\ buildAttempts w5 = buildAttempts w + 3 /\
    debugInvocations w5 = debugInvocations w + 2 /\
    buildLoopAttempt w5 = 3 /\ pending w5 = pending w4)).
Proof.
  intros H0 Hf1 Hf2 Hf3 Ho1 Ho2 c p w1 w2 w3 w4 w5.
  destruct (runBuildStep_spec w filesToBuild) as (A1 & A2 & A3 & A4 & A5 & A6).
  (* first attempt *)
  destruct (failing_attempt_spec (runBuildStep filesToBuild w) c t1 f1
              filesToBuild (token w)) as (B1 & B2 & B3 & B4 & B5); [|done|].
  { rewrite A6. by apply list_lookup_middle. }
  fold w1 in B1, B2, B3, B4, B5. rewrite A2, H0 in B1, B5.
  change (MAX_FIX_ATTEMPTS <=? 1)%nat with false in B5.
  destruct B5 as (B5 & B6 & B7). rewrite A3 in B6.
  assert (length (connections w1) = c + 1) as Lc1
    by (rewrite B3, A6, length_app; cbn; lia).
  assert (pending w1 !! p = Some (Some AwaitDebugCode)) as Hp1
    by (rewrite B6; by apply list_lookup_middle).
  split; [repeat split; [done|lia..]|].
  destruct (repair_outcome_cases o1 Ho1) as [Hfail1|Hok1].
  { (* the first repair call fails *)
    destruct (repair_failure_step w1 p o1 Hp1 Hfail1) as (C1 & C2 & C3 & C4 & C5).
    fold w2 in C1, C2, C3, C4, C5.
    assert (w3 = w2) as E3.
    { apply attempt_on_missing_connection, lookup_ge_None. rewrite C3. lia. }
    assert (w4 = w2) as E4.
    { subst w4. rewrite E3. apply settle_nobody_waiting, lookup_ge_None.
      rewrite C5, length_insert, B6, length_app. cbn. lia. }
    assert (w5 = w2) as E5.
    { subst w5. rewrite E4.
      apply attempt_on_missing_connection, lookup_ge_None. rewrite C3. lia. }
    split; [|intros Hok1; by destruct (repair_fails_or_succeeds o1)].
    rewrite E5. unfold buildAttempts, debugInvocations in *. rewrite C2.
    repeat split; [done|lia..]. }
  (* the first repair call succeeds *)
  destruct Hok1 as (fix1 & Eo1 & Hr1).
  destruct (repair_step w1 p fix1) as (C1 & C2 & C3 & C4 & C5 & fs2 & C6); [done..|].
  rewrite <- Eo1 in C1, C2, C3, C4, C5, C6. fold w2 in C1, C2, C3, C4, C5, C6.
  (* second attempt *)
  destruct (failing_attempt_spec w2 (c + 1) t2 f2 fs2 (token w1))
    as (D1 & D2 & D3 & D4 & D5); [|done|].
  { rewrite C6. apply list_lookup_middle. lia. }
  fold w3 in D1, D2, D3, D4, D5. rewrite C2, B1 in D1, D5.
  change (MAX_FIX_ATTEMPTS <=? 2)%nat with false in D5.
  destruct D5 as (D5 & D6 & D7).
  assert (length (connections w3) = c + 2) as Lc3
    by (rewrite D3, C6, length_app; cbn; lia).
  assert (pending w3 !! (p + 1) = Some (Some AwaitDebugCode)) as Hp3.
  { rewrite D6, C3, B6. apply list_lookup_middle.
    rewrite length_insert, length_app. cbn. lia. }
  destruct (repair_outcome_cases o2 Ho2) as [Hfail2|Hok2].
  { (* the second repair call fails *)
    destruct (repair_failure_step w3 (p + 1) o2 Hp3 Hfail2) as (E1 & E2 & E3 & E4 & E5).
    fold w4 in E1, E2, E3, E4, E5.
    assert (w5 = w4) as E6.
    { apply attempt_on_missing_connection, lookup_ge_None. rewrite E3. lia. }
    split; [|intros _ Hok2; by destruct (repair_fails_or_succeeds o2)].
    rewrite E6. unfold buildAttempts, debugInvocations in *. rewrite E2.
    repeat split; [done|lia..]. }
  (* the second repair call succeeds *)
  destruct Hok2 as (fix2 & Eo2 & Hr2).
  destruct (repair_step w3 (p + 1) fix2) as (E1 & E2 & E3 & E4 & E5 & fs3 & E6); [done..|].
  rewrite <- Eo2 in E1, E2, E3, E4, E5, E6. fold w4 in E1, E2, E3, E4, E5, E6.
  (* third attempt *)
  destruct (failing_attempt_spec w4 (c + 2) t3 f3 fs3 (token w3))
    as (F1 & F2 & F3 & F4 & F5); [|done|].
  { rewrite E6. apply list_lookup_middle. lia. }
  fold w5 in F1, F2, F3, F4, F5. rewrite E2, D1 in F1, F5.
  change (MAX_FIX_ATTEMPTS <=? 3)%nat with true in F5.
  destruct F5 as (F5 & F6 & F7).
  split; [repeat split; [done|lia..]|].
  intros _ _. repeat split; try done; lia.
Qed.

(** The theorem at the loaded page: an unexpected close before the socket
    opens, a BUILD_ERROR without message and a timeout, with two repairs in
    between. *)
Lemma always_failing_build_witness :
  let w1 := run (runBuildStep [mkFile (lit "main.py") (lit "print(1)")] initial)
              (failingAttempt 0 NeverOpens (ClosesUnexpectedly 1006 [])) in
  let w2 := step w1 (Settle 0 (Resolved (VDebug demoFix))) in
  let w3 := run w2 (failingAttempt 1 (Opens [BUILD_LOG (Some (lit "ERROR: pip"))])
                       (ReportsError None)) in
  let w4 := step w3 (Settle 1 (Resolved (VDebug demoFix))) in
  let w5 := run w4 (failingAttempt 2 (Opens []) TimesOut) in
  buildLoopAttempt initial = 0 /\
  buildState w5 = ERROR /\ buildAttempts w5 = 3 /\ debugInvocations w5 = 2.
Proof.
  intros w1 w2 w3 w4 w5. split; [reflexivity|].
  destruct (always_failing_build_three_attempts initial
              [mkFile (lit "main.py") (lit "print(1)")]
              NeverOpens (Opens [BUILD_LOG (Some (lit "ERROR: pip"))]) (Opens [])
              (ClosesUnexpectedly 1006 []) (ReportsError None) TimesOut
              (Resolved (VDebug demoFix)) (Resolved (VDebug demoFix)))
    as (_ & _ & H).
  - reflexivity.
  - split; [exact I|simpl; lia].
  - split; [repeat constructor|discriminate].
  - split; [constructor|exact I].
  - exact I.
  - exact I.
  - destruct H as (_ & _ & _ & H5 & H6 & H7 & _).
    + exists demoFix. split; [reflexivity|]. eexists _, _. reflexivity.
    + exists demoFix. split; [reflexivity|]. eexists _, _. reflexivity.
    + split; [exact H5|]. split; [exact H6|exact H7].
Defined.

(** C5.  When the awaited repair call throws, or answers without any
    patched file, the session goes to ERROR in that very step: no call is
    made on any collaborator (no repair call, no build attempt), no
    connection is opened, the attempt counter keeps its value, whatever it
    is, and nothing is left waiting.  In particular, from an attempt
    counter of 0, a first build failure followed by a failing first repair
    call ends in ERROR with the attempt counter at 1, after one build
    attempt and one repair call. *)
Theorem repair_failure_escalates :
  (forall (w : World) (p : nat) (o : Outcome),
     pending w !! p = Some (Some AwaitDebugCode) ->
     repairFails o ->
     let w' := step w (Settle p o) in
     buildState w' = ERROR /\
     calls w' = calls w /\
     connections w' = connections w /\
     buildLoopAttempt w' = buildLoopAttempt w /\
     pending w' = <[p := None]> (pending w)) /\
  (forall (w : World) (filesToBuild : list GeneratedFile) (t : Traffic)
          (f : Failure) (o : Outcome),
     buildLoopAttempt w = 0 ->
     isFailingAttempt t f ->
     repairFails o ->
     let w1 := run (runBuildStep filesToBuild w)
                 (failingAttempt (length (connections w)) t f) in
     let w2 := step w1 (Settle (length (pending w)) o) in
     buildState w1 = DEBUGGING /\
     buildState w2 = ERROR /\
     buildLoopAttempt w2 = 1 /\
     debugInvocations w2 = debugInvocations w + 1 /\
     buildAttempts w2 = buildAttempts w + 1).
Proof.
  pose proof repair_failure_step as General.
  split; [exact General|].
  intros w filesToBuild t f o H0 Hf Ho w1 w2.
  destruct (runBuildStep_spec w filesToBuild) as (A1 & A2 & A3 & A4 & A5 & A6).
  destruct (failing_attempt_spec (runBuildStep filesToBuild w) (length (connections w))
              t f filesToBuild (token w)) as (B1 & B2 & B3 & B4 & B5); [|done|].
  { rewrite A6. by apply list_lookup_middle. }
  fold w1 in B1, B2, B3, B4, B5. rewrite A2, H0 in B1, B5.
  change (MAX_FIX_ATTEMPTS <=? 1)%nat with false in B5.
  destruct B5 as (B5 & B6 & B7). rewrite A3 in B6.
  destruct (General w1 (length (pending w)) o) as (C1 & C2 & C3 & C4 & C5); [|done|].
  { rewrite B6. by apply list_lookup_middle. }
  fold w2 in C1, C2, C3, C4, C5.
  unfold debugInvocations, buildAttempts in *. rewrite C2, C4.
  repeat split; try done; lia.
Qed.

(** Scenario C from the loaded page. *)
Lemma repair_failure_witness :
  let w1 := run (runBuildStep [mkFile (lit "main.py") (lit "print(1)")] initial)
              (failingAttempt 0 (Opens []) (ReportsError (Some (lit "pip install failed")))) in
  let w2 := step w1 (Settle 0 (Rejected (lit "Failed to get a valid response from AI."))) in
  buildLoopAttempt initial = 0 /\
  buildState w2 = ERROR /\ buildLoopAttempt w2 = 1 /\ debugInvocations w2 = 1.
Proof.
  intros w1 w2. split; [reflexivity|].
  destruct (proj2 repair_failure_escalates initial
              [mkFile (lit "main.py") (lit "print(1)")] (Opens [])
              (ReportsError (Some (lit "pip install failed")))
              (Rejected (lit "Failed to get a valid response from AI.")))
    as (_ & H2 & H3 & H4 & _).
  - reflexivity.
  - split; [constructor|discriminate].
  - exact I.
  - split; [exact H2|]. split; [exact H3|exact H4].
Defined.

(* ------------------------------------------------------------------ *)
(** ** Build connections over time *)
(* ------------------------------------------------------------------ *)

Section Connections.
Implicit Types (w : World) (i j : nat) (c : BuildConnection).

Lemma handleBuildError_connections w text :
  connections (handleBuildError text w) = connections w.
Proof. apply connections_handleBuildError. Qed.

Lemma dead_disabled w i c e :
  connections w !! i = Some c -> dead c = true ->
  eventConnection e = Some i -> enabled e w = false.
Proof.
  intros Hc Hd He. unfold dead in Hd. apply andb_true_iff in Hd as [H1 H2].
  apply negb_true_iff in H2.
  destruct e; cbn in He; try done; injection He as ->; cbn; rewrite Hc; cbn.
  - unfold isClosed, isConnecting in *. by destruct (readyState c).
  - unfold isClosed, isOpen in *. by destruct (readyState c).
  - by rewrite H1.
  - done.
Qed.

Local Ltac grows_tac :=
  unfold grows; cbn -[handleBuildError];
  repeat (case_match; cbn -[handleBuildError]);
  solve [ by exists []; rewrite app_nil_r | by eexists ].

Local Ltac unfold_handlers :=
  unfold handleStartConfiguration, handleSecretsSubmitted,
    restartBot, handleRebuild, handleReset, onClearLogs, countdownTick,
    stream_onmessage, stream_onerror, handleFileUpdate,
    stopBot_resume, startBot_resume, runDebugStep_resume, getBotMetadata_resume,
    extractRequiredSecrets_resume, generateStructure_resume,
    generateFileCode_resume, generateSetupFiles_resume, generateNext,
    generationFailed, debugFailed, startCodeGeneration,
    startBot, stopBot, afterStop, handleRebuild_rest, resetRuntime, resetBuild,
    closeRuntimeLogStream, clearCountdownInterval, runBuildStep, buildBot.

Lemma grows_resume w k o : grows w (resume k o w).
Proof.
  destruct k; cbn [resume]; unfold_handlers.
  all: try solve [grows_tac].
Qed.

Lemma grows_handle_other w e :
  eventConnection e = None -> grows w (handle e w).
Proof.
  intros He. destruct e; try done; cbn [handle]; unfold_handlers.
  all: try solve [grows_tac].
  destruct (pending w !! p) as [[k|]|]; try solve [grows_tac].
  destruct (grows_resume (setPending (<[p:=None]> (pending w)) w) k o) as [more E].
  by exists more.
Qed.

(** The handlers of socket [j] leave every other connection alone. *)
Lemma handle_other_connection w e j i :
  eventConnection e = Some j -> j <> i ->
  connections (handle e w) !! i = connections w !! i.
Proof.
  intros He Hne. destruct e; try done; cbn in He; injection He as ->; cbn [handle].
  all: unfold ws_onopen, ws_onmessage, ws_onerror, ws_onclose, ws_ontimeout,
         onceCompleted, wsClose, cleanup.
  all: change (onError appCallbacks) with handleBuildError.
  all: cbn -[handleBuildError].
  all: repeat (case_match; cbn -[handleBuildError]).
  all: repeat first [ rewrite handleBuildError_connections
                    | rewrite list_lookup_alter_ne by done
                    | progress cbn -[handleBuildError] ]; try done.
Qed.

Lemma step_keeps_dead w i c e :
  connections w !! i = Some c -> dead c = true ->
  connections (step w e) !! i = Some c.
Proof.
  intros Hc Hd. unfold step. destruct (enabled e w) eqn:En; [|done].
  destruct (eventConnection e) as [j|] eqn:Ej.
  - destruct (decide (j = i)) as [->|Hne].
    + by rewrite (dead_disabled w i c e) in En.
    + by rewrite (handle_other_connection w e j i).
  - destruct (grows_handle_other w e Ej) as [more ->]. by apply lookup_app_l_Some.
Qed.

Lemma run_keeps_dead w i c es :
  connections w !! i = Some c -> dead c = true ->
  connections (run w es) !! i = Some c.
Proof.
  revert w. induction es as [|e es IH]; intros w Hc Hd; [done|].
  rewrite run_cons. apply IH; [|done]. by apply step_keeps_dead.
Qed.
End Connections.

(** C10.  A build connection whose outcome is still undecided (no
    BUILD_DONE, BUILD_ERROR, error event or timeout so far) closes with
    code 1000.  The close handler then calls neither [onComplete] nor
    [onError] (whatever the callbacks are, it only runs [cleanup]): the
    watchdog is cancelled, the connection is closed with its [completed]
    flag still unset, and the session state, attempt counter, last error,
    build log and pending work are as before, so a session in BUILDING
    stays in BUILDING.  From then on no event of that connection changes
    anything, whatever else happens in between. *)
Theorem clean_close_reports_nothing
    (w : World) (i : nat) (c : BuildConnection) (reason : jsstring) :
  connections w !! i = Some c ->
  isClosed c = false ->
  completed c = false ->
  let w' := step w (WsClosed i false 1000 reason) in
  (forall cb, ws_onclose cb i 1000 reason w = cleanup i w) /\
  w' = cleanup i (alterConn i (withReadyState CLOSED) w) /\
  connections w' !! i
    = Some (mkConn CLOSED (conn_files c) (conn_token c) (accumulatedErrorLogs c)
              false false) /\
  (buildState w' = buildState w /\ buildLoopAttempt w' = buildLoopAttempt w /\
   lastBuildError w' = lastBuildError w /\ logs w' = logs w /\
   pending w' = pending w /\ debugInvocations w' = debugInvocations w) /\
  (forall es e, eventConnection e = Some i -> step (run w' es) e = run w' es) /\
  (forall es, Forall (fun e => eventConnection e = Some i) es -> run w' es = w').
Proof.
  intros Hc Hclosed Hundecided w'.
  assert (w' = cleanup i (alterConn i (withReadyState CLOSED) w)) as Ew'.
  { subst w'. unfold step. cbn. rewrite Hc. cbn. by rewrite Hclosed. }
  assert (connections w' !! i
    = Some (mkConn CLOSED (conn_files c) (conn_token c) (accumulatedErrorLogs c)
              false false)) as Hc'.
  { rewrite Ew'. cbn. rewrite !list_lookup_alter_eq, Hc. 
    unfold withTimeoutId, withReadyState. cbn. by rewrite Hundecided. }
  assert (forall es e, eventConnection e = Some i -> step (run w' es) e = run w' es)
    as Hnever.
  { intros es e He. unfold step.
    pose proof (run_keeps_dead w' i _ es Hc' eq_refl) as Hdead.
    by rewrite (dead_disabled _ _ _ e Hdead eq_refl He). }
  split; [done|]. split; [done|]. split; [done|].
  split.
  { rewrite Ew'. repeat split; try done.
    unfold debugInvocations. cbn. rewrite List.filter_app, length_app. cbn. lia. }
  split; [done|].
  induction es as [|e es IH] using rev_ind; [done|].
  intros [Hes He%Forall_inv]%Forall_app. rewrite run_app. cbn [run fold_left].
  rewrite Hnever by done. by apply IH.
Qed.

(** A connection that closes normally while still connecting. *)
Lemma clean_close_witness :
  let w := runBuildStep [mkFile (lit "main.py") (lit "print(1)")] initial in
  connections w !! 0
    = Some (mkConn CONNECTING [mkFile (lit "main.py") (lit "print(1)")] [] [] false true) /\
  buildState (step w (WsClosed 0 false 1000 [])) = BUILDING /\
  debugInvocations (step w (WsClosed 0 false 1000 [])) = 0.
Proof.
  intros w. split; [reflexivity|].
  destruct (clean_close_reports_nothing w 0
              (mkConn CONNECTING [mkFile (lit "main.py") (lit "print(1)")] [] [] false true)
              [] eq_refl eq_refl eq_refl)
    as (_ & _ & _ & (H1 & _ & _ & _ & _ & H2) & _).
  split; [exact H1|exact H2].
Defined.

Section OneConnection.
Implicit Types (w v : World) (i : nat) (c : BuildConnection).





End OneConnection.




(* ------------------------------------------------------------------ *)
(** ** Rebuild and the build log *)
(* ------------------------------------------------------------------ *)

Section Rebuild.
Implicit Types (w : World).

Lemma stopBot_running w k :
  let w' := stopBot Bot.RUNNING afterStop k w in
  pending w' = pending w ++ [Some (AwaitStopBot k)] /\
  buildState w' = buildState w /\
  logs w' = logs w /\
  connections w' = connections w.
Proof.
  unfold stopBot, closeRuntimeLogStream, clearCountdownInterval. cbn.
  repeat (case_match; cbn); done.
Qed.

Lemma resetRuntime_frame w :
  buildState (resetRuntime w) = buildState w /\
  logs (resetRuntime w) = logs w /\
  connections (resetRuntime w) = connections w /\
  pending (resetRuntime w) = pending w /\
  token (resetRuntime w) = token w.
Proof.
  unfold resetRuntime, closeRuntimeLogStream, clearCountdownInterval. cbn.
  repeat (case_match; cbn); done.
Qed.

Lemma handleRebuild_rest_building w logsAtRender filesAtRender :
  buildState (handleRebuild_rest logsAtRender filesAtRender w) = BUILDING.
Proof. done. Qed.

Lemma logs_handleRebuild_rest w logsAtRender filesAtRender :
  logs (handleRebuild_rest logsAtRender filesAtRender w)
  = match findIndex isBuildLogStart logsAtRender with
    | Some i => take i (logs w)
    | None => logs w
    end ++ [mkLog (lit "Connecting to build server...") LogType.log].
Proof.
  unfold handleRebuild_rest, resetRuntime, closeRuntimeLogStream,
    clearCountdownInterval. cbn.
  repeat (case_match; cbn); try done.
  all: by rewrite firstn_all.
Qed.
End Rebuild.

(** C3 (counterexample).  Three build attempts fail and the session ends in
    ERROR by build failure; no file was edited.  The Rebuild command is not
    offered, and asking for it changes nothing: the session stays in
    ERROR. *)
Lemma build_failure_leaves_rebuild_disabled :
  allEnabled initial (generationEvents ++ threeFailuresEvents) = true /\
  buildState buildFailed = ERROR /\
  buildAttempts buildFailed = 3 /\
  hasUnrebuiltChanges buildFailed = false /\
  enabled ClickRebuild buildFailed = false /\
  step buildFailed ClickRebuild = buildFailed.
Proof. vm_compute. repeat split. Qed.

(** C3 (as amended).  While the session is in SUCCESS or ERROR the Rebuild
    command is offered exactly when there are unrebuilt changes; without
    them it does nothing, also in ERROR after a build failure.  Saving an
    edit sets the flag and leaves the session state as it is; Rebuild then
    takes the session to BUILDING, at once when the runtime is stopped,
    and otherwise as soon as the stop request it waits for has returned. *)
Theorem rebuild_needs_unrebuilt_changes (w : World) :
  botRunnerShown w = true ->
  enabled ClickRebuild w = hasUnrebuiltChanges w /\
  (hasUnrebuiltChanges w = false -> step w ClickRebuild = w) /\
  (forall fileName newCode,
     let w1 := handleFileUpdate fileName newCode w in
     let w2 := step w1 ClickRebuild in
     buildState w1 = buildState w /\
     enabled ClickRebuild w1 = true /\
     match runtimeState w with
     | Bot.STOPPED => buildState w2 = BUILDING
     | Bot.RUNNING =>
         buildState w2 = buildState w /\
         pending w2 = pending w ++ [Some (AwaitStopBot
                                            (ThenRebuild (logs w1) (generatedFiles w1)))] /\
         forall v, buildState (step w2 (Settle (length (pending w)) (Resolved v))) = BUILDING
     end).
Proof.
  intros Hshown.
  assert (enabled ClickRebuild w = hasUnrebuiltChanges w) as He.
  { cbn. by rewrite Hshown. }
  split; [done|]. split.
  { intros Hno. unfold step. by rewrite He, Hno. }
  intros fileName newCode w1 w2.
  assert (enabled ClickRebuild w1 = true) as He1.
  { subst w1. cbn. unfold botRunnerShown in *. cbn. by rewrite Hshown. }
  split; [done|]. split; [done|].
  subst w2. unfold step. rewrite He1. cbn [handle]. unfold handleRebuild.
  change (runtimeState w1) with (runtimeState w).
  destruct (runtimeState w) eqn:Hr.
  - done.
  - set (k := ThenRebuild (logs w1) (generatedFiles w1)).
    set (w1' := addLog _ _ w1).
    destruct (stopBot_running w1' k) as (Hp & Hb & _).
    split; [done|]. split; [done|]. intros v.
    unfold step. cbn -[stopBot]. rewrite Hp.
    rewrite list_lookup_middle by done. done.
Qed.

(** After the three failed attempts of [buildFailed], saving an edit makes
    Rebuild take the session to BUILDING. *)
Lemma rebuild_after_edit_witness :
  botRunnerShown buildFailed = true /\
  enabled ClickRebuild buildFailed = hasUnrebuiltChanges buildFailed /\
  buildState (step (handleFileUpdate (lit "main.py") (lit "print(4)") buildFailed)
                ClickRebuild) = BUILDING.
Proof.
  assert (botRunnerShown buildFailed = true) as Hshown by (vm_compute; reflexivity).
  split; [exact Hshown|].
  destruct (rebuild_needs_unrebuilt_changes buildFailed Hshown) as (H1 & _ & H3).
  split; [exact H1|].
  destruct (H3 (lit "main.py") (lit "print(4)")) as (_ & _ & H).
  vm_compute in H. vm_compute. exact H.
Defined.

(** C4 (counterexample).  Planning fails, so the session is in ERROR with
    seven log entries, all written before any build attempt was made;
    Clear empties the log.  And when the compiler names a generated file
    after the sentinel text, Clear after the failed build cuts the log at
    the entry announcing that file, which erases the generation entries
    that follow it and precede the first build attempt. *)
Lemma clear_erases_generation_entries :
  (allEnabled initial planningFailureEvents = true /\
   buildState planningFailed = ERROR /\
   buildAttempts planningFailed = 0 /\
   length (logs planningFailed) = 7 /\
   enabled ClickClear planningFailed = true /\
   logs (step planningFailed ClickClear) = []) /\
  (allEnabled initial markerNamedFileEvents = true /\
   buildState markerNamedFile = ERROR /\
   (exists gen build,
      logs markerNamedFile = gen ++ build /\
      length gen = 11 /\
      List.nth_error build 0
        = Some (mkLog (lit "Connecting to build server...") LogType.log) /\
      logs (step markerNamedFile ClickClear) = take 8 gen /\
      List.map message (drop 8 gen)
        = [lit "- Generating code for Connecting to build server.py";
           lit "Generating setup files..."; lit "All files generated."])).
Proof.
  split; [vm_compute; repeat split|].
  split; [by vm_compute|]. split; [by vm_compute|].
  exists (take 11 (logs markerNamedFile)), (drop 11 (logs markerNamedFile)).
  split; [by rewrite take_drop|]. by vm_compute.
Qed.

(** C4 (as amended).  Clear in the ERROR view and the truncation done by
    Rebuild cut the build log at the first entry whose message contains
    the text "Connecting to build server", found by searching the
    messages: the session records no index.  When every entry before the
    first build attempt's "Connecting to build server..." line is free of
    that text, Clear keeps exactly those entries, and Rebuild keeps them
    and then opens the new attempt (at once when the runtime is stopped,
    and when the awaited stop request returns otherwise).  When no entry
    contains the text, Clear empties the build log, while Rebuild keeps
    all of it. *)
Theorem log_truncation_by_marker (w : World) :
  let rebuilt v :=
    match runtimeState w with
    | Bot.STOPPED => handleRebuild w
    | Bot.RUNNING => step (handleRebuild w) (Settle (length (pending w)) (Resolved v))
    end in
  let rebuilding := mkLog (lit "Rebuilding bot with your changes...") LogType.log in
  let connecting := mkLog (lit "Connecting to build server...") LogType.log in
  (buildState w = ERROR ->
   logs (onClearLogs w)
     = match findIndex isBuildLogStart (logs w) with
       | Some i => take i (logs w)
       | None => []
       end) /\
  (forall gen first rest,
     logs w = gen ++ first :: rest ->
     Forall (fun l => isBuildLogStart l = false) gen ->
     isBuildLogStart first = true ->
     (buildState w = ERROR -> logs (onClearLogs w) = gen) /\
     (forall v, logs (rebuilt v) = gen ++ [connecting])) /\
  (Forall (fun l => isBuildLogStart l = false) (logs w) ->
   (buildState w = ERROR -> logs (onClearLogs w) = []) /\
   (forall v, logs (rebuilt v) = logs w ++ [rebuilding; connecting])).
Proof.
  intros rebuilt rebuilding connecting.
  assert (buildState w = ERROR ->
   logs (onClearLogs w)
     = match findIndex isBuildLogStart (logs w) with
       | Some i => take i (logs w)
       | None => []
       end) as Hclear.
  { intros He. unfold onClearLogs. rewrite He. by destruct (findIndex _ _). }
  assert (forall v, logs (rebuilt v)
     = match findIndex isBuildLogStart (logs w) with
       | Some i => take i (logs w ++ [rebuilding])
       | None => logs w ++ [rebuilding]
       end ++ [connecting]) as Hrebuilt.
  { intros v. subst rebuilt. cbn beta. unfold handleRebuild.
    destruct (runtimeState w) eqn:Hs.
    - by rewrite logs_handleRebuild_rest.
    - set (k := ThenRebuild (logs w) (generatedFiles w)).
      set (w1 := addLog _ _ w).
      destruct (stopBot_running w1 k) as (Hp & _ & Hl & _).
      unfold step. cbn -[stopBot handleRebuild_rest]. rewrite Hp.
      rewrite list_lookup_middle by done.
      cbn -[stopBot handleRebuild_rest].
      rewrite logs_handleRebuild_rest. cbn -[stopBot]. by rewrite Hl. }
  split; [done|]. split.
  - intros gen first rest Hlogs Hgen Hfirst.
    assert (findIndex isBuildLogStart (logs w) = Some (length gen)) as Hi.
    { rewrite Hlogs. eapply findIndex_first; [by apply list_lookup_middle|done|].
      intros j y Hj Hy. rewrite lookup_app_l in Hy by done.
      rewrite Forall_forall in Hgen. eapply Hgen, list_elem_of_lookup_2, Hy. }
    split.
    + intros He. rewrite (Hclear He), Hi, Hlogs. by rewrite take_app_length.
    + intros v. rewrite Hrebuilt, Hi, Hlogs, <- app_assoc.
      by rewrite take_app_length.
  - intros Hnone. apply findIndex_None in Hnone. split.
    + intros He. by rewrite (Hclear He), Hnone.
    + intros v. rewrite Hrebuilt, Hnone. by rewrite <- app_assoc.
Qed.

(** Clear after the planning failure. *)
Lemma log_truncation_witness :
  buildState planningFailed = ERROR /\
  logs (onClearLogs planningFailed) = [].
Proof.
  assert (buildState planningFailed = ERROR) as He by (vm_compute; reflexivity).
  split; [exact He|].
  rewrite (proj1 (log_truncation_by_marker planningFailed) He).
  vm_compute. reflexivity.
Defined.

(* ------------------------------------------------------------------ *)
(** ** The runtime countdown *)
(* ------------------------------------------------------------------ *)

Section Countdown.
Implicit Types (w : World) (t n : nat).

Lemma tick_with_stale_stop w t :
  intervals w !! t = Some (mkInterval true Bot.STOPPED) ->
  step w (Tick t) = setCountdown (countdownAfter 1 (countdown w)) w.
Proof.
  intros Ht. unfold step. cbn. rewrite Ht. cbn.
  unfold countdownTick. rewrite Ht. cbn. by destruct (countdown w <=? 1)%Z.
Qed.

Lemma ticks_with_stale_stop w t n :
  intervals w !! t = Some (mkInterval true Bot.STOPPED) ->
  run w (repeat (Tick t) n) = setCountdown (countdownAfter n (countdown w)) w.
Proof.
  revert w. induction n as [|n IH]; intros w Ht; [done|].
  cbn [repeat]. rewrite run_cons, tick_with_stale_stop by done.
  rewrite IH by done. unfold countdownAfter. cbn [countdown setCountdown].
  by rewrite (Nat.iter_succ_r n).
Qed.

Lemma history_head w es : exists rest, history w es = w :: rest.
Proof. destruct es; by eexists. Qed.

Lemma stopTransitions_cons w1 w2 rest :
  stopTransitions (w1 :: w2 :: rest)
  = match runtimeState w1, runtimeState w2 with
    | Bot.RUNNING, Bot.STOPPED => 1
    | _, _ => 0
    end + stopTransitions (w2 :: rest).
Proof. done. Qed.

Lemma no_stop_while_ticking w t n :
  intervals w !! t = Some (mkInterval true Bot.STOPPED) ->
  runtimeState w = Bot.RUNNING ->
  stopTransitions (history w (repeat (Tick t) n)) = 0.
Proof.
  revert w. induction n as [|n IH]; intros w Ht Hr; [done|].
  cbn [repeat history].
  assert (stopTransitions (history (step w (Tick t)) (repeat (Tick t) n)) = 0) as E.
  { rewrite tick_with_stale_stop by done. by apply IH. }
  destruct (history_head (step w (Tick t)) (repeat (Tick t) n)) as [rest Hh].
  rewrite Hh in E |- *. rewrite stopTransitions_cons, E, Hr.
  rewrite tick_with_stale_stop by done. cbn. by rewrite Hr.
Qed.
End Countdown.

Section Captured.
Implicit Types (w : World).

Local Ltac captured_tac :=
  repeat match goal with
  | |- Forall _ (alter _ _ _) => apply Forall_alter; [|by intros ? ? ?]
  | |- Forall _ (_ ++ _) => apply Forall_app; split
  | |- Forall _ (<[_ := _]> _) => apply Forall_insert; [|done]
  | |- Forall _ [_] => apply Forall_singleton; try done
  | |- _ => assumption
  end.

Local Ltac unfold_all_handlers :=
  unfold handleStartConfiguration, handleSecretsSubmitted,
    restartBot, handleRebuild, handleReset, onClearLogs, countdownTick,
    stream_onmessage, stream_onerror, handleFileUpdate,
    stopBot_resume, startBot_resume, runDebugStep_resume, getBotMetadata_resume,
    extractRequiredSecrets_resume, generateStructure_resume,
    generateFileCode_resume, generateSetupFiles_resume, generateNext,
    generationFailed, debugFailed, startCodeGeneration,
    startBot, stopBot, afterStop, handleRebuild_rest, resetRuntime, resetBuild,
    closeRuntimeLogStream, clearCountdownInterval, runBuildStep, buildBot,
    ws_onopen, ws_onmessage, ws_onerror, ws_onclose, ws_ontimeout,
    onceCompleted, wsClose, cleanup, handleBuildError, runDebugStep.

Lemma resume_capturedStops w k o :
  capturedStopsSeeStopped w ->
  (forall sees, k = AwaitRunBot sees -> sees = Bot.STOPPED) ->
  capturedStopsSeeStopped (resume k o w).
Proof.
  intros (Hi & Hs & Hp) Hk. destruct k; cbn [resume].
  all: unfold_all_handlers.
  all: unfold capturedStopsSeeStopped; cbn.
  all: repeat (case_match; cbn).
  all: repeat split; captured_tac.
  all: try (cbn; by rewrite (Hk _ eq_refl)).
  all: by intros ? [= <-].
Qed.

Lemma capturedStops_frame w w' :
  intervals w' = intervals w -> streams w' = streams w -> pending w' = pending w ->
  capturedStopsSeeStopped w -> capturedStopsSeeStopped w'.
Proof. unfold capturedStopsSeeStopped. by intros -> -> ->. Qed.

Lemma handleBuildError_capturedStops w text :
  capturedStopsSeeStopped w -> capturedStopsSeeStopped (handleBuildError text w).
Proof.
  intros (Hi & Hs & Hp). unfold handleBuildError, runDebugStep, capturedStopsSeeStopped.
  cbn. case_match; cbn; repeat split; captured_tac.
Qed.

Lemma onceCompleted_capturedStops w i k :
  (forall v, capturedStopsSeeStopped v -> capturedStopsSeeStopped (k v)) ->
  capturedStopsSeeStopped w -> capturedStopsSeeStopped (onceCompleted i k w).
Proof.
  intros Hk Hw. unfold onceCompleted. repeat case_match; try done.
  all: apply Hk; by apply (capturedStops_frame w).
Qed.

Lemma wsClose_capturedStops w i code :
  capturedStopsSeeStopped w -> capturedStopsSeeStopped (wsClose i code w).
Proof.
  intros Hw. unfold wsClose. repeat case_match; by apply (capturedStops_frame w).
Qed.

Lemma cleanup_capturedStops w i :
  capturedStopsSeeStopped w -> capturedStopsSeeStopped (cleanup i w).
Proof. intros Hw. by apply (capturedStops_frame w). Qed.

Lemma socket_handlers_capturedStops w e j :
  eventConnection e = Some j ->
  capturedStopsSeeStopped w -> capturedStopsSeeStopped (handle e w).
Proof.
  intros He Hw. destruct e; try done; cbn [handle].
  - unfold ws_onopen. case_match; by apply (capturedStops_frame w).
  - unfold ws_onmessage. destruct data as [[l|]| |m| |raw]; cbn zeta.
    + case_match; by apply (capturedStops_frame w).
    + done.
    + apply wsClose_capturedStops, onceCompleted_capturedStops;
        [|by apply cleanup_capturedStops].
      intros v Hv. by apply (capturedStops_frame v).
    + apply wsClose_capturedStops, onceCompleted_capturedStops;
        [|by apply cleanup_capturedStops].
      intros v. apply handleBuildError_capturedStops.
    + done.
    + by apply (capturedStops_frame w).
  - cbn zeta. unfold ws_onclose, ws_onerror.
    assert (capturedStopsSeeStopped (alterConn conn (withReadyState CLOSED) w)) as H1
      by (by apply (capturedStops_frame w)).
    revert H1. generalize (alterConn conn (withReadyState CLOSED) w). intros v Hv.
    assert (capturedStopsSeeStopped
              (if failed
               then onceCompleted conn
                      (onError appCallbacks
                         (lit "WebSocket connection failed. Could not connect to the build server."))
                      (cleanup conn v)
               else v)) as H2.
    { destruct failed; [|done].
      apply onceCompleted_capturedStops; [|by apply cleanup_capturedStops].
      intros u. apply handleBuildError_capturedStops. }
    revert H2. match goal with |- capturedStopsSeeStopped ?x -> _ => generalize x end.
    intros u Hu. cbn zeta. case_match.
    + by apply cleanup_capturedStops.
    + apply onceCompleted_capturedStops; [|by apply cleanup_capturedStops].
      intros u'. apply handleBuildError_capturedStops.
  - unfold ws_ontimeout.
    assert (capturedStopsSeeStopped (alterConn conn (withTimeoutId false) w)) as H1
      by (by apply (capturedStops_frame w)).
    revert H1. generalize (alterConn conn (withTimeoutId false) w). intros v Hv.
    repeat case_match; try done.
    apply onceCompleted_capturedStops; [|by apply wsClose_capturedStops].
    intros u. apply handleBuildError_capturedStops.
Qed.
Lemma handle_capturedStops w e :
  capturedStopsSeeStopped w -> enabled e w = true ->
  capturedStopsSeeStopped (handle e w).
Proof.
  intros Hinv He.
  destruct (eventConnection e) as [j|] eqn:Hj;
    [by apply (socket_handlers_capturedStops w e j)|].
  destruct e; try discriminate Hj; cbn [handle].
  17:{ cbn in He. destruct (pending w !! p) as [[k|]|] eqn:Hp; try done.
       destruct Hinv as (Hi & Hs & Hpend).
       apply resume_capturedStops.
       - repeat split; try done. cbn. by apply Forall_insert.
       - intros sees ->. by eapply (Forall_lookup_1 _ _ _ _ Hpend Hp). }
  all: destruct Hinv as (Hi & Hs & Hp).
  all: cbn in He.
  all: unfold_all_handlers.
  all: unfold capturedStopsSeeStopped; cbn.
  all: repeat (case_match; cbn).
  all: repeat split; captured_tac.
  all: try by intros ? [= <-].
  all: try done.
Qed.

Lemma run_capturedStops w es :
  capturedStopsSeeStopped w -> capturedStopsSeeStopped (run w es).
Proof.
  revert w. induction es as [|e es IH]; intros w Hinv; [done|].
  rewrite run_cons. apply IH. unfold step.
  destruct (enabled e w) eqn:He; [by apply handle_capturedStops|done].
Qed.

(** In no world that the event loop can reach from the loaded page does a
    tick of a countdown timer stop the bot or ask the backend to stop
    it. *)
Lemma reachable_tick_never_stops es t :
  let w := run initial es in
  runtimeState (step w (Tick t)) = runtimeState w /\
  calls (step w (Tick t)) = calls w /\
  intervals (step w (Tick t)) = intervals w.
Proof.
  intros w.
  assert (capturedStopsSeeStopped w) as (Hi & _ & _).
  { apply run_capturedStops. by repeat split. }
  unfold step. destruct (enabled (Tick t) w) eqn:He; [|done].
  cbn in He |- *. unfold countdownTick.
  destruct (intervals w !! t) as [iv|] eqn:Ht; [|done].
  rewrite (Forall_lookup_1 _ _ _ _ Hi Ht). cbn.
  by destruct (countdown w <=? 1)%Z.
Qed.

End Captured.


(** C8.  Starting the bot from STOPPED, once the start request has
    returned, puts the runtime in RUNNING, sets the countdown to 600 and
    arms the one-second timer.  The [stopBot] that the timer callback calls
    is the one [startBot] closed over, created while [runtimeState] was
    STOPPED; it returns at its first line.  So 600 ticks take the countdown
    to 0 and change nothing else: the runtime is still RUNNING, no
    RUNNING-to-STOPPED transition has occurred, and the timer is still
    armed. *)
Theorem countdown_expiry_leaves_bot_running (w : World) :
  runtimeState w = Bot.STOPPED ->
  let p := length (pending w) in
  let t := length (intervals w) in
  let w1 := step (startBot (runtimeState w) w) (Settle p (Resolved VUnit)) in
  let ticks := repeat (Tick t) 600 in
  (runtimeState w1 = Bot.RUNNING /\
   countdown w1 = RUNTIME_DURATION_SECONDS /\
   countdownIntervalRef w1 = Some t /\
   intervals w1 !! t = Some (mkInterval true Bot.STOPPED)) /\
  (run w1 ticks = setCountdown 0%Z w1 /\
   runtimeState (run w1 ticks) = Bot.RUNNING /\
   stopTransitions (history w1 ticks) = 0 /\
   enabled (Tick t) (run w1 ticks) = true).
Proof.
  intros Hs p t w1 ticks.
  assert (w1 = startBot_resume Bot.STOPPED (Resolved VUnit)
                 (setPending (<[p := None]> (pending (startBot Bot.STOPPED w)))
                    (startBot Bot.STOPPED w))) as Ew1.
  { subst w1. rewrite Hs. unfold step. cbn. by rewrite list_lookup_middle. }
  assert (intervals w1 !! t = Some (mkInterval true Bot.STOPPED)) as Ht.
  { rewrite Ew1. cbn. by apply list_lookup_middle. }
  assert (runtimeState w1 = Bot.RUNNING) as Hr by (by rewrite Ew1).
  split; [repeat split; try done; by rewrite Ew1|].
  assert (run w1 ticks = setCountdown 0%Z w1) as Erun.
  { subst ticks. rewrite (ticks_with_stale_stop w1 t 600 Ht).
    replace (countdown w1) with 600%Z by (by rewrite Ew1). done. }
  split; [done|]. rewrite Erun. split; [done|].
  split; [by apply no_stop_while_ticking|].
  cbn. by rewrite Ht.
Qed.

(** The first runtime session of the example build. *)
Lemma countdown_expiry_witness :
  runtimeState builtAndStopped = Bot.STOPPED /\
  let w1 := step (startBot Bot.STOPPED builtAndStopped) (Settle 5 (Resolved VUnit)) in
  countdown w1 = 600%Z /\
  runtimeState (run w1 (repeat (Tick 0) 600)) = Bot.RUNNING /\
  stopTransitions (history w1 (repeat (Tick 0) 600)) = 0.
Proof.
  assert (runtimeState builtAndStopped = Bot.STOPPED) as Hs by (vm_compute; reflexivity).
  split; [exact Hs|].
  destruct (countdown_expiry_leaves_bot_running builtAndStopped Hs)
    as ((_ & H1 & _) & (_ & H2 & H3 & _)).
  split; [exact H1|]. split; [exact H2|exact H3].
Defined.

(* ------------------------------------------------------------------ *)
(** ** Reset *)
(* ------------------------------------------------------------------ *)

Section Reset.
Implicit Types (w : World).

Lemma isReset_after_resets w : isReset (resetRuntime (resetBuild w)).
Proof.
  unfold isReset, resetRuntime, resetBuild, closeRuntimeLogStream,
    clearCountdownInterval. cbn.
  repeat (case_match; cbn); done.
Qed.
End Reset.

(** A reset that gets to its end clears the session.  When the runtime
    is stopped, [handleReset] runs to its end at once; when it is running,
    [handleReset] first waits for the stop request, and finishes when that
    request returns, whatever happened in between.  Once it has finished,
    the session is IDLE, the file set, the build log and the runtime log
    are empty, the attempt counter is 0, the runtime is STOPPED and the
    countdown is back at 600. *)
Lemma reset_clears_session (w : World) (v : Value) :
  let finished :=
    match runtimeState w with
    | Bot.STOPPED => handleReset w
    | Bot.RUNNING => step (handleReset w) (Settle (length (pending w)) (Resolved v))
    end in
  isReset finished /\
  countdown finished = 600%Z /\
  (forall u p, pending u !! p = Some (Some (AwaitStopBot ThenReset)) ->
     isReset (step u (Settle p (Resolved v)))).
Proof.
  assert (forall u p, pending u !! p = Some (Some (AwaitStopBot ThenReset)) ->
     isReset (step u (Settle p (Resolved v)))) as Hlater.
  { intros u p Hp. unfold step. cbn -[resetRuntime resetBuild]. rewrite Hp.
    cbn -[resetRuntime resetBuild]. apply isReset_after_resets. }
  intros finished.
  assert (isReset finished) as Hr.
  { subst finished. unfold handleReset. destruct (runtimeState w) eqn:Hs.
    - apply isReset_after_resets.
    - apply Hlater. destruct (stopBot_running w ThenReset) as (-> & _).
      by apply list_lookup_middle. }
  split; [done|]. split; [|done]. by destruct Hr as (_ & _ & _ & _ & _ & _ & ->).
Qed.

(** Reset while the bot is running. *)
Example reset_while_running :
  pending (step botRunning ClickReset) !! 6 = Some (Some (AwaitStopBot ThenReset)) /\
  isReset (step (step botRunning ClickReset) (Settle 6 (Resolved VUnit))).
Proof.
  assert (pending (step botRunning ClickReset) !! 6
          = Some (Some (AwaitStopBot ThenReset))) as Hp by (vm_compute; reflexivity).
  split; [exact Hp|].
  exact (proj2 (proj2 (reset_clears_session initial VUnit)) _ _ Hp).
Qed.

(** C9.  Reset while the bot is running, when the stop request fails.
    [handleReset] is [await stopBot(); resetBuild(); resetRuntime();] and
    the [await backend.stopBot()] inside [stopBot] is not guarded, so when
    [fetch] rejects, [handleReset] ends at its first line.  Nothing of
    the reset is left pending and nothing is cleared: the build state,
    the files, the build log, the attempt counter and the countdown are
    what they were at the click, the runtime still counts as RUNNING, and
    the runtime log has gained the line "Stopping bot...".  The session
    is not reset. *)
Theorem failed_stop_request_loses_reset (w : World) (e_message : jsstring) :
  enabled ClickReset w = true -> runtimeState w = Bot.RUNNING ->
  let p := length (pending w) in
  let failure := backend.stopBot (backend.FetchFails e_message) in
  let w1 := step w ClickReset in
  let w2 := step w1 (Settle p failure) in
  failure = Rejected e_message /\
  pending w1 = pending w ++ [Some (AwaitStopBot ThenReset)] /\
  last (calls w1) = Some StopBot /\
  buildState w2 = buildState w /\
  generatedFiles w2 = generatedFiles w /\
  logs w2 = logs w /\
  buildLoopAttempt w2 = buildLoopAttempt w /\
  runtimeState w2 = Bot.RUNNING /\
  runtimeLogs w2 = runtimeLogs w ++ [mkLog (lit "Stopping bot...") LogType.log] /\
  countdown w2 = countdown w /\
  pending w2 = pending w ++ [None] /\
  ~ isReset w2.
Proof.
  intros He Hr p failure w1 w2.
  assert (w1 = stopBot Bot.RUNNING afterStop ThenReset w) as E1.
  { subst w1. unfold step. rewrite He. cbn [handle]. unfold handleReset. by rewrite Hr. }
  assert (pending w1 = pending w ++ [Some (AwaitStopBot ThenReset)]) as Hp1.
  { rewrite E1. apply stopBot_running. }
  assert (w2 = setPending (pending w ++ [None]) w1) as E2.
  { subst w2 p failure. unfold step. cbn [enabled handle backend.stopBot].
    rewrite Hp1, list_lookup_middle by done. cbn [resume stopBot_resume].
    by rewrite insert_app_r_alt, Nat.sub_diag by done. }
  split; [done|]. split; [done|]. rewrite E2, E1.
  unfold stopBot, closeRuntimeLogStream, clearCountdownInterval.
  split. { repeat case_match; cbn; by rewrite last_snoc. }
  assert (forall v, runtimeState v = Bot.RUNNING -> ~ isReset v) as Hno.
  { intros v Hv (_ & _ & _ & _ & _ & Hs & _). congruence. }
  repeat split; try apply Hno; repeat case_match; cbn; done.
Qed.

(** Reset is clicked while the bot of the example session runs, and the
    stop request fails: the five files and the thirteen lines of the build
    log are still there, the session is still in SUCCESS with the bot
    counted as running. *)
Lemma failed_stop_witness :
  let w := step (step botRunning ClickReset)
             (Settle 6 (backend.stopBot (backend.FetchFails (lit "Failed to fetch")))) in
  enabled ClickReset botRunning = true /\
  runtimeState botRunning = Bot.RUNNING /\
  buildState w = SUCCESS /\
  length (generatedFiles w) = 5 /\
  length (logs w) = 13 /\
  runtimeState w = Bot.RUNNING /\
  ~ isReset w.
Proof.
  intros w.
  assert (enabled ClickReset botRunning = true) as He by (vm_compute; reflexivity).
  assert (runtimeState botRunning = Bot.RUNNING) as Hr by (vm_compute; reflexivity).
  destruct (failed_stop_request_loses_reset botRunning (lit "Failed to fetch") He Hr)
    as (_ & _ & _ & H1 & H2 & H3 & _ & H4 & _ & _ & _ & H5).
  split; [exact He|]. split; [exact Hr|].
  change (step (step botRunning ClickReset)
            (Settle (length (pending botRunning))
               (backend.stopBot (backend.FetchFails (lit "Failed to fetch"))))) with w
    in H1, H2, H3, H4, H5.
  rewrite H1, H2, H3. repeat split; try done; vm_compute; reflexivity.
Defined.
(* ------------------------------------------------------------------ *)
(** ** Properties kept by every turn of the event loop *)
(* ------------------------------------------------------------------ *)

Section Reach.
Implicit Types (w v : World) (P : World -> Prop).

Lemma run_invariant P :
  (forall w e, P w -> enabled e w = true -> P (handle e w)) ->
  forall es w, P w -> P (run w es).
Proof.
  intros Hstep es. induction es as [|e es IH]; intros w Hw; [done|].
  rewrite run_cons. apply IH. unfold step.
  destruct (enabled e w) eqn:He; [by apply Hstep|done].
Qed.

(** The handlers of a build socket are made of five operations; a property
    that each of them keeps is kept by every socket event. *)
Section Socket.
Variable P : World -> Prop.
Hypothesis P_alterConn : forall v i f,
  (forall c, completed c = true -> completed (f c) = true) -> P v -> P (alterConn i f v).
Hypothesis P_call : forall v c, P v -> P (call c v).
Hypothesis P_addLog : forall v m t, P v -> P (addLog m t v).
Hypothesis P_handleBuildError : forall v text, P v -> P (handleBuildError text v).
Hypothesis P_onComplete : forall v, P v -> P (onComplete appCallbacks v).

Lemma cleanup_preserves w i : P w -> P (cleanup i w).
Proof using All. intros Hw. by apply P_call, P_alterConn. Qed.

Lemma wsClose_preserves w i code : P w -> P (wsClose i code w).
Proof using All.
  intros Hw. unfold wsClose. repeat case_match; try done.
  by apply P_call, P_alterConn.
Qed.

Lemma onceCompleted_preserves w i k :
  (forall v, P v -> P (k v)) -> P w -> P (onceCompleted i k w).
Proof using All.
  intros Hk Hw. unfold onceCompleted. repeat case_match; try done.
  by apply Hk, P_alterConn.
Qed.

Lemma socket_handlers_preserve w e j :
  eventConnection e = Some j -> P w -> P (handle e w).
Proof using All.
  intros He Hw. destruct e; try done; cbn [handle].
  - unfold ws_onopen.
    assert (P (alterConn conn (withReadyState OPEN) w)) by (by apply P_alterConn).
    case_match; [by apply P_call|done].
  - unfold ws_onmessage. destruct data as [[l|]| |m| |raw]; cbn zeta.
    + assert (P (onProgress appCallbacks l w)) by (by apply P_addLog).
      case_match; [by apply P_alterConn|done].
    + done.
    + apply wsClose_preserves, onceCompleted_preserves; [|by apply cleanup_preserves].
      intros v Hv. by apply P_onComplete, P_addLog.
    + apply wsClose_preserves, onceCompleted_preserves; [|by apply cleanup_preserves].
      intros v. apply P_handleBuildError.
    + done.
    + by apply P_addLog.
  - cbn zeta. unfold ws_onclose, ws_onerror.
    assert (P (alterConn conn (withReadyState CLOSED) w)) as H1 by (by apply P_alterConn).
    revert H1. generalize (alterConn conn (withReadyState CLOSED) w). intros v Hv.
    assert (P (if failed
               then onceCompleted conn
                      (onError appCallbacks
                         (lit "WebSocket connection failed. Could not connect to the build server."))
                      (cleanup conn v)
               else v)) as H2.
    { destruct failed; [|done].
      apply onceCompleted_preserves; [|by apply cleanup_preserves].
      intros u. apply P_handleBuildError. }
    revert H2. match goal with |- P ?x -> _ => generalize x end.
    intros u Hu. cbn zeta. case_match.
    + by apply cleanup_preserves.
    + apply onceCompleted_preserves; [|by apply cleanup_preserves].
      intros u'. apply P_handleBuildError.
  - unfold ws_ontimeout.
    assert (P (alterConn conn (withTimeoutId false) w)) as H1 by (by apply P_alterConn).
    revert H1. generalize (alterConn conn (withTimeoutId false) w). intros v Hv.
    repeat case_match; try done.
    apply onceCompleted_preserves; [|by apply wsClose_preserves].
    intros u. apply P_handleBuildError.
Qed.
End Socket.

Local Ltac unfold_app_handlers :=
  unfold handleStartConfiguration, handleSecretsSubmitted,
    restartBot, handleRebuild, handleReset, onClearLogs, countdownTick,
    stream_onmessage, stream_onerror, handleFileUpdate,
    stopBot_resume, startBot_resume, runDebugStep_resume, getBotMetadata_resume,
    extractRequiredSecrets_resume, generateStructure_resume,
    generateFileCode_resume, generateSetupFiles_resume, generateNext,
    generationFailed, debugFailed, startCodeGeneration,
    startBot, stopBot, afterStop, handleRebuild_rest, resetRuntime, resetBuild,
    closeRuntimeLogStream, clearCountdownInterval, runBuildStep, buildBot,
    handleBuildError, runDebugStep.

Lemma handle_countdownInRange w e :
  countdownInRange w -> countdownInRange (handle e w).
Proof.
  intros Hw.
  destruct (eventConnection e) as [j|] eqn:Hj.
  { apply (socket_handlers_preserve countdownInRange) with j; try done.
    intros v text Hv. unfold countdownInRange, handleBuildError, runDebugStep in *.
    by case_match. }
  unfold countdownInRange, RUNTIME_DURATION_SECONDS in *.
  destruct e; try discriminate Hj; cbn [handle].
  17:{ destruct (pending w !! p) as [[k|]|]; try done.
       destruct k; cbn [resume]; unfold_app_handlers; cbn.
       all: repeat (case_match; cbn); try done; try lia. }
  all: unfold_app_handlers; cbn.
  all: repeat (case_match; cbn); try done; try lia.
Qed.

Lemma handle_keeps_off_RUNNING w e :
  buildState w <> RUNNING -> buildState (handle e w) <> RUNNING.
Proof.
  intros Hw.
  destruct (eventConnection e) as [j|] eqn:Hj.
  { apply (socket_handlers_preserve (fun v => buildState v <> RUNNING)) with j; try done.
    intros v text Hv. unfold handleBuildError, runDebugStep. by case_match. }
  destruct e; try discriminate Hj; cbn [handle].
  17:{ destruct (pending w !! p) as [[k|]|]; try done.
       destruct k; cbn [resume]; unfold_app_handlers; cbn.
       all: repeat (case_match; cbn); try done. }
  all: unfold_app_handlers; cbn.
  all: repeat (case_match; cbn); try done; congruence.
Qed.

End Reach.
(* ------------------------------------------------------------------ *)
(** ** What holds in every world the event loop can reach *)
(* ------------------------------------------------------------------ *)

(** X1.  The countdown never leaves the range from 0 to 600: whatever
    events occur, in whatever order, a countdown that is in range stays in
    range.  [startBot] and [resetRuntime] set it to 600, the timer
    callback takes one off while it is above 1 and sets it to 0
    otherwise, and nothing else assigns it. *)
Theorem countdown_stays_in_range (w : World) (es : list Event) :
  countdownInRange w -> countdownInRange (run w es).
Proof.
  revert w. apply (run_invariant countdownInRange).
  intros w e Hw _. by apply handle_countdownInRange.
Qed.

(** From the loaded page through a successful build and 700 ticks of the
    countdown timer. *)
Lemma countdown_stays_in_range_witness :
  countdownInRange initial /\
  countdownInRange (run initial (generationEvents ++ successEvents ++ replicate 700 (Tick 0))).
Proof.
  assert (countdownInRange initial) as H.
  { unfold countdownInRange, initial; cbn; unfold RUNTIME_DURATION_SECONDS; lia. }
  split; [exact H|]. exact (countdown_stays_in_range initial _ H).
Defined.

(** X2.  The value ['RUNNING'] of [BuildState] is never assigned: a session
    whose build state is not RUNNING never gets there.  So the two tests
    of [App], [isBuilding] (a list of six states) and [isBuildInProgress]
    (not IDLE, SUCCESS or ERROR), always agree, and exactly one of the
    three panels (prompt form, progress tracker, bot runner) is
    rendered. *)
Theorem build_state_never_RUNNING (w : World) (es : list Event) :
  buildState w <> RUNNING ->
  let w' := run w es in
  buildState w' <> RUNNING /\
  isBuilding w' = isBuildInProgress w' /\
  (isIdle w' = true /\ isBuildInProgress w' = false /\ botRunnerShown w' = false \/
   isIdle w' = false /\ isBuildInProgress w' = true /\ botRunnerShown w' = false \/
   isIdle w' = false /\ isBuildInProgress w' = false /\ botRunnerShown w' = true).
Proof.
  intros Hw w'.
  assert (buildState w' <> RUNNING) as H.
  { subst w'. revert w Hw. apply (run_invariant (fun v => buildState v <> RUNNING)).
    intros v e Hv _. by apply handle_keeps_off_RUNNING. }
  split; [done|]. unfold isBuilding, isBuildInProgress, isIdle, botRunnerShown.
  destruct (buildState w'); try done; split; try done; tauto.
Qed.

Lemma build_state_never_RUNNING_witness :
  buildState initial <> RUNNING /\
  buildState buildFailed <> RUNNING /\
  isBuilding buildFailed = isBuildInProgress buildFailed.
Proof.
  assert (buildState initial <> RUNNING) as H by (cbn; discriminate).
  split; [exact H|].
  pose proof (build_state_never_RUNNING initial (generationEvents ++ threeFailuresEvents) H)
    as (H1 & H2 & _).
  split; [exact H1|exact H2].
Defined.
(* ------------------------------------------------------------------ *)
(** ** The runtime session: stop, start, restart, stream errors *)
(* ------------------------------------------------------------------ *)

Section Runtime.
Implicit Types (w : World).

Lemma settle_at_end w k o :
  step (await k w) (Settle (length (pending w)) o)
  = resume k o (setPending (pending w ++ [None]) (await k w)).
Proof.
  unfold step. cbn. rewrite list_lookup_middle by done. cbn.
  rewrite insert_app_r_alt by done. by rewrite Nat.sub_diag.
Qed.

(** [stopBot] in a render that sees RUNNING, as a world that awaits. *)
Lemma stopBot_awaits w k :
  exists u,
    stopBot Bot.RUNNING afterStop k w = await (AwaitStopBot k) u /\
    pending u = pending w /\ buildState u = buildState w /\
    runtimeState u = runtimeState w /\ countdown u = countdown w /\
    last (calls u) = Some StopBot /\
    startRequests u = startRequests w.
Proof.
  eexists. split; [reflexivity|].
  unfold closeRuntimeLogStream, clearCountdownInterval, startRequests. cbn.
  repeat (case_match; cbn); rewrite ?List.filter_app, ?length_app, ?last_snoc; cbn;
    repeat split; try done; lia.
Qed.


End Runtime.

(** X3.  Stopping the bot by hand while the build state is SUCCESS: the
    stop request is sent and, once it has returned, the runtime is
    STOPPED.  In that world the condition of the effect that starts the
    bot ([buildState === 'SUCCESS' && runtimeState !== 'RUNNING']) holds
    again; its [startBot] sets RUNNING, empties the runtime log (the line
    reporting the stop included) and sends a new start request. *)
Theorem manual_stop_rearms_auto_start (w : World) (v : Value) :
  buildState w = SUCCESS -> runtimeState w = Bot.RUNNING ->
  let w1 := step w ClickStop in
  let w2 := step w1 (Settle (length (pending w)) (Resolved v)) in
  let w3 := step w2 AutoStart in
  last (calls w1) = Some StopBot /\
  runtimeState w2 = Bot.STOPPED /\
  last (runtimeLogs w2) = Some (mkLog (lit "Bot stopped successfully.") LogType.log) /\
  enabled AutoStart w2 = true /\
  runtimeState w3 = Bot.RUNNING /\
  calls w3 = calls w2 ++ [RunBot] /\
  runtimeLogs w3 = [mkLog (lit "Starting bot session...") LogType.log].
Proof.
  intros Hb Hr w1 w2 w3.
  assert (w1 = stopBot Bot.RUNNING afterStop StopOnly w) as E1.
  { subst w1. unfold step. cbn. unfold botRunnerShown, isErrorState, isRunning.
    by rewrite Hb, Hr. }
  destruct (stopBot_awaits w StopOnly) as (u & Eu & Hp & Hbu & _ & _ & Hl & _).
  assert (w2 = resume (AwaitStopBot StopOnly) (Resolved v)
                 (setPending (pending u ++ [None]) (await (AwaitStopBot StopOnly) u))) as E2.
  { subst w2. rewrite E1, Eu, <- Hp. apply settle_at_end. }
  split. { rewrite E1, Eu. cbn. exact Hl. }
  assert (runtimeState w2 = Bot.STOPPED) as H2 by (by rewrite E2).
  assert (buildState w2 = SUCCESS) as H3 by (rewrite E2; cbn; congruence).
  split; [done|]. split. { rewrite E2. cbn. by rewrite last_snoc. }
  assert (enabled AutoStart w2 = true) as H4.
  { cbn. unfold isRunning. by rewrite H2, H3. }
  split; [done|].
  subst w3. unfold step. rewrite H4. cbn [handle]. by rewrite H2.
Qed.

Lemma manual_stop_witness :
  buildState botRunning = SUCCESS /\ runtimeState botRunning = Bot.RUNNING /\
  enabled AutoStart
    (step (step botRunning ClickStop) (Settle 6 (Resolved VUnit))) = true.
Proof.
  assert (buildState botRunning = SUCCESS) as Hb by (vm_compute; reflexivity).
  assert (runtimeState botRunning = Bot.RUNNING) as Hr by (vm_compute; reflexivity).
  split; [exact Hb|]. split; [exact Hr|].
  exact (proj1 (proj2 (proj2 (proj2 (manual_stop_rearms_auto_start botRunning VUnit Hb Hr))))).
Defined.

Lemma failed_start_round w e_message :
  buildState w = SUCCESS -> runtimeState w = Bot.STOPPED ->
  let p := length (pending w) in
  let w' := run w [AutoStart; Settle p (Rejected e_message)] in
  allEnabled w [AutoStart; Settle p (Rejected e_message)] = true /\
  startRequests w' = S (startRequests w) /\
  runtimeState w' = Bot.STOPPED /\ buildState w' = SUCCESS /\
  intervals w' = intervals w /\ streams w' = streams w /\
  countdown w' = countdown w /\
  length (pending w') = S p /\
  runtimeLogs w'
  = [mkLog (lit "Starting bot session...") LogType.log;
     mkLog (lit "Failed to start bot: " ++ e_message) LogType.error].
Proof.
  intros Hb Hr p w'.
  assert (enabled AutoStart w = true) as He.
  { cbn. unfold isRunning. by rewrite Hb, Hr. }
  assert (step w AutoStart = await (AwaitRunBot Bot.STOPPED)
            (call RunBot (addRuntimeLog (lit "Starting bot session...") LogType.log
               (setRuntimeLogs [] (setRuntimeState Bot.RUNNING w))))) as E1.
  { unfold step. rewrite He. cbn [handle]. by rewrite Hr. }
  subst w'. cbn [run fold_left allEnabled]. rewrite He, E1.
  match goal with |- context [step (await ?k ?u) _] =>
    change p with (length (pending u)); rewrite (settle_at_end u k) end.
  cbn [enabled]. cbn [pending await setPending]. rewrite list_lookup_middle by done.
  unfold startRequests. cbn. rewrite List.filter_app, !length_app. cbn.
  repeat split; try done; lia.
Qed.

(** X4.  A start request that fails leaves the runtime STOPPED with the
    failure in the runtime log, opens no log stream and arms no timer.
    While the build state is SUCCESS the effect that starts the bot then
    applies again, so the start is retried, without limit and without
    delay: after [n] rounds, [n] start requests have been made and the
    effect applies once more. *)
Theorem failed_start_is_retried (w : World) (e_message : jsstring) (n : nat) :
  buildState w = SUCCESS -> runtimeState w = Bot.STOPPED ->
  let es := failedStarts (length (pending w)) n e_message in
  let w' := run w es in
  allEnabled w es = true /\
  startRequests w' = startRequests w + n /\
  runtimeState w' = Bot.STOPPED /\
  intervals w' = intervals w /\ streams w' = streams w /\
  countdown w' = countdown w /\
  enabled AutoStart w' = true /\
  (0 < n ->
   runtimeLogs w'
   = [mkLog (lit "Starting bot session...") LogType.log;
      mkLog (lit "Failed to start bot: " ++ e_message) LogType.error]).
Proof.
  revert w. induction n as [|n IH]; intros w Hb Hr es w'.
  - subst es w'. cbn. unfold isRunning. rewrite Hb, Hr.
    repeat split; try done; lia.
  - destruct (failed_start_round w e_message Hb Hr)
      as (Ha & Hs & Hr1 & Hb1 & Hi & Hst & Hc & Hl & Hlog).
    set (w1 := run w [AutoStart; Settle (length (pending w)) (Rejected e_message)]) in *.
    specialize (IH w1 Hb1 Hr1). cbn zeta in IH. rewrite Hl in IH.
    destruct IH as (Ia & Is & Ir & Ii & Ist & Ic & Ie & Ilog).
    assert (w' = run w1 (failedStarts (S (length (pending w))) n e_message)) as Ew by done.
    assert (allEnabled w es = true) as Hall.
    { subst es. cbn [failedStarts allEnabled] in *.
      apply andb_true_iff in Ha as [Ha1 Ha2]. apply andb_true_iff in Ha2 as [Ha2 _].
      rewrite Ha1, Ha2. exact Ia. }
    rewrite Ew. repeat split; try done; try congruence; try lia.
    intros _. destruct n as [|n]; [exact Hlog|apply Ilog; lia].
Qed.

Lemma failed_start_witness :
  buildState builtAndStopped = SUCCESS /\
  runtimeState builtAndStopped = Bot.STOPPED /\
  startRequests (run builtAndStopped (failedStarts 5 3 (lit "Failed to start bot on server: busy")))
  = startRequests builtAndStopped + 3.
Proof.
  assert (buildState builtAndStopped = SUCCESS) as Hb by (vm_compute; reflexivity).
  assert (runtimeState builtAndStopped = Bot.STOPPED) as Hr by (vm_compute; reflexivity).
  split; [exact Hb|]. split; [exact Hr|].
  exact (proj1 (proj2 (failed_start_is_retried builtAndStopped
           (lit "Failed to start bot on server: busy") 3 Hb Hr))).
Defined.


(** X5.  Restart while the bot is running.  [restartBot] waits for the stop
    request and then sets a timer of one second for [startBot].  That
    [startBot] is the one of the render in which Restart was clicked, where
    [runtimeState] was RUNNING, so when the timer fires it returns at its
    first line: the timer callback changes nothing (beyond being done) and
    sends no start request.  The bot is started again only by the effect
    that starts it whenever the build state is SUCCESS and the runtime is
    not running. *)
Theorem restart_while_running_starts_nothing (w : World) (v : Value) (o : Outcome) :
  buildState w = SUCCESS -> runtimeState w = Bot.RUNNING ->
  let p := length (pending w) in
  let w1 := step w ClickRestart in
  let w2 := step w1 (Settle p (Resolved v)) in
  let w3 := step w2 (Settle (S p) o) in
  pending w2 !! S p = Some (Some (RestartDelay Bot.RUNNING)) /\
  last (calls w2) = Some SetTimeout1000 /\
  runtimeState w2 = Bot.STOPPED /\
  w3 = setPending (<[S p := None]> (pending w2)) w2 /\
  startRequests w3 = startRequests w /\
  enabled AutoStart w3 = true.
Proof.
  intros Hb Hr p w1 w2 w3.
  assert (w1 = stopBot Bot.RUNNING afterStop (ThenRestart Bot.RUNNING)
                 (addRuntimeLog (lit "Restarting bot...") LogType.log w)) as E1.
  { subst w1. unfold step. cbn. unfold botRunnerShown, isErrorState.
    rewrite Hb. cbn. unfold restartBot. by rewrite Hr. }
  destruct (stopBot_awaits (addRuntimeLog (lit "Restarting bot...") LogType.log w)
              (ThenRestart Bot.RUNNING)) as (u & Eu & Hp & Hbu & _ & _ & _ & Hs).
  cbn in Hp, Hbu.
  assert (w2 = resume (AwaitStopBot (ThenRestart Bot.RUNNING)) (Resolved v)
                 (setPending (pending u ++ [None])
                    (await (AwaitStopBot (ThenRestart Bot.RUNNING)) u))) as E2.
  { subst w2 p. rewrite E1, Eu, <- Hp. apply settle_at_end. }
  assert (pending w2 = pending w ++ [None; Some (RestartDelay Bot.RUNNING)]) as P2.
  { rewrite E2. cbn. rewrite Hp. by rewrite <- app_assoc. }
  assert (pending w2 !! S p = Some (Some (RestartDelay Bot.RUNNING))) as L2.
  { rewrite P2. subst p.
    change [None; Some (RestartDelay Bot.RUNNING)]
      with ([None] ++ [Some (RestartDelay Bot.RUNNING)]).
    rewrite app_assoc. apply list_lookup_middle. rewrite length_app. cbn. lia. }
  split; [done|]. split. { rewrite E2. cbn. by rewrite last_snoc. }
  assert (runtimeState w2 = Bot.STOPPED) as R2 by (by rewrite E2).
  split; [done|].
  assert (w3 = setPending (<[S p := None]> (pending w2)) w2) as E3.
  { subst w3. unfold step. cbn. by rewrite L2. }
  split; [done|]. split.
  - rewrite E3, E2. unfold startRequests in *. cbn.
    rewrite List.filter_app, length_app. cbn. unfold addRuntimeLog in Hs. cbn in Hs. lia.
  - rewrite E3. cbn. unfold isRunning. cbn. rewrite R2.
    rewrite E2. cbn. by rewrite Hbu, Hb.
Qed.

Lemma restart_while_running_witness :
  buildState botRunning = SUCCESS /\ runtimeState botRunning = Bot.RUNNING /\
  startRequests
    (step (step (step botRunning ClickRestart) (Settle 6 (Resolved VUnit)))
       (Settle 7 (Resolved VUnit)))
  = startRequests botRunning.
Proof.
  assert (buildState botRunning = SUCCESS) as Hb by (vm_compute; reflexivity).
  assert (runtimeState botRunning = Bot.RUNNING) as Hr by (vm_compute; reflexivity).
  split; [exact Hb|]. split; [exact Hr|].
  exact (proj1 (proj2 (proj2 (proj2 (proj2
    (restart_while_running_starts_nothing botRunning VUnit (Resolved VUnit) Hb Hr)))))).
Defined.

(** X6.  An error of the runtime log stream, in any world that the event
    loop can reach from the loaded page: the handler logs the
    disconnection and closes the stream, and its [stopBot] is the one
    [startBot] closed over, created while [runtimeState] was STOPPED,
    which returns at its first line.  So the runtime state, the countdown
    and its timer are as before, no stop request is sent, nothing is
    awaited, and the ref still holds the closed stream. *)
Theorem stream_error_leaves_bot_running (es : list Event) (s : nat) :
  let w := run initial es in
  let w' := step w (StreamError s) in
  enabled (StreamError s) w = true ->
  runtimeState w' = runtimeState w /\
  runtimeLogs w' = runtimeLogs w ++ [mkLog (lit "Log stream disconnected.") LogType.error] /\
  calls w' = calls w ++ [CloseStream s] /\
  intervals w' = intervals w /\
  countdown w' = countdown w /\
  pending w' = pending w /\
  runtimeLogStreamRef w' = runtimeLogStreamRef w /\
  enabled (StreamError s) w' = false.
Proof.
  intros w w' He.
  assert (capturedStopsSeeStopped w) as (_ & Hs & _).
  { apply run_capturedStops. by repeat split. }
  subst w'. unfold step. rewrite He. cbn in He |- *. unfold stream_onerror.
  destruct (streams w !! s) as [st|] eqn:Hst; [|done].
  rewrite (Forall_lookup_1 _ _ _ _ Hs Hst). cbn.
  rewrite list_lookup_alter_eq, Hst. by cbn.
Qed.

Lemma stream_error_witness :
  enabled (StreamError 0) (run initial (generationEvents ++ successEvents)) = true /\
  runtimeState (step (run initial (generationEvents ++ successEvents)) (StreamError 0))
  = runtimeState (run initial (generationEvents ++ successEvents)).
Proof.
  assert (enabled (StreamError 0) (run initial (generationEvents ++ successEvents)) = true)
    as He by (vm_compute; reflexivity).
  split; [exact He|].
  exact (proj1 (stream_error_leaves_bot_running (generationEvents ++ successEvents) 0 He)).
Defined.
(* ------------------------------------------------------------------ *)
(** ** The build connection: the error text, and one outcome only *)
(* ------------------------------------------------------------------ *)

Section Outcome.
Implicit Types (w v : World) (i : nat) (c : BuildConnection).

Lemma progress_lines w i fs tok acc t lines :
  connections w !! i = Some (mkConn OPEN fs tok acc false t) ->
  let w1 := run w (progressEvents i lines) in
  connections w1 !! i = Some (mkConn OPEN fs tok (accumulated acc lines) false t) /\
  logs w1 = logs w ++ List.map (fun l => mkLog l LogType.log) lines /\
  buildState w1 = buildState w /\
  buildLoopAttempt w1 = buildLoopAttempt w /\
  lastBuildError w1 = lastBuildError w /\
  pending w1 = pending w /\
  calls w1 = calls w.
Proof.
  revert w acc. induction lines as [|l lines IH]; intros w acc Hc w1.
  - subst w1. unfold accumulated. cbn. by rewrite !app_nil_r.
  - subst w1. unfold progressEvents, messageEvents. cbn [List.map]. rewrite run_cons.
    set (w0 := step w (WsMessage i (BUILD_LOG (Some l)))).
    assert (connections w0 !! i
            = Some (mkConn OPEN fs tok (accumulated acc [l]) false t) /\
            logs w0 = logs w ++ [mkLog l LogType.log] /\
            buildState w0 = buildState w /\
            buildLoopAttempt w0 = buildLoopAttempt w /\
            lastBuildError w0 = lastBuildError w /\
            pending w0 = pending w /\ calls w0 = calls w) as (H1 & H2 & H3 & H4 & H5 & H6 & H7).
    { subst w0. unfold step. cbn. rewrite Hc. cbn. unfold accumulated, mentionsError.
      cbn [List.filter].
      destruct (includes (toLowerCase l) (lit "error")); cbn.
      - rewrite list_lookup_alter_eq, Hc. cbn. by rewrite app_nil_r.
      - by rewrite app_nil_r. }
    destruct (IH w0 _ H1) as (I1 & I2 & I3 & I4 & I5 & I6 & I7).
    fold (messageEvents i (List.map (fun l => BUILD_LOG (Some l)) lines)).
    fold (progressEvents i lines).
    split.
    { rewrite I1. do 2 f_equal. unfold accumulated. cbn [List.filter].
      destruct (mentionsError l); cbn; by rewrite ?app_nil_r, <- ?app_assoc. }
    split. { rewrite I2, H2. by rewrite <- app_assoc. }
    repeat split; congruence.
Qed.

Lemma lastBuildError_handleBuildError w text :
  lastBuildError (handleBuildError text w) = text.
Proof. unfold handleBuildError, runDebugStep. by case_match. Qed.

Lemma logs_handleBuildError w text :
  mkLog text LogType.raw ∈ logs (handleBuildError text w).
Proof.
  unfold handleBuildError, runDebugStep.
  case_match; cbn; rewrite !elem_of_app, !list_elem_of_singleton; tauto.
Qed.

End Outcome.

(** X7.  The text of a build failure.  Every progress line received on an
    open connection is added to the build log; the lines that contain
    "error" in any letter case are also kept, each followed by a line
    feed, in arrival order.  When [BUILD_ERROR] arrives, the error text
    handed to [handleBuildError] (and kept as the last build error) is the
    message of [BUILD_ERROR] when it has a non-empty one, else the kept
    lines when there are any, else "Unknown build error.".  The connection
    is then decided, its watchdog is cleared and the client closes it with
    code 4001. *)
Theorem build_error_text (w : World) (i : nat) (fs : list GeneratedFile)
    (tok acc : jsstring) (t : bool) (lines : list jsstring) (m : option jsstring) :
  connections w !! i = Some (mkConn OPEN fs tok acc false t) ->
  let w1 := run w (progressEvents i lines) in
  let w2 := step w1 (WsMessage i (BUILD_ERROR m)) in
  let kept := accumulated acc lines in
  let text :=
    match m with
    | Some (c :: s) => c :: s
    | _ => if truthy kept then kept else lit "Unknown build error."
    end in
  logs w1 = logs w ++ List.map (fun l => mkLog l LogType.log) lines /\
  lastBuildError w2 = text /\
  mkLog text LogType.raw ∈ logs w2 /\
  buildLoopAttempt w2 = S (buildLoopAttempt w) /\
  connections w2 !! i = Some (mkConn CLOSING fs tok kept true false) /\
  last (calls w2) = Some (WsCloseCall i 4001).
Proof.
  intros Hc w1 w2 kept text.
  destruct (progress_lines w i fs tok acc t lines Hc) as (H1 & H2 & _ & H4 & _ & _ & _).
  fold w1 in H1, H2, H4. fold kept in H1.
  split; [done|].
  assert (w2 = wsClose i 4001
                 (handleBuildError text
                    (alterConn i (withCompleted true) (cleanup i w1)))) as E2.
  { subst w2. unfold step. cbn [enabled]. rewrite H1. cbn [from_option isOpen readyState].
    cbn [handle]. unfold ws_onmessage. cbn zeta.
    assert (connections (cleanup i w1) !! i = Some (mkConn OPEN fs tok kept false false)) as Hl.
    { cbn. by rewrite list_lookup_alter_eq, H1. }
    rewrite Hl. cbn [from_option accumulatedErrorLogs].
    change (onError appCallbacks) with handleBuildError.
    by rewrite (onceCompleted_undecided _ _ _ _ _ _ _ _ Hl). }
  assert (connections (handleBuildError text
                    (alterConn i (withCompleted true) (cleanup i w1))) !! i
          = Some (mkConn OPEN fs tok kept true false)) as Hl.
  { rewrite connections_handleBuildError. cbn.
    by rewrite !list_lookup_alter_eq, H1. }
  rewrite E2. unfold wsClose. rewrite Hl. cbn [live readyState].
  cbn -[handleBuildError].
  rewrite lastBuildError_handleBuildError.
  split; [done|]. split; [apply logs_handleBuildError|].
  split.
  { destruct (handleBuildError_spec (alterConn i (withCompleted true) (cleanup i w1)) text)
      as (Ha & _). cbn -[handleBuildError] in Ha. by rewrite Ha, H4. }
  split.
  { rewrite list_lookup_alter_eq.
    rewrite connections_handleBuildError in Hl |- *. by rewrite Hl. }
  by rewrite last_snoc.
Qed.

Lemma build_error_text_witness :
  let w := run initial (generationEvents ++ [WsOpen 0]) in
  connections w !! 0
  = Some (mkConn OPEN (currentBuildFiles w) (lit "123:abc") [] false true) /\
  lastBuildError
    (step (run w (progressEvents 0
                    [lit "Step 1/7 : FROM python:3.12-slim";
                     lit "ERROR: no matching distribution"; lit "pip failed with Error 1"]))
       (WsMessage 0 (BUILD_ERROR None)))
  = lit "ERROR: no matching distribution" ++ nl ++ lit "pip failed with Error 1" ++ nl.
Proof.
  intros w.
  assert (connections w !! 0
          = Some (mkConn OPEN (currentBuildFiles w) (lit "123:abc") [] false true)) as Hc
    by (vm_compute; reflexivity).
  split; [exact Hc|].
  exact (proj1 (proj2 (build_error_text w 0 _ _ [] true
           [lit "Step 1/7 : FROM python:3.12-slim";
            lit "ERROR: no matching distribution"; lit "pip failed with Error 1"]
           None Hc))).
Defined.

Section Decided.
Implicit Types (w v : World) (i : nat) (c : BuildConnection).

Lemma handle_decided w i e : decided i w -> decided i (handle e w).
Proof.
  intros Hw. destruct (eventConnection e) as [j|] eqn:Hj.
  - apply (socket_handlers_preserve (decided i)) with j; try done.
    + intros v i' f Hf (c & Hc & Hd). unfold decided. cbn.
      destruct (decide (i' = i)) as [->|Hne].
      * exists (f c). rewrite list_lookup_alter_eq, Hc. split; [done|by apply Hf].
      * exists c. by rewrite list_lookup_alter_ne.
    + intros v text (c & Hc & Hd). exists c. by rewrite connections_handleBuildError.
  - destruct Hw as (c & Hc & Hd). destruct (grows_handle_other w e Hj) as [more E].
    exists c. rewrite E. split; [by apply lookup_app_l_Some|done].
Qed.

Lemma onceCompleted_decided_id w i k : decided i w -> onceCompleted i k w = w.
Proof. intros (c & Hc & Hd). unfold onceCompleted. by rewrite Hc, Hd. Qed.

Lemma decided_alterConn w i f :
  (forall c, completed c = true -> completed (f c) = true) ->
  decided i w -> decided i (alterConn i f w).
Proof.
  intros Hf (c & Hc & Hd). exists (f c). cbn. rewrite list_lookup_alter_eq, Hc.
  split; [done|by apply Hf].
Qed.

Lemma decided_cleanup w i : decided i w -> decided i (cleanup i w).
Proof. intros Hw. by apply (decided_alterConn w i (withTimeoutId false)) in Hw. Qed.

Lemma decided_wsClose w i code : decided i w -> decided i (wsClose i code w).
Proof.
  intros Hw. unfold wsClose. repeat case_match; try done.
  by apply (decided_alterConn w i (withReadyState CLOSING)) in Hw.
Qed.

(** [outcomeFrame] is a preorder, and the steps that only touch a
    connection or the build log stay within it. *)
Lemma frame_refl w : outcomeFrame w w.
Proof. by repeat split. Qed.

Lemma frame_trans w1 w2 w3 : outcomeFrame w1 w2 -> outcomeFrame w2 w3 -> outcomeFrame w1 w3.
Proof.
  intros (?&?&?&?&?&?&?&?) (?&?&?&?&?&?&?&?). repeat split; congruence.
Qed.

Lemma frame_alterConn w i f : outcomeFrame w (alterConn i f w).
Proof. by repeat split. Qed.

Lemma frame_cleanup w i : outcomeFrame w (cleanup i w).
Proof.
  repeat split; try done.
  all: unfold debugInvocations, buildAttempts; cbn; rewrite List.filter_app; cbn.
  all: by rewrite app_nil_r.
Qed.

Lemma frame_wsClose w i code : outcomeFrame w (wsClose i code w).
Proof.
  unfold wsClose. repeat case_match; try apply frame_refl.
  repeat split; try done.
  all: unfold debugInvocations, buildAttempts; cbn; rewrite List.filter_app; cbn.
  all: by rewrite app_nil_r.
Qed.

Lemma frame_addLog w m t : outcomeFrame w (addLog m t w).
Proof. by repeat split. Qed.

(** An event of a decided connection leaves what the build/debug loop and
    the views go by, apart from the log, as it was. *)
Lemma decided_event_frame w i e :
  decided i w -> eventConnection e = Some i -> outcomeFrame w (handle e w).
Proof.
  intros Hw He. destruct e; try done; cbn in He; injection He as ->; cbn [handle].
  - unfold ws_onopen. case_match; [|apply frame_alterConn].
    eapply frame_trans; [apply (frame_alterConn w i (withReadyState OPEN))|].
    repeat split; try done.
    all: unfold debugInvocations, buildAttempts; cbn; rewrite List.filter_app; cbn.
    all: by rewrite app_nil_r.
  - unfold ws_onmessage. destruct data as [[l|]| |m| |raw]; cbn zeta;
      try apply frame_refl.
    + case_match; [|apply frame_addLog].
      eapply frame_trans; [apply (frame_addLog w l LogType.log)|apply frame_alterConn].
    + rewrite (onceCompleted_decided_id _ _ _ (decided_cleanup _ _ Hw)).
      eapply frame_trans; [apply frame_cleanup|apply frame_wsClose].
    + rewrite (onceCompleted_decided_id _ _ _ (decided_cleanup _ _ Hw)).
      eapply frame_trans; [apply frame_cleanup|apply frame_wsClose].
    + apply frame_addLog.
  - cbn zeta. unfold ws_onclose, ws_onerror.
    assert (decided i (alterConn i (withReadyState CLOSED) w)) as H1
      by (by apply decided_alterConn).
    pose proof (frame_alterConn w i (withReadyState CLOSED)) as F1.
    revert H1 F1. generalize (alterConn i (withReadyState CLOSED) w). intros v Hv Fv.
    assert (decided i (if failed
                       then onceCompleted i
                              (onError appCallbacks
                                 (lit "WebSocket connection failed. Could not connect to the build server."))
                              (cleanup i v)
                       else v) /\
            outcomeFrame w (if failed
                       then onceCompleted i
                              (onError appCallbacks
                                 (lit "WebSocket connection failed. Could not connect to the build server."))
                              (cleanup i v)
                       else v)) as (H2 & F2).
    { destruct failed; [|done].
      rewrite (onceCompleted_decided_id _ _ _ (decided_cleanup _ _ Hv)).
      split; [by apply decided_cleanup|].
      eapply frame_trans; [exact Fv|apply frame_cleanup]. }
    revert H2 F2.
    match goal with |- decided i ?x -> _ => generalize x end.
    intros u Hu Fu. cbn zeta.
    rewrite (onceCompleted_decided_id _ _ _ (decided_cleanup _ _ Hu)).
    case_match; eapply frame_trans; try exact Fu; apply frame_cleanup.
  - unfold ws_ontimeout.
    assert (decided i (alterConn i (withTimeoutId false) w)) as H1
      by (by apply decided_alterConn).
    pose proof (frame_alterConn w i (withTimeoutId false)) as F1.
    revert H1 F1. generalize (alterConn i (withTimeoutId false) w). intros v Hv Fv.
    repeat case_match; try done.
    rewrite (onceCompleted_decided_id _ _ _ (decided_wsClose _ _ 4008 Hv)).
    eapply frame_trans; [exact Fv|apply frame_wsClose].
Qed.

End Decided.

(** X8.  A build connection reports one outcome.  Once the [completed]
    flag of a connection is set (its [BUILD_DONE] or its failure has been
    passed on), the flag stays set whatever happens, and no later event of
    that connection (open, any message, error, close with any code, the
    watchdog) calls [onComplete] or [onError] again: the build state, the
    attempt counter, the last build error, the pending work and the number
    of build attempts and repair calls are what they were before the
    event.  Only progress lines still reach the build log. *)
Theorem outcome_reported_once (w : World) (i : nat) (es : list Event) (e : Event) :
  decided i w -> eventConnection e = Some i ->
  let v := run w es in
  let v' := step v e in
  decided i v /\ decided i v' /\
  buildState v' = buildState v /\
  buildLoopAttempt v' = buildLoopAttempt v /\
  lastBuildError v' = lastBuildError v /\
  hasUnrebuiltChanges v' = hasUnrebuiltChanges v /\
  generatedFiles v' = generatedFiles v /\
  pending v' = pending v /\
  debugInvocations v' = debugInvocations v /\
  buildAttempts v' = buildAttempts v.
Proof.
  intros Hw He v v'.
  assert (decided i v) as Hv.
  { apply (run_invariant (decided i)); [|done].
    intros u e' Hu _. by apply handle_decided. }
  split; [done|]. subst v'. unfold step. destruct (enabled e v); [|done].
  split; [by apply handle_decided|]. by apply (decided_event_frame v i e).
Qed.

(** The build has succeeded and the bot was started; then the socket
    closes with code 1006. *)
Lemma outcome_reported_once_witness :
  decided 0 builtAndStopped /\
  eventConnection (WsClosed 0 false 1006 []) = Some 0 /\
  buildState (step (run builtAndStopped [AutoStart]) (WsClosed 0 false 1006 []))
  = buildState (run builtAndStopped [AutoStart]).
Proof.
  assert (decided 0 builtAndStopped) as Hd.
  { eexists. split; [vm_compute; reflexivity|reflexivity]. }
  split; [exact Hd|]. split; [reflexivity|].
  exact (proj1 (proj2 (proj2 (outcome_reported_once builtAndStopped 0 [AutoStart]
                                (WsClosed 0 false 1006 []) Hd eq_refl)))).
Defined.
(* ------------------------------------------------------------------ *)
(** ** Code generation *)
(* ------------------------------------------------------------------ *)

Section Generation.
Implicit Types (w u : World).

Lemma step_settle u k o p :
  length (pending u) = p ->
  step (await k u) (Settle p o)
  = resume k o (setPending (pending u ++ [None]) (await k u)).
Proof. intros <-. apply settle_at_end. Qed.

Lemma enabled_settle u k o p :
  length (pending u) = p -> enabled (Settle p o) (await k u) = true.
Proof. intros <-. cbn. by rewrite list_lookup_middle. Qed.

Lemma allEnabled_cons w e es :
  allEnabled w (e :: es) = enabled e w && allEnabled (step w e) es.
Proof. done. Qed.

Lemma generation_loop secrets st setup rest : forall responses acc w p,
  length responses = length rest ->
  length (pending w) = p ->
  let es := fileSettles p responses
            ++ [Settle (p + length responses) (Resolved (VSetup setup))] in
  let w0 := generateNext secrets st rest acc w in
  let w' := run w0 es in
  let built := acc ++ List.map toFile responses ++ setupFilesData setup in
  allEnabled w0 es = true /\
  buildState w' = BUILDING /\
  currentBuildFiles w' = built /\
  generatedFiles w'
  = generatedFiles w ++ List.map toFile responses ++ setupFilesData setup /\
  calls w'
  = calls w ++ List.map (GenerateFileCode (prompt w)) rest
    ++ [GenerateSetupFiles (prompt w); NewWebSocket (length (connections w))] /\
  connections w' = connections w ++ [mkConn CONNECTING built (token w) [] false true] /\
  buildLoopAttempt w' = buildLoopAttempt w.
Proof.
  induction rest as [|file rest IH]; intros [|r rs] acc w p Hlen Hp; try done.
  - intros es w0 w' built. subst es w' w0. cbn [fileSettles app length generateNext].
    rewrite Nat.add_0_r, run_cons, allEnabled_cons.
    rewrite step_settle, enabled_settle by done.
    subst built. cbn. rewrite <- !app_assoc. by cbn.
  - intros es w0 w' built. injection Hlen as Hlen.
    subst es w' w0. cbn [fileSettles app length generateNext].
    rewrite run_cons, allEnabled_cons.
    rewrite step_settle, enabled_settle by done.
    cbn [resume generateFileCode_resume andb].
    match goal with |- context [generateNext _ _ _ _ ?u] => set (w2 := u) end.
    assert (length (pending w2) = S p) as Hp2.
    { subst w2. cbn. rewrite length_app. cbn. lia. }
    specialize (IH rs (acc ++ [toFile r]) w2 (S p) Hlen Hp2). cbn zeta in IH.
    replace (p + S (length rs)) with (S p + length rs) by lia.
    destruct IH as (I1 & I2 & I3 & I4 & I5 & I6 & I7).
    split; [exact I1|]. split; [exact I2|].
    subst built. cbn [List.map].
    split. { etrans; [exact I3|]. by rewrite <- !app_assoc. }
    split. { etrans; [exact I4|]. subst w2. cbn. by rewrite <- !app_assoc. }
    split. { etrans; [exact I5|]. subst w2. cbn. by rewrite <- !app_assoc. }
    split. { etrans; [exact I6|]. subst w2. cbn. by rewrite <- !app_assoc. }
    exact I7.
Qed.

Lemma generation_loop_breaks secrets st e_message : forall responses rest acc w p,
  length responses <= length rest ->
  length (pending w) = p ->
  let es := fileSettles p responses ++ [Settle (p + length responses) (Rejected e_message)] in
  let w0 := generateNext secrets st rest acc w in
  let w' := run w0 es in
  allEnabled w0 es = true /\
  buildState w' = ERROR /\
  generatedFiles w' = generatedFiles w ++ List.map toFile responses /\
  connections w' = connections w /\
  buildAttempts w' = buildAttempts w /\
  last (logs w')
  = Some (mkLog (lit "Failed during code generation: " ++ e_message) LogType.error) /\
  pending w' = pending w ++ replicate (S (length responses)) None.
Proof.
  induction responses as [|r rs IH]; intros rest acc w p Hlen Hp.
  - intros es w0 w'. subst es w' w0. cbn [fileSettles app length].
    rewrite Nat.add_0_r, run_cons, allEnabled_cons.
    destruct rest as [|file rest]; cbn [generateNext].
    all: rewrite step_settle, enabled_settle by done.
    all: unfold buildAttempts; cbn; rewrite ?List.filter_app, ?last_snoc, ?app_nil_r; cbn.
    all: by rewrite ?app_nil_r.
  - intros es w0 w'. destruct rest as [|file rest]; [cbn in Hlen; lia|].
    cbn in Hlen. apply le_S_n in Hlen.
    subst es w' w0. cbn [fileSettles app length generateNext].
    rewrite run_cons, allEnabled_cons.
    rewrite step_settle, enabled_settle by done.
    cbn [resume generateFileCode_resume andb].
    match goal with |- context [generateNext _ _ _ _ ?u] => set (w2 := u) end.
    assert (length (pending w2) = S p) as Hp2.
    { subst w2. cbn. rewrite length_app. cbn. lia. }
    specialize (IH rest (acc ++ [mkFile (file_name r) (fc_code r)]) w2 (S p) Hlen Hp2).
    cbn zeta in IH.
    replace (p + S (length rs)) with (S p + length rs) by lia.
    destruct IH as (I1 & I2 & I3 & I4 & I5 & I6 & I7).
    split; [exact I1|]. split; [exact I2|]. cbn [List.map].
    split. { etrans; [exact I3|]. subst w2. cbn. by rewrite <- !app_assoc. }
    split. { etrans; [exact I4|]. by subst w2. }
    split. { etrans; [exact I5|]. subst w2. unfold buildAttempts. cbn.
             rewrite List.filter_app. cbn. by rewrite app_nil_r. }
    split; [exact I6|].
    etrans; [exact I7|]. subst w2. cbn. by rewrite <- !app_assoc.
Qed.

End Generation.

(** X9.  Code generation when every request is answered.  For a plan of
    [n] files, [startCodeGeneration] asks for the plan, then for the code
    of each planned file in the order of the plan, then for the setup
    files, and then starts the first build attempt.  The build gets
    [n + 4] files: one per answer, named as the answer says (not as the
    plan says), followed by requirements.txt, Dockerfile,
    docker-compose.yml and README.md in this order; the same files are
    appended to the file list shown; the attempt counter is 0 and one
    connection is opened with these files and the token of the form. *)
Theorem generation_builds_all_files (w : World) (userSecrets : list (jsstring * jsstring))
    (structure : BotStructure) (responses : list FileCodeResponse)
    (setupFiles : SetupFilesResponse) :
  length responses = length (files structure) ->
  let w0 := startCodeGeneration userSecrets w in
  let es := generationSettles (length (pending w)) structure responses setupFiles in
  let w' := run w0 es in
  let built := List.map toFile responses ++ setupFilesData setupFiles in
  allEnabled w0 es = true /\
  buildState w' = BUILDING /\
  currentBuildFiles w' = built /\
  generatedFiles w' = generatedFiles w ++ built /\
  calls w'
  = calls w ++ [GenerateStructure (prompt w) (library w)]
    ++ List.map (GenerateFileCode (prompt w)) (files structure)
    ++ [GenerateSetupFiles (prompt w); NewWebSocket (length (connections w))] /\
  connections w' = connections w ++ [mkConn CONNECTING built (token w) [] false true] /\
  buildLoopAttempt w' = 0.
Proof.
  intros Hlen w0 es w' built. subst es w' w0. unfold generationSettles, startCodeGeneration.
  rewrite run_cons, allEnabled_cons.
  rewrite step_settle, enabled_settle by done.
  cbn [resume generateStructure_resume andb].
  match goal with |- context [generateNext _ _ _ _ ?u] => set (w2 := u) end.
  assert (length (pending w2) = S (length (pending w))) as Hp2.
  { subst w2. cbn. rewrite length_app. cbn. lia. }
  destruct (generation_loop userSecrets structure setupFiles (files structure)
              responses [] w2 (S (length (pending w))) Hlen Hp2)
    as (I1 & I2 & I3 & I4 & I5 & I6 & I7).
  split; [exact I1|]. split; [exact I2|]. split; [exact I3|].
  split. { etrans; [exact I4|]. by subst w2. }
  split. { etrans; [exact I5|]. subst w2. cbn. by rewrite <- !app_assoc. }
  split. { etrans; [exact I6|]. by subst w2. }
  etrans; [exact I7|]. by subst w2.
Qed.

Lemma generation_builds_all_files_witness :
  length [mkFileCode (lit "bot.py") (lit "print(1)")] = length (files demoStructure) /\
  List.map name
    (currentBuildFiles
       (run (startCodeGeneration [] initial)
          (generationSettles 0 demoStructure [mkFileCode (lit "bot.py") (lit "print(1)")]
             (mkSetup (lit "aiogram") (lit "FROM python:3.12-slim") (lit "version: '3.8'")
                (lit "# bot")))))
  = [lit "bot.py"; lit "requirements.txt"; lit "Dockerfile"; lit "docker-compose.yml";
     lit "README.md"].
Proof.
  split; [reflexivity|].
  exact (f_equal (List.map name)
           (proj1 (proj2 (proj2 (generation_builds_all_files initial [] demoStructure
              [mkFileCode (lit "bot.py") (lit "print(1)")]
              (mkSetup (lit "aiogram") (lit "FROM python:3.12-slim") (lit "version: '3.8'")
                 (lit "# bot")) eq_refl))))).
Defined.

(** X10.  Code generation when a request is rejected.  Whether the plan,
    the code of some file or the setup files cannot be obtained, the
    session goes to ERROR with "Failed during code generation: ..." as
    the last line of the build log.  No build connection is opened and no
    build attempt is made; the files whose code had arrived stay in the
    file list shown; nothing is left waiting. *)
Theorem generation_failure_opens_no_connection (w : World)
    (userSecrets : list (jsstring * jsstring)) (structure : BotStructure)
    (responses : list FileCodeResponse) (e_message : jsstring) :
  length responses <= length (files structure) ->
  let w0 := startCodeGeneration userSecrets w in
  let p := length (pending w) in
  let failedLog := mkLog (lit "Failed during code generation: " ++ e_message) LogType.error in
  let planFails := run w0 [Settle p (Rejected e_message)] in
  let es := generationBreaks p structure responses e_message in
  let w' := run w0 es in
  (buildState planFails = ERROR /\
   last (logs planFails) = Some failedLog /\
   generatedFiles planFails = generatedFiles w /\
   connections planFails = connections w /\
   pending planFails = pending w ++ [None]) /\
  allEnabled w0 es = true /\
  buildState w' = ERROR /\
  last (logs w') = Some failedLog /\
  generatedFiles w' = generatedFiles w ++ List.map toFile responses /\
  connections w' = connections w /\
  buildAttempts w' = buildAttempts w /\
  pending w' = pending w ++ replicate (2 + length responses) None.
Proof.
  intros Hlen w0 p failedLog planFails es w'.
  split.
  { subst planFails w0 p. unfold startCodeGeneration.
    rewrite run_cons. rewrite step_settle by done. cbn. by rewrite last_snoc. }
  subst es w' w0 p. unfold generationBreaks, startCodeGeneration.
  rewrite run_cons, allEnabled_cons.
  rewrite step_settle, enabled_settle by done.
  cbn [resume generateStructure_resume andb].
  match goal with |- context [generateNext _ _ _ _ ?u] => set (w2 := u) end.
  assert (length (pending w2) = S (length (pending w))) as Hp2.
  { subst w2. cbn. rewrite length_app. cbn. lia. }
  destruct (generation_loop_breaks userSecrets structure e_message responses
              (files structure) [] w2 (S (length (pending w))) Hlen Hp2)
    as (I1 & I2 & I3 & I4 & I5 & I6 & I7).
  split; [exact I1|]. split; [exact I2|]. split; [exact I6|].
  split. { etrans; [exact I3|]. by subst w2. }
  split. { etrans; [exact I4|]. by subst w2. }
  split. { etrans; [exact I5|]. subst w2. unfold buildAttempts. cbn.
           rewrite List.filter_app. cbn. by rewrite app_nil_r. }
  etrans; [exact I7|]. subst w2. cbn. by rewrite <- !app_assoc.
Qed.

Lemma generation_failure_witness :
  length ([] : list FileCodeResponse) <= length (files demoStructure) /\
  buildState
    (run (startCodeGeneration [] initial)
       (generationBreaks 0 demoStructure [] (lit "quota exceeded"))) = ERROR.
Proof.
  assert (length ([] : list FileCodeResponse) <= length (files demoStructure)) as H
    by (cbn; lia).
  split; [exact H|].
  exact (proj1 (proj2 (proj2 (generation_failure_opens_no_connection initial []
           demoStructure [] (lit "quota exceeded") H)))).
Defined.
(* ------------------------------------------------------------------ *)
(** ** Validation of the token and the request for secrets *)
(* ------------------------------------------------------------------ *)

Section Validation.
Implicit Types (w u : World).

Lemma handleStartConfiguration_spec w :
  enabled ClickBuild w = true ->
  exists u,
    step w ClickBuild = await AwaitGetBotMetadata u /\
    pending u = pending w /\
    last (calls u) = Some (GetBotMetadata (token w)) /\
    buildState u = VALIDATING /\
    logs u = [mkLog (lit "Starting build process...") LogType.log;
              mkLog (lit "Validating Telegram token...") LogType.log] /\
    prompt u = prompt w /\ token u = token w /\ library u = library w /\
    connections u = connections w /\
    tokenError u = None /\ requiredSecrets u = [] /\
    (Forall (fun iv => active iv = false) (intervals w) ->
     Forall (fun iv => active iv = false) (intervals u)) /\
    (Forall (fun st => stream_open st = false) (streams w) ->
     Forall (fun st => stream_open st = false) (streams u)).
Proof.
  intros He. unfold step. rewrite He. cbn in He.
  apply andb_true_iff in He as [_ He]. apply negb_true_iff in He.
  apply orb_false_iff in He as [He Ht]. apply orb_false_iff in He as [_ Hp].
  cbn [handle]. unfold handleStartConfiguration. rewrite Hp, Ht. cbn [orb].
  eexists. split; [reflexivity|].
  unfold resetRuntime, resetBuild, closeRuntimeLogStream, clearCountdownInterval. cbn.
  repeat (case_match; cbn); rewrite ?last_snoc; repeat split; try done.
  all: intros HF; try (apply Forall_alter; [done|by intros ? ? ?]); done.
Qed.

End Validation.

(** X11.  A token that Telegram does not accept.  When the answer to
    [getMe] has an HTTP error status, or says [ok: false], the promise of
    [getBotMetadata] is rejected with the [description] of the answer,
    or, when there is none, with "Request failed with status N".  [App]
    then shows the form again (build state IDLE) with that text as the
    token error, the build log holding the failure; prompt, token and
    library are as typed, no further request is made, and the form can be
    submitted again. *)
Theorem rejected_token_returns_to_form (w : World) (ok : bool) (status : nat)
    (data : backend.GetMe) (typeError : jsstring) :
  enabled ClickBuild w = true ->
  ok = false \/ backend.data_ok data = false ->
  let w1 := step w ClickBuild in
  let answer := backend.Response ok status (backend.BodyValue data) in
  let w2 := step w1 (Settle (length (pending w)) (backend.getBotMetadata typeError answer)) in
  let errorMessage :=
    if truthy (backend.data_description data) then backend.data_description data
    else lit "Request failed with status " ++ showNat status in
  buildState w1 = VALIDATING /\
  last (calls w1) = Some (GetBotMetadata (token w)) /\
  buildState w2 = IDLE /\
  tokenError w2 = Some errorMessage /\
  logs w2 = [mkLog (lit "Starting build process...") LogType.log;
             mkLog (lit "Validating Telegram token...") LogType.log;
             mkLog (lit "Token validation failed: " ++ errorMessage) LogType.error] /\
  prompt w2 = prompt w /\ token w2 = token w /\ library w2 = library w /\
  calls w2 = calls w1 /\
  enabled ClickBuild w2 = true.
Proof.
  intros He Hbad w1 answer w2 errorMessage.
  destruct (handleStartConfiguration_spec w He)
    as (u & E1 & Hp & Hc & Hb & Hl & Hpr & Htk & Hlib & _).
  assert (backend.getBotMetadata typeError answer = Rejected errorMessage) as Eo.
  { subst answer. cbn. by destruct Hbad as [-> | ->]; rewrite ?orb_true_r. }
  assert (truthy errorMessage = true) as Htr.
  { subst errorMessage. destruct (truthy (backend.data_description data)) eqn:Hd; [done|].
    by unfold lit. }
  subst w2. rewrite Eo. fold w1 in E1. rewrite E1 in *. clear E1.
  rewrite step_settle by (by rewrite Hp). cbn [resume getBotMetadata_resume]. rewrite Htr.
  cbn. rewrite Hl, Hpr, Htk, Hlib.
  cbn in He. apply andb_true_iff in He as [_ He]. apply negb_true_iff in He.
  apply orb_false_iff in He as [He Ht]. apply orb_false_iff in He as [_ Hpp].
  unfold isIdle, isBuilding. cbn. by rewrite Hpp, Ht.
Qed.

Lemma rejected_token_witness :
  let w := run initial [SetPrompt (lit "echo bot"); SetToken (lit "123:abc")] in
  enabled ClickBuild w = true /\
  (true = false \/
   backend.data_ok (backend.mkGetMe false (lit "Unauthorized") None) = false) /\
  tokenError
    (step (step w ClickBuild)
       (Settle 0 (backend.getBotMetadata []
                    (backend.Response true 401
                       (backend.BodyValue (backend.mkGetMe false (lit "Unauthorized") None))))))
  = Some (lit "Unauthorized").
Proof.
  intros w.
  assert (enabled ClickBuild w = true) as He by (vm_compute; reflexivity).
  split; [exact He|]. split; [right; reflexivity|].
  exact (proj1 (proj2 (proj2 (proj2
    (rejected_token_returns_to_form w true 401
       (backend.mkGetMe false (lit "Unauthorized") None) [] He (or_intror eq_refl)))))).
Defined.

Section DeadEnd.
Implicit Types (w u : World).

Lemma submit_secrets_disabled u formState : enabled (SubmitSecrets formState) u = false.
Proof. cbn. unfold isBuilding. by destruct (buildState u). Qed.

Lemma quiet_disabled u e :
  quiet u -> buildState u = GATHERING_CONFIG -> enabled e u = false.
Proof.
  intros (Hc & Hi & Hs & Hp) Hb.
  destruct e; cbn; unfold isIdle, isBuilding, botRunnerShown, isErrorState; rewrite ?Hb;
    try done.
  - destruct (connections u !! conn) as [c|] eqn:E; [|done]. cbn.
    pose proof (Forall_lookup_1 _ _ _ _ Hc E) as Hd. unfold dead in Hd.
    apply andb_true_iff in Hd as [Hd _]. unfold isClosed, isConnecting in *.
    by destruct (readyState c).
  - destruct (connections u !! conn) as [c|] eqn:E; [|done]. cbn.
    pose proof (Forall_lookup_1 _ _ _ _ Hc E) as Hd. unfold dead in Hd.
    apply andb_true_iff in Hd as [Hd _]. unfold isClosed, isOpen in *.
    by destruct (readyState c).
  - destruct (connections u !! conn) as [c|] eqn:E; [|done]. cbn.
    pose proof (Forall_lookup_1 _ _ _ _ Hc E) as Hd. unfold dead in Hd.
    apply andb_true_iff in Hd as [Hd _]. by rewrite Hd.
  - destruct (connections u !! conn) as [c|] eqn:E; [|done]. cbn.
    pose proof (Forall_lookup_1 _ _ _ _ Hc E) as Hd. unfold dead in Hd.
    apply andb_true_iff in Hd as [_ Hd]. by apply negb_true_iff in Hd.
  - destruct (intervals u !! timer) as [iv|] eqn:E; [|done]. cbn.
    exact (Forall_lookup_1 _ _ _ _ Hi E).
  - destruct (streams u !! stream) as [st|] eqn:E; [|done]. cbn.
    exact (Forall_lookup_1 _ _ _ _ Hs E).
  - destruct (streams u !! stream) as [st|] eqn:E; [|done]. cbn.
    exact (Forall_lookup_1 _ _ _ _ Hs E).
  - destruct (pending u !! p) as [k|] eqn:E; [|done].
    by rewrite (Forall_lookup_1 _ _ _ _ Hp E).
Qed.

Lemma run_nothing_enabled u es :
  (forall e, enabled e u = false) -> run u es = u.
Proof.
  intros H. induction es as [|e es IH]; [done|].
  rewrite run_cons. unfold step. by rewrite H.
Qed.

End DeadEnd.

(** X12.  A prompt that needs secrets ends the session in a dead end.
    The configuration form is rendered while the build state is
    GATHERING_CONFIG and is handed [isBuilding], which is true in that
    state; its fields and its button are [disabled={isBuilding ...}], so
    the secrets can never be submitted, in any world.  When the form was
    reached on a page on which nothing else is going on, no event at all
    can happen any more: whatever is tried, the session stays in
    GATHERING_CONFIG with the requested secrets, and code generation is
    never asked for. *)
Theorem required_secrets_block_the_session (w : World) (meta : BotMetadata)
    (s : RequiredSecret) (ss : list RequiredSecret) :
  enabled ClickBuild w = true ->
  quiet w ->
  let es := secretsRequested (length (pending w)) meta (s :: ss) in
  let w' := run w es in
  allEnabled w es = true /\
  buildState w' = GATHERING_CONFIG /\
  requiredSecrets w' = s :: ss /\
  (forall u formState, enabled (SubmitSecrets formState) u = false) /\
  (forall e, enabled e w' = false) /\
  (forall more, run w' more = w').
Proof.
  intros He (Qc & Qi & Qs & Qp) es w'.
  destruct (handleStartConfiguration_spec w He)
    as (u & E1 & Hp & _ & _ & _ & _ & _ & _ & Hco & _ & _ & Hi & Hs).
  subst es w'. unfold secretsRequested.
  rewrite !run_cons, !allEnabled_cons, He, E1.
  rewrite step_settle, enabled_settle by (by rewrite Hp).
  cbn [resume getBotMetadata_resume andb].
  match goal with |- context [step (await ?k ?v) _] => set (u1 := v) end.
  assert (length (pending u1) = S (length (pending w))) as Hp1.
  { subst u1. cbn. rewrite length_app, Hp. cbn. lia. }
  rewrite step_settle, enabled_settle by done.
  cbn [resume extractRequiredSecrets_resume andb run fold_left allEnabled].
  match goal with |- context [buildState ?v] => set (u2 := v) end.
  assert (buildState u2 = GATHERING_CONFIG) as Hb2 by done.
  assert (quiet u2) as Hq.
  { subst u2 u1. unfold quiet. cbn. rewrite Hco, Hp.
    repeat split; auto.
    rewrite <- app_assoc. apply Forall_app. split; [done|]. by repeat constructor. }
  split; [done|]. split; [done|]. split; [done|].
  split; [apply submit_secrets_disabled|].
  assert (forall e, enabled e u2 = false) as Hn by (intros e; by apply quiet_disabled).
  split; [done|]. intros more. by apply run_nothing_enabled.
Qed.

Lemma required_secrets_witness :
  let w := run initial [SetPrompt (lit "weather bot"); SetToken (lit "123:abc")] in
  let secret := mkSecret (lit "OPENWEATHER_API_KEY") (lit "Your API key") in
  enabled ClickBuild w = true /\ quiet w /\
  buildState
    (run (run w (secretsRequested 0 (mkMeta (lit "weather_bot") 7) [secret]))
       [SubmitSecrets [(lit "OPENWEATHER_API_KEY", lit "k")]; ClickReset])
  = GATHERING_CONFIG.
Proof.
  intros w secret.
  assert (enabled ClickBuild w = true) as He by (vm_compute; reflexivity).
  assert (quiet w) as Hq by (by repeat split).
  split; [exact He|]. split; [exact Hq|].
  pose proof (required_secrets_block_the_session w (mkMeta (lit "weather_bot") 7)
                secret [] He Hq) as (_ & Hb & _ & _ & _ & Hrun).
  exact (eq_trans (f_equal buildState (Hrun _)) Hb).
Defined.

(** X13.  What the answer to the stop request does.  [backend.stopBot]
    resolves for every response whose body can be read, also one with an
    error status (it only warns on the console), where [backend.runBot]
    rejects.  So after a click on Stop the runtime is marked STOPPED and
    "Bot stopped successfully." is logged whatever the status of the
    answer.  When the request itself fails, [stopBot] ends there: the
    runtime still counts as RUNNING and Stop can be clicked again, but the
    log stream is closed, its ref is empty and the countdown timer of the
    ref no longer fires. *)
Theorem stop_request_outcomes (w : World) (ok : bool) (status : nat)
    (text e_message : jsstring) :
  buildState w = SUCCESS -> runtimeState w = Bot.RUNNING ->
  let p := length (pending w) in
  let w1 := step w ClickStop in
  let answered :=
    step w1 (Settle p (backend.stopBot (backend.Response ok status (backend.BodyValue text)))) in
  let failed := step w1 (Settle p (backend.stopBot (backend.FetchFails e_message))) in
  backend.stopBot (backend.Response ok status (backend.BodyValue text)) = Resolved VUnit /\
  backend.runBot (backend.Response false status (backend.BodyValue text))
  = Rejected (lit "Failed to start bot on server: " ++ text) /\
  runtimeState answered = Bot.STOPPED /\
  last (runtimeLogs answered)
  = Some (mkLog (lit "Bot stopped successfully.") LogType.log) /\
  runtimeState failed = Bot.RUNNING /\
  last (runtimeLogs failed) = Some (mkLog (lit "Stopping bot...") LogType.log) /\
  runtimeLogStreamRef failed = None /\
  enabled ClickStop failed = true /\
  (forall t, countdownIntervalRef w = Some t -> enabled (Tick t) failed = false).
Proof.
  intros Hb Hr p w1 answered failed.
  assert (backend.stopBot (backend.Response ok status (backend.BodyValue text))
          = Resolved VUnit) as Ea by (by destruct ok).
  split; [done|]. split; [done|].
  assert (w1 = stopBot Bot.RUNNING afterStop StopOnly w) as E1.
  { subst w1. unfold step. cbn. unfold botRunnerShown, isErrorState, isRunning.
    by rewrite Hb, Hr. }
  subst answered failed. rewrite Ea, E1. unfold stopBot.
  rewrite !step_settle.
  2,3: unfold closeRuntimeLogStream, clearCountdownInterval; cbn; by repeat case_match.
  cbn [resume stopBot_resume backend.stopBot].
  unfold closeRuntimeLogStream, clearCountdownInterval.
  cbn. rewrite !last_snoc.
  unfold botRunnerShown, isErrorState, isRunning. cbn.
  repeat (case_match; cbn); rewrite ?last_snoc, ?Hb, ?Hr; repeat split; try done.
  all: intros t Ht; cbn in *; simplify_eq; rewrite ?list_lookup_alter_eq.
  all: by destruct (intervals w !! _).
Qed.

Lemma stop_request_outcomes_witness :
  buildState botRunning = SUCCESS /\ runtimeState botRunning = Bot.RUNNING /\
  runtimeState
    (step (step botRunning ClickStop)
       (Settle 6 (backend.stopBot
                    (backend.Response false 500 (backend.BodyValue (lit "no such container"))))))
  = Bot.STOPPED.
Proof.
  assert (buildState botRunning = SUCCESS) as Hb by (vm_compute; reflexivity).
  assert (runtimeState botRunning = Bot.RUNNING) as Hr by (vm_compute; reflexivity).
  split; [exact Hb|]. split; [exact Hr|].
  exact (proj1 (proj2 (proj2
    (stop_request_outcomes botRunning false 500 (lit "no such container") [] Hb Hr)))).
Defined.
(* ------------------------------------------------------------------ *)
(** ** Saving an edit *)
(* ------------------------------------------------------------------ *)

Section Edit.
Implicit Types (fs : list GeneratedFile).

Lemma edit_names fileName newCode fs :
  List.map name
    (List.map (fun f => if streq (name f) fileName then mkFile (name f) newCode else f) fs)
  = List.map name fs.
Proof.
  induction fs as [|f fs IH]; [done|]. cbn. rewrite IH. by destruct (streq (name f) fileName).
Qed.

Lemma edit_find fileName newCode fs f :
  findFile fileName fs = Some f ->
  findFile fileName
    (List.map (fun f => if streq (name f) fileName then mkFile (name f) newCode else f) fs)
  = Some (mkFile fileName newCode).
Proof.
  unfold findFile. induction fs as [|g fs IH]; [done|]. cbn.
  destruct (streq (name g) fileName) eqn:E; cbn; rewrite E; [|done].
  intros _. apply streq_true in E. by rewrite E.
Qed.

Lemma edit_absent fileName newCode fs :
  findFile fileName fs = None ->
  List.map (fun f => if streq (name f) fileName then mkFile (name f) newCode else f) fs = fs.
Proof.
  unfold findFile. induction fs as [|g fs IH]; [done|]. cbn.
  destruct (streq (name g) fileName) eqn:E; [done|]. intros H. by rewrite IH.
Qed.

End Edit.

(** X14.  Saving an edit.  [handleFileUpdate] keeps the number, the order
    and the names of the files; every file with the given name gets the
    new code (every one, where a repair replaces the first only) and the
    other files are untouched.  Looking the file up by its name, as the
    views do, then gives the new code.  A name that no file has changes no
    file.  In every case the flag for unrebuilt changes is set, and the
    files of the last build attempt are not touched; saving the same edit
    once more changes no file. *)
Theorem saved_edit_replaces_by_name (w : World) (fileName newCode : jsstring) :
  let w' := handleFileUpdate fileName newCode w in
  List.map name (generatedFiles w') = List.map name (generatedFiles w) /\
  (forall i f, generatedFiles w !! i = Some f ->
     generatedFiles w' !! i
     = Some (if streq (name f) fileName then mkFile fileName newCode else f)) /\
  (forall f, findFile fileName (generatedFiles w) = Some f ->
     findFile fileName (generatedFiles w') = Some (mkFile fileName newCode)) /\
  (findFile fileName (generatedFiles w) = None -> generatedFiles w' = generatedFiles w) /\
  hasUnrebuiltChanges w' = true /\
  currentBuildFiles w' = currentBuildFiles w /\
  generatedFiles (handleFileUpdate fileName newCode w') = generatedFiles w'.
Proof.
  intros w'. subst w'. unfold handleFileUpdate. cbn.
  split; [apply edit_names|]. split.
  { intros i f Hf. rewrite list_lookup_fmap. change (list_fmap _ _ ?g ?l) with (g <$> l).
    rewrite Hf. cbn. destruct (streq (name f) fileName) eqn:E; [|done].
    apply streq_true in E. by rewrite E. }
  split; [intros f; apply edit_find|]. split; [apply edit_absent|].
  split; [done|]. split; [done|].
  rewrite List.map_map. apply List.map_ext. intros f.
  destruct (streq (name f) fileName) eqn:E; cbn; by rewrite E.
Qed.

(* ------------------------------------------------------------------ *)
(** ** The manifest written by the repair step, read back *)
(* ------------------------------------------------------------------ *)

Section Manifest.
Implicit Types (code x : jsstring) (reqs xs : list jsstring).

Lemma manifestLines_clean code x : x ∈ manifestLines code -> isRequirementLine x.
Proof.
  intros (Hne & l & Hl & <-)%elem_of_manifestLines.
  split; [done|]. split; [apply trim_idemp|].
  intros H%trim_elem.
  pose proof (split_no_sep 10 code) as Hs.
  by apply (Forall_forall (fun x => 10%N ∉ x) (split 10 code)) in Hl.
Qed.

Lemma unionRequirements_clean code reqs :
  Forall isRequirementLine reqs -> Forall isRequirementLine (unionRequirements code reqs).
Proof.
  intros Hr. apply Forall_forall. intros x [Hx|Hx]%elem_of_unionRequirements.
  - by apply (manifestLines_clean code).
  - by apply (Forall_forall isRequirementLine reqs) in Hx.
Qed.

Lemma manifestLines_join xs :
  Forall isRequirementLine xs -> manifestLines (join nl xs) = xs.
Proof.
  intros Hx. unfold manifestLines. destruct (decide (xs = [])) as [->|Hne]; [done|].
  rewrite split_join; [|by eapply Forall_impl; [exact Hx|intros ? (_ & _ & ?)]|done].
  clear Hne. induction Hx as [|x xs (Hne & Ht & _) _ IH]; [done|].
  cbn. rewrite Ht, IH. by destruct x.
Qed.

End Manifest.

(** X15.  The merged manifest reads back as the set it was written from.
    When every updated requirement is a requirement line (not empty, no
    white space around it, no line feed in it), splitting the new content
    of requirements.txt into trimmed non-empty lines gives exactly the
    entries of the union, in the same order; every entry is such a line;
    and merging the same updated requirements once more, as a second
    repair with the same answer would, leaves the content as it is. *)
Theorem merged_manifest_reads_back (code : jsstring) (reqs : list jsstring) :
  Forall isRequirementLine reqs ->
  manifestLines (mergedManifest code reqs) = unionRequirements code reqs /\
  Forall isRequirementLine (unionRequirements code reqs) /\
  mergedManifest (mergedManifest code reqs) reqs = mergedManifest code reqs.
Proof.
  intros Hr.
  pose proof (unionRequirements_clean code reqs Hr) as Hu.
  assert (manifestLines (mergedManifest code reqs) = unionRequirements code reqs) as E
    by (by apply manifestLines_join).
  split; [done|]. split; [done|].
  unfold mergedManifest at 1. unfold unionRequirements at 1. rewrite E.
  rewrite newSet_NoDup by apply NoDup_unionRequirements.
  rewrite setAddAll_members; [done|].
  apply Forall_forall. intros x Hx. apply elem_of_unionRequirements. by right.
Qed.

Lemma merged_manifest_witness :
  Forall isRequirementLine [lit "requests"; lit "aiohttp"] /\
  manifestLines
    (mergedManifest (lit "aiogram==3.1" ++ nl ++ lit "  requests " ++ nl)
       [lit "requests"; lit "aiohttp"])
  = [lit "aiogram==3.1"; lit "requests"; lit "aiohttp"].
Proof.
  assert (Forall isRequirementLine [lit "requests"; lit "aiohttp"]) as H.
  { assert (forall r, r <> [] -> trim r = r -> bool_decide (10%N ∈ r) = false ->
                      isRequirementLine r) as mk.
    { intros r ? ? Hd. split; [done|]. split; [done|]. by apply bool_decide_eq_false in Hd. }
    repeat constructor; apply mk; vm_compute; congruence. }
  split; [exact H|].
  exact (proj1 (merged_manifest_reads_back
                  (lit "aiogram==3.1" ++ nl ++ lit "  requests " ++ nl)
                  [lit "requests"; lit "aiohttp"] H)).
Defined.
(* ------------------------------------------------------------------ *)
(** ** The clock of [BotRunner] *)
(* ------------------------------------------------------------------ *)

Section Clock.

Lemma clock_table : forallb clockOk (seq 0 (60 * 100)) = true.
Proof. vm_compute. reflexivity. Qed.

Lemma formatTime_clockText s : (0 <= s < 6000)%Z -> formatTime s = clockText s.
Proof.
  intros Hs. pose proof clock_table as Ht.
  rewrite forallb_forall in Ht.
  assert (In (Z.to_nat s) (seq 0 (60 * 100))) as Hin by (apply in_seq; lia).
  specialize (Ht _ Hin). unfold clockOk in Ht. rewrite Z2Nat.id in Ht by lia.
  by apply bool_decide_eq_true in Ht.
Qed.

Lemma clockText_inj a b :
  (0 <= a < 6000)%Z -> (0 <= b < 6000)%Z -> clockText a = clockText b -> a = b.
Proof.
  intros Ha Hb E. unfold clockText, digit in E. injection E as E1 E2 E3 E4.
  apply Z2N.inj in E1, E2, E3, E4; Z.div_mod_to_equations; lia.
Qed.

End Clock.

(** X16.  The clock.  For a number of seconds from 0 up to 5999,
    [formatTime] gives five code units: the tens and the units of the
    minutes, a colon, the tens and the units of the seconds.  (The
    countdown it is applied to is between 0 and 600.)  Two different
    numbers of seconds in that range never show the same text. *)
Theorem formatTime_is_MM_colon_SS (seconds : Z) :
  (0 <= seconds < 6000)%Z ->
  formatTime seconds = clockText seconds /\
  length (formatTime seconds) = 5 /\
  (forall other, (0 <= other < 6000)%Z ->
     formatTime other = formatTime seconds -> other = seconds).
Proof.
  intros Hs. split; [by apply formatTime_clockText|].
  split; [by rewrite formatTime_clockText|].
  intros other Ho E. rewrite !formatTime_clockText in E by done.
  by apply clockText_inj.
Qed.

Lemma formatTime_witness :
  (0 <= 600 < 6000)%Z /\ formatTime 600 = lit "10:00".
Proof.
  assert (0 <= 600 < 6000)%Z as H by lia.
  split; [exact H|]. exact (proj1 (formatTime_is_MM_colon_SS 600 H)).
Defined.
(* ------------------------------------------------------------------ *)
(** ** The steps shown by the progress tracker and the workflow guide *)
(* ------------------------------------------------------------------ *)

Section Steps.

Lemma mem_decide {A} `{EqDecision A} (x : A) (l : list A) :
  bool_decide (x ∈ l) = true -> x ∈ l.
Proof. apply bool_decide_eq_true_1. Qed.

Lemma not_mem_decide {A} `{EqDecision A} (x : A) (l : list A) :
  bool_decide (x ∈ l) = false -> x ∈ l -> False.
Proof. intros H. by apply bool_decide_eq_false in H. Qed.

End Steps.

(** X17.  The progress tracker, which is rendered while a build is in
    progress, marks exactly one of the steps it shows as active: the step
    of the current state (Configuration while the token is validated).
    The steps shown before it are all marked completed, the steps after it
    are neither completed nor active.  The Debugging step is shown in
    DEBUGGING only; the Configuration step is shown before planning
    starts, and later, except in DEBUGGING, exactly when the build log has
    a line containing "configuration(s) required". *)
Theorem tracker_marks_one_step (state : BuildState) (logs : list LogEntry) :
  state <> IDLE -> state <> SUCCESS -> state <> ERROR ->
  let current :=
    match state with VALIDATING => GATHERING_CONFIG | _ => state end in
  (exists before after,
     ProgressTracker.visibleSteps state logs = before ++ current :: after /\
     Forall (fun s => ProgressTracker.isCompleted state s = true /\
                      ProgressTracker.isActive state s = false) before /\
     ProgressTracker.isActive state current = true /\
     ProgressTracker.isCompleted state current = false /\
     Forall (fun s => ProgressTracker.isCompleted state s = false /\
                      ProgressTracker.isActive state s = false) after) /\
  (DEBUGGING ∈ ProgressTracker.visibleSteps state logs <-> state = DEBUGGING) /\
  (GATHERING_CONFIG ∈ ProgressTracker.visibleSteps state logs <->
   state = VALIDATING \/ state = GATHERING_CONFIG \/
   state <> DEBUGGING /\ ProgressTracker.wasConfigSkipped logs = false).
Proof.
  intros H1 H2 H3 current.
  unfold ProgressTracker.visibleSteps, ProgressTracker.steps.
  destruct (ProgressTracker.wasConfigSkipped logs) eqn:Hs;
    destruct state; try done; subst current.
  all: match goal with
       | |- context [List.filter ?f ?l] =>
           let r := eval vm_compute in (List.filter f l) in
           replace (List.filter f l) with r by (vm_compute; reflexivity)
       end; cbn.
  all: split; [|split].
  all: try (split; intros Hm;
             [ first [ done | by left | by right; left | by right; right
                     | exfalso; revert Hm; by apply not_mem_decide ]
             | first [ by apply mem_decide | done
                     | by destruct Hm as [Hm|[Hm|[Hm Hm']]] ] ]).
  - by exists [], [PLANNING; CODING; BUILDING; RUNNING]; repeat constructor.
  - by exists [], [PLANNING; CODING; BUILDING; RUNNING]; repeat constructor.
  - by exists [], [CODING; BUILDING; RUNNING]; repeat constructor.
  - by exists [PLANNING], [BUILDING; RUNNING]; repeat constructor.
  - by exists [PLANNING; CODING], [RUNNING]; repeat constructor.
  - by exists [PLANNING; CODING; BUILDING], []; repeat constructor.
  - by exists [PLANNING; CODING; BUILDING; RUNNING], []; repeat constructor.
  - by exists [], [PLANNING; CODING; BUILDING; RUNNING]; repeat constructor.
  - by exists [], [PLANNING; CODING; BUILDING; RUNNING]; repeat constructor.
  - by exists [GATHERING_CONFIG], [CODING; BUILDING; RUNNING]; repeat constructor.
  - by exists [GATHERING_CONFIG; PLANNING], [BUILDING; RUNNING]; repeat constructor.
  - by exists [GATHERING_CONFIG; PLANNING; CODING], [RUNNING]; repeat constructor.
  - by exists [GATHERING_CONFIG; PLANNING; CODING; BUILDING], []; repeat constructor.
  - by exists [PLANNING; CODING; BUILDING; RUNNING], []; repeat constructor.
Qed.

Lemma tracker_witness :
  BUILDING <> IDLE /\ BUILDING <> SUCCESS /\ BUILDING <> ERROR /\
  (DEBUGGING ∈ ProgressTracker.visibleSteps BUILDING [] <-> BUILDING = DEBUGGING).
Proof.
  assert (BUILDING <> IDLE) as H1 by discriminate.
  assert (BUILDING <> SUCCESS) as H2 by discriminate.
  assert (BUILDING <> ERROR) as H3 by discriminate.
  split; [exact H1|]. split; [exact H2|]. split; [exact H3|].
  exact (proj1 (proj2 (tracker_marks_one_step BUILDING [] H1 H2 H3))).
Defined.

(** X18.  The workflow guide.  Of the steps it renders (Debug is rendered
    in DEBUGGING only, where Build is not), at most one is active; the
    steps rendered before the active one are completed, those after it are
    neither.  The active step is Plan, Code, Build or Debug in the build
    state of that name, Run when the build has succeeded and the bot is
    running, Download when it has succeeded and the bot is stopped; in
    every other state (IDLE, VALIDATING, GATHERING_CONFIG, ERROR) no step
    is active and none is completed. *)
Theorem guide_marks_progress (buildState : BuildState) (runtimeState : Bot.RuntimeState) :
  let active p := WorkflowGuide.isActive buildState runtimeState (fst p) in
  let completed p := WorkflowGuide.isCompleted buildState runtimeState (fst p) in
  exists before current after,
    WorkflowGuide.rendered buildState = before ++ current ++ after /\
    Forall (fun p => completed p = true /\ active p = false) before /\
    Forall (fun p => active p = true /\ completed p = false) current /\
    Forall (fun p => completed p = false /\ active p = false) after /\
    List.map snd current
    = match buildState, runtimeState with
      | PLANNING, _ => [WorkflowGuide.Plan]
      | CODING, _ => [WorkflowGuide.Code]
      | BUILDING, _ => [WorkflowGuide.Build]
      | DEBUGGING, _ => [WorkflowGuide.Debug]
      | SUCCESS, Bot.RUNNING => [WorkflowGuide.Run]
      | SUCCESS, Bot.STOPPED => [WorkflowGuide.Download]
      | _, _ => []
      end /\
    (current = [] -> before = []).
Proof.
  intros active completed.
  exists (List.filter completed (WorkflowGuide.rendered buildState)),
         (List.filter active (WorkflowGuide.rendered buildState)),
         (List.filter (fun p => negb (completed p) && negb (active p))
            (WorkflowGuide.rendered buildState)).
  subst active completed.
  destruct buildState, runtimeState; vm_compute; repeat split; try done.
  all: repeat constructor.
Qed.
(* ------------------------------------------------------------------ *)
(** ** The configuration form *)
(* ------------------------------------------------------------------ *)

Section Form.
Import ConfigurationForm.
Implicit Types (fs : FormState) (k v : jsstring) (secrets : list RequiredSecret).

Lemma get_set fs k v k' :
  get (set fs k v) k' = if streq k k' then Some v else get fs k'.
Proof.
  unfold get. induction fs as [|[a b] fs IH]; cbn.
  - by destruct (streq k k').
  - destruct (streq a k) eqn:E; cbn.
    + apply streq_true in E as ->. by destruct (streq k k').
    + destruct (streq a k') eqn:E'; cbn; [|exact IH].
      apply streq_true in E' as ->. apply streq_false in E.
      destruct (streq k k') eqn:E2; [|done]. apply streq_true in E2. congruence.
Qed.

Lemma get_initial_acc secrets fs k :
  get (fold_left (fun acc secret => set acc (key secret) []) secrets fs) k
  = if bool_decide (k ∈ List.map key secrets) then Some [] else get fs k.
Proof.
  revert fs. induction secrets as [|s secrets IH]; intros fs; cbn [fold_left List.map].
  - by rewrite bool_decide_eq_false_2 by apply not_elem_of_nil.
  - rewrite IH, get_set.
    destruct (decide (k ∈ List.map key secrets)) as [Hin|Hnin].
    + rewrite !bool_decide_eq_true_2; [done| |done]. by right.
    + rewrite (bool_decide_eq_false_2 _ Hnin).
      destruct (streq (key s) k) eqn:E.
      * apply streq_true in E as <-. rewrite bool_decide_eq_true_2; [done|by left].
      * apply streq_false in E. rewrite bool_decide_eq_false_2; [done|].
        rewrite elem_of_cons. intros [?|?]; congruence.
Qed.

Lemma get_initial secrets k :
  get (initialFormState secrets) k
  = if bool_decide (k ∈ List.map key secrets) then Some [] else None.
Proof. apply get_initial_acc. Qed.

Lemma find_app_first {A} (p : A -> bool) (l1 l2 : list A) :
  List.find p (l1 ++ l2)
  = match List.find p l1 with Some x => Some x | None => List.find p l2 end.
Proof. induction l1 as [|a l1 IH]; [done|]. cbn. by destruct (p a). Qed.

Lemma get_typed changes fs k :
  get (typed changes fs) k
  = match List.find (fun kv => streq (fst kv) k) (rev changes) with
    | Some kv => Some (snd kv)
    | None => get fs k
    end.
Proof.
  unfold typed. revert fs. induction changes as [|[a b] changes IH]; intros fs; [done|].
  cbn [fold_left rev fst snd]. rewrite IH. unfold handleChange.
  rewrite find_app_first. destruct (List.find _ (rev changes)) as [kv|]; [done|].
  cbn. rewrite get_set. by destruct (streq a k).
Qed.

Lemma trimStart_nil s : trimStart s = [] <-> Forall (fun c => isWhiteSpace c = true) s.
Proof.
  induction s as [|c s IH]; cbn; [done|].
  destruct (isWhiteSpace c) eqn:E.
  - rewrite IH. split; [by constructor|]. by inversion 1.
  - split; [done|]. inversion 1; congruence.
Qed.

Lemma trim_nil s : trim s = [] <-> Forall (fun c => isWhiteSpace c = true) s.
Proof.
  rewrite <- trimStart_nil. unfold trim, trimEnd.
  pose proof (trimStart_head s) as Hh.
  destruct (trimStart s) as [|c t]; [done|].
  cbn [rev]. rewrite trimStart_snoc by done. rewrite rev_app_distr. by cbn.
Qed.

Lemma filled_hasText v : negb (streq (trim v) []) = true <-> hasText v.
Proof.
  unfold hasText. rewrite negb_true_iff, streq_false, trim_nil.
  induction v as [|c v IH].
  - split; [intros H; by destruct H|by inversion 1].
  - destruct (isWhiteSpace c) eqn:E.
    + split.
      * intros H. right. apply IH. intros Hv. apply H. by constructor.
      * intros H Hall. inversion H as [? ? Hc|? ? Hv]; subst; [congruence|].
        apply IH in Hv. apply Hv. by inversion Hall.
    + split; [intros _; by left|]. intros _ Hall. inversion Hall; congruence.
Qed.

Lemma allFieldsFilled_spec secrets fs :
  allFieldsFilled secrets fs = true <->
  Forall (fun s => forall v, get fs (key s) = Some v -> hasText v) secrets.
Proof.
  unfold allFieldsFilled. rewrite forallb_forall, Forall_forall.
  split; intros H s Hs.
  - intros v Hv. apply list_elem_of_In, H in Hs. rewrite Hv in Hs. by apply filled_hasText.
  - apply list_elem_of_In in Hs. specialize (H s Hs).
    destruct (get fs (key s)) as [v|]; [|done]. by apply filled_hasText, H.
Qed.

End Form.

(** X19.  The form state of the configuration form is a map from the
    keys of the requested secrets to text.  It starts with the empty
    string under the key of each requested secret and has no other key;
    after any sequence of changes, the value under a key is the one typed
    last into the field of that key, or the initial one when nothing was
    typed there; a change replaces the value under its key and leaves the
    values under the other keys as they are. *)
Theorem form_state_holds_last_typed (secrets : list RequiredSecret)
    (changes : list (jsstring * jsstring)) (k : jsstring) :
  let initialState := ConfigurationForm.initialFormState secrets in
  let formState := ConfigurationForm.typed changes initialState in
  ConfigurationForm.get initialState k
  = (if bool_decide (k ∈ List.map key secrets) then Some [] else None) /\
  ConfigurationForm.get formState k
  = match List.find (fun kv => streq (fst kv) k) (rev changes) with
    | Some kv => Some (snd kv)
    | None => ConfigurationForm.get initialState k
    end /\
  (forall value k',
     ConfigurationForm.get (ConfigurationForm.handleChange k value formState) k'
     = if streq k k' then Some value else ConfigurationForm.get formState k').
Proof.
  intros initialState formState. split; [apply get_initial|].
  split; [apply get_typed|]. intros value k'. apply get_set.
Qed.

(** X20.  When the configuration form counts as filled.  After any
    sequence of changes, [allFieldsFilled] holds exactly when the field of
    every requested secret holds a value with at least one code unit that
    is not white space: blanks alone do not count.  Before anything is
    typed the form is filled only if no secret is requested.  The submit
    button is enabled exactly when the form is filled and [isBuilding] is
    false; with [isBuilding] true, which is what [App] passes while the
    form is on the page, it is disabled whatever has been typed. *)
Theorem form_filled_iff_every_field_has_text (secrets : list RequiredSecret)
    (changes : list (jsstring * jsstring)) :
  let initialState := ConfigurationForm.initialFormState secrets in
  let formState := ConfigurationForm.typed changes initialState in
  (ConfigurationForm.allFieldsFilled secrets formState = true <->
   Forall (fun s => exists value,
             ConfigurationForm.get formState (key s) = Some value /\ hasText value)
     secrets) /\
  (ConfigurationForm.allFieldsFilled secrets initialState = true <-> secrets = []) /\
  (forall isBuilding,
     ConfigurationForm.submitDisabled isBuilding secrets formState = false <->
     isBuilding = false /\ ConfigurationForm.allFieldsFilled secrets formState = true) /\
  ConfigurationForm.submitDisabled true secrets formState = true.
Proof.
  intros initialState formState.
  assert (forall s, s ∈ secrets -> exists value,
            ConfigurationForm.get formState (key s) = Some value) as Hkeys.
  { intros s Hs. subst formState. rewrite get_typed.
    destruct (List.find _ (rev changes)) as [kv|]; [by eexists|].
    subst initialState. rewrite get_initial.
    rewrite bool_decide_eq_true_2; [by eexists|].
    apply list_elem_of_fmap. by exists s. }
  split.
  { rewrite allFieldsFilled_spec, !Forall_forall. split; intros H s Hs.
    - destruct (Hkeys s Hs) as (value & Hv). exists value. split; [done|by apply (H s Hs)].
    - intros v Hv. destruct (H s Hs) as (value & Hv' & Ht). congruence. }
  split.
  { split; [|by intros ->]. destruct secrets as [|s secrets]; [done|].
    intros H. exfalso. apply allFieldsFilled_spec in H.
    apply Forall_inv in H. subst initialState.
    specialize (H []). rewrite get_initial in H.
    rewrite bool_decide_eq_true_2 in H by (by left).
    specialize (H eq_refl). inversion H. }
  split; [|done].
  intros isBuilding. unfold ConfigurationForm.submitDisabled.
  destruct isBuilding, (ConfigurationForm.allFieldsFilled secrets formState); cbn;
    intuition congruence.
Qed.
(* ------------------------------------------------------------------ *)
(** ** The code viewer *)
(* ------------------------------------------------------------------ *)

Section Viewer.
Import CodeViewer.
Implicit Types (line a b : jsstring).

Lemma replaceAll_flat_map c r (f : N -> jsstring) l :
  replaceAll c r (flat_map f l) = flat_map (fun x => replaceAll c r (f x)) l.
Proof.
  unfold replaceAll. induction l as [|x l IH]; [done|]. cbn.
  by rewrite flat_map_app, IH.
Qed.

Lemma escapedLine_flat_map line : escapedLine line = flat_map escapeUnit line.
Proof.
  unfold escapedLine. unfold replaceAll at 3. rewrite !replaceAll_flat_map.
  apply flat_map_ext. intros x. unfold escapeUnit.
  destruct (N.eqb_spec x 38) as [->|H38]; [by vm_compute|].
  destruct (N.eqb_spec x 60) as [->|H60]; [by vm_compute|].
  destruct (N.eqb_spec x 62) as [->|H62]; [by vm_compute|].
  unfold replaceAll. cbn. apply N.eqb_neq in H60, H62. rewrite H60. cbn. by rewrite H62.
Qed.

Lemma escapeUnit_cases c :
  (c = 38%N /\ escapeUnit c = [38; 97; 109; 112; 59]%N) \/
  (c = 60%N /\ escapeUnit c = [38; 108; 116; 59]%N) \/
  (c = 62%N /\ escapeUnit c = [38; 103; 116; 59]%N) \/
  (c <> 38%N /\ c <> 60%N /\ c <> 62%N /\ escapeUnit c = [c]).
Proof.
  unfold escapeUnit.
  destruct (N.eqb_spec c 38) as [->|H38]; [by left|].
  destruct (N.eqb_spec c 60) as [->|H60]; [by right; left|].
  destruct (N.eqb_spec c 62) as [->|H62]; [by right; right; left|].
  by right; right; right.
Qed.

Lemma escape_inj a b : flat_map escapeUnit a = flat_map escapeUnit b -> a = b.
Proof.
  revert b. induction a as [|x a IH]; intros [|y b] E; cbn in E.
  - done.
  - exfalso. destruct (escapeUnit_cases y) as [(_&H)|[(_&H)|[(_&H)|(_&_&_&H)]]];
      rewrite H in E; discriminate E.
  - exfalso. destruct (escapeUnit_cases x) as [(_&H)|[(_&H)|[(_&H)|(_&_&_&H)]]];
      rewrite H in E; discriminate E.
  - destruct (escapeUnit_cases x) as [(Hx&H)|[(Hx&H)|[(Hx&H)|(Hx1&Hx2&Hx3&H)]]];
    destruct (escapeUnit_cases y) as [(Hy&H')|[(Hy&H')|[(Hy&H')|(Hy1&Hy2&Hy3&H')]]];
      rewrite H, H' in E; cbn in E; simplify_eq; try done.
    all: f_equal; by apply IH.
Qed.

Lemma escape_no_angle line c :
  c = 60%N \/ c = 62%N -> c ∉ flat_map escapeUnit line.
Proof.
  intros Hc. induction line as [|x line IH]; cbn; [apply not_elem_of_nil|].
  rewrite elem_of_app. intros [H|H]; [|done].
  destruct (escapeUnit_cases x) as [(_&E)|[(_&E)|[(_&E)|(H1&H2&H3&E)]]];
    rewrite E in H; repeat (apply elem_of_cons in H as [H|H]; [destruct Hc; congruence|]);
    by apply elem_of_nil in H.
Qed.

End Viewer.

(** X21.  The HTML escaping done by the code viewer before it
    highlights a line.  The three passes together escape each code unit
    on its own: [&] becomes [&amp;], [<] becomes [&lt;], [>] becomes
    [&gt;] and every other code unit is kept (the [&] of an entity put in
    by a later pass is not escaped again, since [&] is replaced first).
    The escaped line contains neither [<] nor [>], escaping distributes
    over concatenation, and two different lines never have the same
    escaped text. *)
Theorem escaped_line_is_html_text (line : jsstring) :
  CodeViewer.escapedLine line = flat_map escapeUnit line /\
  (60%N ∉ CodeViewer.escapedLine line) /\
  (62%N ∉ CodeViewer.escapedLine line) /\
  (forall other, CodeViewer.escapedLine (line ++ other)
                 = CodeViewer.escapedLine line ++ CodeViewer.escapedLine other) /\
  (forall other, CodeViewer.escapedLine other = CodeViewer.escapedLine line -> other = line).
Proof.
  split; [apply escapedLine_flat_map|]. rewrite escapedLine_flat_map.
  split; [apply escape_no_angle; by left|]. split; [apply escape_no_angle; by right|].
  split.
  - intros other. by rewrite !escapedLine_flat_map, flat_map_app.
  - intros other E. rewrite escapedLine_flat_map in E. by apply escape_inj.
Qed.

Section ViewerControls.
Import CodeViewer.

Lemma viewer_run_app code onSave es1 es2 :
  run code onSave (es1 ++ es2)
  = fold_left (step code onSave) es2 (run code onSave es1).
Proof. apply fold_left_app. Qed.

Lemma last_default {A} (x : A) l d d' : List.last (x :: l) d = List.last (x :: l) d'.
Proof. revert x. induction l as [|y l IH]; intros x; [done|]. cbn in *. apply IH. Qed.

Lemma typing code onSave saved text texts :
  fold_left (step code onSave) (List.map Change texts) (mkState true text, saved)
  = (mkState true (List.last texts text), saved).
Proof.
  revert text. induction texts as [|t texts IH]; intros text; [done|].
  cbn [List.map fold_left]. unfold step at 2. cbn. rewrite app_nil_r, IH.
  destruct texts; [done|]. f_equal. f_equal. apply last_default.
Qed.

Lemma read_only code es : run code false es = (initialState code, []).
Proof.
  unfold run. induction es as [|e es IH]; [done|]. cbn [fold_left].
  by destruct e.
Qed.

End ViewerControls.

(** X22.  The edit controls of the code viewer.  Used without an
    [onSave] handler, as the code modal uses it, the viewer renders no
    control: whatever the user does, it never enters editing and never
    saves.  With a handler: after Edit, any typing and Save, the handler
    has been called once, with the text typed last (the unchanged code
    when nothing was typed), and the viewer is out of editing; after
    Edit, any typing and Cancel, the handler has not been called and the
    viewer is as it was on mount. *)
Theorem viewer_saves_what_was_typed (code : jsstring) (texts : list jsstring)
    (es : list CodeViewer.Event) :
  let typing := List.map CodeViewer.Change texts in
  CodeViewer.run code false es = (CodeViewer.initialState code, []) /\
  CodeViewer.run code true ([CodeViewer.ClickEdit] ++ typing ++ [CodeViewer.ClickSave])
  = (CodeViewer.mkState false (List.last texts code), [List.last texts code]) /\
  CodeViewer.run code true ([CodeViewer.ClickEdit] ++ typing ++ [CodeViewer.ClickCancel])
  = (CodeViewer.initialState code, []).
Proof.
  intros typing0. split; [apply read_only|].
  split.
  - rewrite app_assoc, viewer_run_app. unfold CodeViewer.run. rewrite fold_left_app.
    cbn [fold_left]. unfold CodeViewer.step at 3. cbn.
    subst typing0. by rewrite typing.
  - rewrite app_assoc, viewer_run_app. unfold CodeViewer.run. rewrite fold_left_app.
    cbn [fold_left]. unfold CodeViewer.step at 3. cbn.
    subst typing0. by rewrite typing.
Qed.
(* ------------------------------------------------------------------ *)
(** ** Reading the answer of the model *)
(* ------------------------------------------------------------------ *)

Section Extraction.
Import geminiService.
Implicit Types (s pre mid post : jsstring) (c closer : N).

Lemma fenceOpen_eq : fenceOpen = [96; 96; 96; 106; 115; 111; 110; 10]%N.
Proof. reflexivity. Qed.

Lemma fenceClose_eq : fenceClose = [10; 96; 96; 96]%N.
Proof. reflexivity. Qed.

Lemma matchHere_plain c s :
  c <> 96%N -> c <> 123%N -> c <> 91%N -> matchHere (c :: s) = None.
Proof.
  intros H1 H2 H3. unfold matchHere, fenced, braced, bracketed.
  rewrite fenceOpen_eq. cbn [startsWith].
  apply not_eq_sym, N.eqb_neq in H1. rewrite H1. cbn.
  destruct c as [|p]; [done|].
  repeat (destruct p as [p|p|]; try done).
Qed.

Lemma jsonMatch_plain pre s :
  plain pre -> s <> [] -> jsonMatch (pre ++ s) = jsonMatch s.
Proof.
  intros Hp Hs. induction Hp as [|c pre (H1 & H2 & H3) _ IH]; [done|].
  cbn [app jsonMatch]. by rewrite matchHere_plain.
Qed.

Lemma jsonMatch_plain_nil pre : plain pre -> jsonMatch pre = None.
Proof.
  intros Hp. induction Hp as [|c pre (H1 & H2 & H3) _ IH]; [done|].
  cbn [jsonMatch]. by rewrite matchHere_plain.
Qed.

Lemma greedyThrough_none closer s : closer ∉ s -> greedyThrough closer s = None.
Proof.
  induction s as [|c s IH]; [done|]. intros H. apply not_elem_of_cons in H as [Hc Hs].
  cbn. rewrite IH by done. apply not_eq_sym, N.eqb_neq in Hc. by rewrite Hc.
Qed.

Lemma greedyThrough_last closer mid post :
  closer ∉ post ->
  greedyThrough closer (mid ++ closer :: post) = Some (mid ++ [closer]).
Proof.
  intros Hp. induction mid as [|c mid IH]; cbn.
  - by rewrite greedyThrough_none, N.eqb_refl.
  - by rewrite IH.
Qed.

Lemma startsWith_app p s : startsWith (p ++ s) p = true.
Proof. induction p as [|c p IH]; [by destruct s|]. cbn. by rewrite N.eqb_refl. Qed.

Lemma lazyUntilFenceClose_first mid post :
  96%N ∉ mid ->
  lazyUntilFenceClose (mid ++ fenceClose ++ post) = Some mid.
Proof.
  intros Hm. induction mid as [|c mid IH].
  - cbn [app]. destruct (fenceClose ++ post) eqn:E; [done|].
    cbn [lazyUntilFenceClose]. rewrite <- E. by rewrite startsWith_app.
  - apply not_elem_of_cons in Hm as [Hc Hm].
    assert (startsWith (c :: mid ++ fenceClose ++ post) fenceClose = false) as Hs.
    { rewrite fenceClose_eq. cbn [startsWith].
      destruct (10 =? c)%N; [|done]. cbn [andb].
      destruct mid as [|d mid]; cbn [app startsWith]; [done|].
      apply not_elem_of_cons in Hm as [Hd _].
      apply N.eqb_neq in Hd. by rewrite Hd. }
    cbn [app lazyUntilFenceClose]. rewrite Hs, IH by done. done.
Qed.

Lemma matchHere_brace s :
  matchHere (123%N :: s)
  = (fun t => mkGroups None (Some (123%N :: t)) None) <$> greedyThrough 125 s.
Proof.
  unfold matchHere, fenced. rewrite fenceOpen_eq. cbn.
  by destruct (greedyThrough 125 s).
Qed.

Lemma matchHere_bracket s :
  matchHere (91%N :: s)
  = (fun t => mkGroups None None (Some (91%N :: t))) <$> greedyThrough 93 s.
Proof. unfold matchHere, fenced. rewrite fenceOpen_eq. by cbn. Qed.

End Extraction.

(** X23.  What [callGemini] resolves with.  The answer of the model is
    trimmed and searched from the left for a fenced block, a brace or a
    bracket; the text in front of the place found has none of the three
    opening marks.  If the first mark is an opening brace, the value is
    the text from it to the last closing brace of the whole answer; the
    same holds for brackets.  If it is a fence, the value is the text
    between the fence and the first closing fence, provided it is not
    empty; for an empty block the value is [undefined].  If there is no
    mark at all, the value is the trimmed answer.  If the call of the
    model throws, the promise is rejected with a fixed message. *)
Theorem answer_extraction (raw pre mid post : jsstring) :
  plain pre ->
  (trim raw = pre ++ [123%N] ++ mid ++ [125%N] ++ post -> 125%N ∉ post ->
   geminiService.callGemini (geminiService.ApiText raw)
   = inr (Some ([123%N] ++ mid ++ [125%N]))) /\
  (trim raw = pre ++ [91%N] ++ mid ++ [93%N] ++ post -> 93%N ∉ post ->
   geminiService.callGemini (geminiService.ApiText raw)
   = inr (Some ([91%N] ++ mid ++ [93%N]))) /\
  (trim raw = pre ++ geminiService.fenceOpen ++ mid ++ geminiService.fenceClose ++ post ->
   96%N ∉ mid ->
   geminiService.callGemini (geminiService.ApiText raw)
   = inr (match mid with [] => None | _ => Some mid end)) /\
  (trim raw = pre ->
   geminiService.callGemini (geminiService.ApiText raw) = inr (Some pre)) /\
  geminiService.callGemini geminiService.ApiThrows = inl geminiService.failedResponse.
Proof.
  intros Hpre. unfold geminiService.callGemini. cbn zeta.
  split; [|split; [|split; [|split; [|done]]]].
  - intros -> Hpost. rewrite jsonMatch_plain by done.
    cbn [app geminiService.jsonMatch]. rewrite matchHere_brace.
    by rewrite greedyThrough_last.
  - intros -> Hpost. rewrite jsonMatch_plain by done.
    cbn [app geminiService.jsonMatch]. rewrite matchHere_bracket.
    by rewrite greedyThrough_last.
  - intros -> Hmid. rewrite jsonMatch_plain by (by rewrite ?fenceOpen_eq).
    assert (geminiService.matchHere
              (geminiService.fenceOpen ++ mid ++ geminiService.fenceClose ++ post)
            = Some (geminiService.mkGroups (Some mid) None None)) as E.
    { unfold geminiService.matchHere, geminiService.fenced.
      rewrite startsWith_app, drop_app_length.
      by rewrite lazyUntilFenceClose_first. }
    destruct (geminiService.fenceOpen ++ mid ++ geminiService.fenceClose ++ post) eqn:E0;
      cbn [geminiService.jsonMatch]; rewrite E; cbn; by destruct mid.
  - intros ->. by rewrite jsonMatch_plain_nil.
Qed.

(** The answer wraps the object in a sentence. *)
Lemma answer_extraction_witness :
  plain (lit "Here it is: ") /\
  geminiService.callGemini
    (geminiService.ApiText (lit "  Here it is: {'secrets': [],} as asked" ++ nl))
  = inr (Some (lit "{'secrets': [],}")).
Proof.
  assert (plain (lit "Here it is: ")) as H.
  { unfold plain. apply Forall_forall. intros c Hc.
    apply (bool_decide_unpack _). revert c Hc. apply Forall_forall.
    apply (bool_decide_unpack _). vm_compute. exact I. }
  split; [exact H|].
  exact (proj1 (answer_extraction
                  (lit "  Here it is: {'secrets': [],} as asked" ++ nl)
                  (lit "Here it is: ") (lit "'secrets': [],") (lit " as asked") H)
           eq_refl ltac:(apply (bool_decide_unpack _); vm_compute; exact I)).
Defined.

Section Retry.
Import geminiService.
Context {T : Type}.
Variable JSON_parse : jsstring -> jsstring + T.
Variable typeError : jsstring.
Variable responses : nat -> ApiResult.
Variable retries : nat.


Lemma turns_value k : forall i remaining waited lastError value,
  i + k <= retries -> k < remaining ->
  (forall j, j < k -> exists e, (attempt JSON_parse typeError responses) (i + j) = inl e) ->
  (attempt JSON_parse typeError responses) (i + k) = inr value ->
  turns JSON_parse typeError responses retries i remaining waited lastError
  = mkRun (inr value) (S (i + k)) (waited + k).
Proof using Type.
  induction k as [|k IH]; intros i remaining waited lastError value Hi Hr Hfail Hok.
  - destruct remaining as [|remaining]; [lia|]. cbn [geminiService.turns].
    rewrite Nat.add_0_r in Hok. rewrite Hok. f_equal; lia.
  - destruct remaining as [|remaining]; [lia|]. cbn [geminiService.turns].
    destruct (Hfail 0) as (e & He); [lia|]. rewrite Nat.add_0_r in He. rewrite He.
    assert ((i <? retries) = true) as -> by (apply Nat.ltb_lt; lia).
    rewrite (IH (S i) remaining (S waited) e value); try lia.
    + f_equal; lia.
    + intros j Hj. destruct (Hfail (S j)) as (e' & He'); [lia|].
      exists e'. by rewrite <- He', Nat.add_succ_comm.
    + by rewrite <- Hok, Nat.add_succ_comm.
Qed.

Lemma turns_give_up remaining : forall i waited lastError,
  0 < remaining -> i + remaining = S retries ->
  (forall j, j < remaining -> exists e, (attempt JSON_parse typeError responses) (i + j) = inl e) ->
  exists e, attempt JSON_parse typeError responses retries = inl e /\
    turns JSON_parse typeError responses retries i remaining waited lastError
    = mkRun (inl (lit "Failed to get a valid JSON response from the AI after "
                    ++ showNat (retries + 1) ++ lit " attempts. Last error: " ++ e))
        (S retries) (waited + (remaining - 1)).
Proof using Type.
  induction remaining as [|remaining IH]; intros i waited lastError Hpos Hi Hfail; [lia|].
  destruct (Hfail 0) as (e & He); [lia|]. rewrite Nat.add_0_r in He.
  cbn [geminiService.turns]. rewrite He.
  destruct remaining as [|remaining].
  - assert (i = retries) as -> by lia. exists e. split; [done|].
    rewrite Nat.ltb_irrefl. cbn. f_equal. lia.
  - assert ((i <? retries) = true) as -> by (apply Nat.ltb_lt; lia).
    destruct (IH (S i) (S waited) e) as (e' & He' & E); try lia.
    + intros j Hj. destruct (Hfail (S j)) as (e'' & He''); [lia|].
      exists e''. by rewrite <- He'', Nat.add_succ_comm.
    + exists e'. split; [done|]. rewrite E. f_equal. lia.
Qed.

Lemma turns_bounds remaining : forall i waited lastError,
  i + remaining = S retries -> waited <= i -> waited <= retries ->
  modelCalls (turns JSON_parse typeError responses retries i remaining waited lastError) <= S retries /\
  waits (turns JSON_parse typeError responses retries i remaining waited lastError) <= retries.
Proof using Type.
  induction remaining as [|remaining IH]; intros i waited lastError Hi Hw Hw'.
  - cbn. lia.
  - cbn [geminiService.turns]. destruct (attempt JSON_parse typeError responses i) as [e|value]; [|cbn; lia].
    apply IH; [lia| |].
    + destruct (i <? retries); lia.
    + destruct (Nat.ltb_spec i retries); lia.
Qed.

End Retry.

(** X24.  [callGeminiForJson] with [retries] retries.  The model is
    called at most [retries + 1] times and at most [retries] waits of
    500 ms are made.  The first call whose answer can be read and parsed
    ends the run: if that is call number [k] (counting from 0), the value
    parsed is the result, [k + 1] calls have been made and [k] waits.  If
    none of the [retries + 1] calls gives a value, the promise is
    rejected after [retries + 1] calls and [retries] waits (none after the
    last failure), with a message that names the number of attempts and
    the message of the last error. *)
Theorem json_call_retries_then_gives_up {T : Type} (JSON_parse : jsstring -> jsstring + T)
    (typeError : jsstring) (responses : nat -> geminiService.ApiResult) (retries : nat) :
  let attempt := geminiService.attempt JSON_parse typeError responses in
  let r := geminiService.callGeminiForJson JSON_parse typeError responses retries in
  geminiService.modelCalls r <= retries + 1 /\
  geminiService.waits r <= retries /\
  (forall k value,
     k <= retries ->
     (forall j, j < k -> exists e, attempt j = inl e) ->
     attempt k = inr value ->
     r = geminiService.mkRun (inr value) (k + 1) k) /\
  ((forall j, j <= retries -> exists e, attempt j = inl e) ->
   exists e, attempt retries = inl e /\
     r = geminiService.mkRun
           (inl (lit "Failed to get a valid JSON response from the AI after "
                   ++ showNat (retries + 1) ++ lit " attempts. Last error: " ++ e))
           (retries + 1) retries).
Proof.
  intros attempt r. subst r. unfold geminiService.callGeminiForJson.
  destruct (turns_bounds JSON_parse typeError responses retries (S retries) 0 0 [])
    as (Hb1 & Hb2); try lia.
  split; [lia|]. split; [done|]. split.
  - intros k value Hk Hfail Hok.
    rewrite (turns_value JSON_parse typeError responses retries k 0 (S retries) 0 [] value);
      try done; try lia.
    f_equal; lia.
  - intros Hfail.
    destruct (turns_give_up JSON_parse typeError responses retries (S retries) 0 0 [])
      as (e & He & E); try lia.
    + intros j Hj. apply Hfail. lia.
    + exists e. split; [done|]. rewrite E. f_equal; lia.
Qed.

Section Sanitizer.
Import geminiService.
Implicit Types (text rest ws : jsstring).

Lemma sanitizedText_commas text :
  List.filter (fun c => negb (c =? 44)%N) (sanitizedText text)
  = List.filter (fun c => negb (c =? 44)%N) text.
Proof.
  induction text as [|c text IH]; [done|]. cbn.
  destruct (c =? 44)%N eqn:E; cbn.
  - destruct (beforeCloser text); cbn; by rewrite ?E.
  - by rewrite E, IH.
Qed.

Lemma sanitizedText_no_comma text : 44%N ∉ text -> sanitizedText text = text.
Proof.
  induction text as [|c text IH]; [done|]. intros H.
  apply not_elem_of_cons in H as [Hc Ht]. cbn.
  apply not_eq_sym, N.eqb_neq in Hc. rewrite Hc. cbn.
  by rewrite IH.
Qed.

Lemma sanitizedText_length text : length (sanitizedText text) <= length text.
Proof.
  induction text as [|c text IH]; [done|]. cbn.
  destruct ((c =? 44)%N && beforeCloser text); cbn; lia.
Qed.

Lemma beforeCloser_comma pre rest :
  beforeCloser (pre ++ 44%N :: rest) = beforeCloser (pre ++ [44%N]).
Proof.
  unfold beforeCloser. induction pre as [|c pre IH]; [done|]. cbn.
  by destruct (isWhiteSpace c).
Qed.

Lemma sanitizedText_before_comma pre :
  exists kept, forall rest,
    sanitizedText (pre ++ 44%N :: rest) = kept ++ sanitizedText (44%N :: rest).
Proof.
  induction pre as [|c pre (kept & IH)]; [by exists []|].
  destruct ((c =? 44)%N && beforeCloser (pre ++ [44%N])) eqn:E.
  - exists kept. intros rest. cbn [app sanitizedText].
    by rewrite beforeCloser_comma, E, IH.
  - exists (c :: kept). intros rest. cbn [app sanitizedText].
    by rewrite beforeCloser_comma, E, IH.
Qed.

End Sanitizer.

(** X25.  What the sanitizer of [callGeminiForJson] removes.  It deletes
    commas and nothing else: the other code units are kept in their
    order, and a text without a comma is unchanged.  A comma is deleted
    when a closing brace or bracket follows it, directly or after white
    space; it is kept when something else follows the white space (the
    first of two commas in a row, for one) or the text ends there.  What
    stands before the comma plays no part: what is kept of the text in
    front of a comma does not depend on what follows the comma. *)
Theorem sanitizer_removes_trailing_commas (text : jsstring) :
  List.filter (fun c => negb (c =? 44)%N) (geminiService.sanitizedText text)
  = List.filter (fun c => negb (c =? 44)%N) text /\
  length (geminiService.sanitizedText text) <= length text /\
  (44%N ∉ text -> geminiService.sanitizedText text = text) /\
  (forall ws closer rest,
     Forall (fun c => isWhiteSpace c = true) ws ->
     closer = 125%N \/ closer = 93%N ->
     geminiService.sanitizedText (44%N :: ws ++ closer :: rest)
     = geminiService.sanitizedText (ws ++ closer :: rest)) /\
  (forall ws c rest,
     Forall (fun c => isWhiteSpace c = true) ws ->
     isWhiteSpace c = false -> c <> 125%N -> c <> 93%N ->
     geminiService.sanitizedText (44%N :: ws ++ c :: rest)
     = 44%N :: geminiService.sanitizedText (ws ++ c :: rest)) /\
  (forall ws,
     Forall (fun c => isWhiteSpace c = true) ws ->
     geminiService.sanitizedText (44%N :: ws) = 44%N :: ws) /\
  (exists kept, forall rest,
     geminiService.sanitizedText (text ++ 44%N :: rest)
     = kept ++ geminiService.sanitizedText (44%N :: rest)).
Proof.
  split; [apply sanitizedText_commas|]. split; [apply sanitizedText_length|].
  split; [apply sanitizedText_no_comma|]. split; [|split; [|split]].
  - intros ws closer rest Hws Hc. cbn [geminiService.sanitizedText].
    unfold geminiService.beforeCloser. rewrite trimStart_ws by done.
    destruct Hc as [-> | ->]; by cbn.
  - intros ws c rest Hws Hc H1 H2. cbn [geminiService.sanitizedText].
    unfold geminiService.beforeCloser at 1. rewrite trimStart_ws by done.
    cbn [trimStart]. rewrite Hc.
    apply N.eqb_neq in H1, H2. by rewrite H1, H2.
  - intros ws Hws. cbn [geminiService.sanitizedText].
    unfold geminiService.beforeCloser.
    rewrite <- (app_nil_r ws) at 1. rewrite trimStart_ws by done. cbn.
    f_equal. apply sanitizedText_no_comma.
    intros Hin. apply (Forall_forall (fun c => isWhiteSpace c = true) ws) in Hin; [|done].
    by vm_compute in Hin.
  - apply sanitizedText_before_comma.
Qed.
(* ------------------------------------------------------------------ *)
(** ** The build connection: progress and success *)
(* ------------------------------------------------------------------ *)

Section Progress.
Implicit Types (w : World) (i : nat).

Lemma progress_message w i fs tok acc t d :
  connections w !! i = Some (mkConn OPEN fs tok acc false t) ->
  isTerminal d = false ->
  let w' := step w (WsMessage i d) in
  (exists acc', connections w' !! i = Some (mkConn OPEN fs tok acc' false t)) /\
  logs w' = logs w ++ progressLog d /\
  buildState w' = buildState w /\
  buildLoopAttempt w' = buildLoopAttempt w /\
  lastBuildError w' = lastBuildError w /\
  hasUnrebuiltChanges w' = hasUnrebuiltChanges w /\
  pending w' = pending w /\
  calls w' = calls w.
Proof.
  intros Hc Hd w'. subst w'. unfold step. cbn. rewrite Hc. cbn.
  destruct d as [[l|]| | | |raw]; try done; cbn.
  - destruct (includes (toLowerCase l) (lit "error")); cbn.
    + rewrite list_lookup_alter_eq, Hc. cbn. split; [by eexists|done].
    + split; [by eexists|done].
  - rewrite app_nil_r. split; [by eexists|done].
  - rewrite app_nil_r. split; [by eexists|done].
  - split; [by eexists|done].
Qed.

End Progress.

(** X26.  Messages that do not end the build.  On an open connection
    whose outcome is not yet decided, any sequence of messages other than
    [BUILD_DONE] and [BUILD_ERROR] only adds lines to the build log: a
    progress line with text adds that text, a message that cannot be
    parsed adds "Error processing message from server: ..." with the raw
    data, a progress message without text and a message of another type
    add nothing.  The build state, the attempt counter, the last build
    error and the pending work are unchanged, no call is made, and the
    connection stays open and undecided with its watchdog as it was: the
    build can still complete, fail or time out. *)
Theorem progress_messages_only_log (w : World) (i : nat) (fs : list GeneratedFile)
    (tok acc : jsstring) (t : bool) (msgs : list WsData) :
  connections w !! i = Some (mkConn OPEN fs tok acc false t) ->
  Forall (fun d => isTerminal d = false) msgs ->
  let w' := run w (messageEvents i msgs) in
  (exists acc', connections w' !! i = Some (mkConn OPEN fs tok acc' false t)) /\
  logs w' = logs w ++ flat_map progressLog msgs /\
  buildState w' = buildState w /\
  buildLoopAttempt w' = buildLoopAttempt w /\
  lastBuildError w' = lastBuildError w /\
  hasUnrebuiltChanges w' = hasUnrebuiltChanges w /\
  pending w' = pending w /\
  calls w' = calls w /\
  enabled (WsMessage i BUILD_DONE) w' = true /\
  enabled (WsTimeout i) w' = t.
Proof.
  intros Hc Hmsgs. revert w acc Hc.
  induction Hmsgs as [|d msgs Hd _ IH]; intros w acc Hc w'.
  - subst w'. cbn. rewrite Hc, app_nil_r. cbn. split; [by eexists|done].
  - subst w'. change (messageEvents i (d :: msgs)) with (WsMessage i d :: messageEvents i msgs).
    cbn [flat_map]. rewrite run_cons.
    destruct (progress_message w i fs tok acc t d Hc Hd)
      as ((acc1 & H1) & H2 & H3 & H4 & H5 & H6 & H7 & H8).
    destruct (IH _ _ H1) as (I1 & I2 & I3 & I4 & I5 & I6 & I7 & I8 & I9 & I10).
    split; [done|]. split. { etrans; [exact I2|]. by rewrite H2, <- app_assoc. }
    repeat split; try done; congruence.
Qed.

Lemma progress_messages_witness :
  let w := run initial (generationEvents ++ [WsOpen 0]) in
  connections w !! 0
  = Some (mkConn OPEN (currentBuildFiles w) (lit "123:abc") [] false true) /\
  Forall (fun d => isTerminal d = false)
    [BUILD_LOG (Some (lit "Step 1/7")); Unparseable (lit "<html>"); OtherMessage] /\
  buildState
    (run w (messageEvents 0
              [BUILD_LOG (Some (lit "Step 1/7")); Unparseable (lit "<html>"); OtherMessage]))
  = buildState w.
Proof.
  intros w.
  assert (connections w !! 0
          = Some (mkConn OPEN (currentBuildFiles w) (lit "123:abc") [] false true)) as Hc
    by (vm_compute; reflexivity).
  assert (Forall (fun d => isTerminal d = false)
            [BUILD_LOG (Some (lit "Step 1/7")); Unparseable (lit "<html>"); OtherMessage])
    as Hm by (by repeat constructor).
  split; [exact Hc|]. split; [exact Hm|].
  exact (proj1 (proj2 (proj2 (progress_messages_only_log w 0 _ _ [] true _ Hc Hm)))).
Defined.

(** X27.  A build that succeeds.  When [BUILD_DONE] arrives on an open
    connection whose outcome is not yet decided, the build state becomes
    SUCCESS, the flag for unrebuilt changes is cleared, the line
    "Build complete" (after a check mark) is added to the build log, the
    watchdog is cleared and the client closes the socket with code 1000.
    The files and the attempt counter are untouched.  The effect that
    starts the bot applies from then on exactly if the bot is not
    running, and the watchdog of the connection can no longer fire. *)
Theorem build_done_succeeds (w : World) (i : nat) (fs : list GeneratedFile)
    (tok acc : jsstring) (t : bool) :
  connections w !! i = Some (mkConn OPEN fs tok acc false t) ->
  let w' := step w (WsMessage i BUILD_DONE) in
  buildState w' = SUCCESS /\
  hasUnrebuiltChanges w' = false /\
  logs w' = logs w ++ [mkLog ([9989%N] ++ lit " Build complete") LogType.log] /\
  connections w' !! i = Some (mkConn CLOSING fs tok acc true false) /\
  calls w' = calls w ++ [ClearTimeout i; WsCloseCall i 1000] /\
  generatedFiles w' = generatedFiles w /\
  buildLoopAttempt w' = buildLoopAttempt w /\
  enabled AutoStart w' = negb (isRunning w) /\
  enabled (WsTimeout i) w' = false.
Proof.
  intros Hc w'. subst w'. unfold step. cbn [enabled]. rewrite Hc. cbn [from_option isOpen readyState].
  cbn [handle]. unfold ws_onmessage.
  assert (connections (cleanup i w) !! i = Some (mkConn OPEN fs tok acc false false)) as Hl.
  { cbn. by rewrite list_lookup_alter_eq, Hc. }
  rewrite (onceCompleted_undecided _ _ _ _ _ _ _ _ Hl).
  unfold wsClose. cbn. rewrite !list_lookup_alter_eq, Hc. cbn.
  rewrite !list_lookup_alter_eq, Hc. cbn. rewrite <- app_assoc.
  unfold isRunning. by cbn.
Qed.

Lemma build_done_witness :
  let w := run initial (generationEvents ++ [WsOpen 0]) in
  connections w !! 0
  = Some (mkConn OPEN (currentBuildFiles w) (lit "123:abc") [] false true) /\
  buildState (step w (WsMessage 0 BUILD_DONE)) = SUCCESS.
Proof.
  intros w.
  assert (connections w !! 0
          = Some (mkConn OPEN (currentBuildFiles w) (lit "123:abc") [] false true)) as Hc
    by (vm_compute; reflexivity).
  split; [exact Hc|].
  exact (proj1 (build_done_succeeds w 0 _ _ [] true Hc)).
Defined.
